(** * Scheduling front end: a shallow embedding of its client-side logic

    The front end is a set of React form components over a thin REST client.
    This development embeds the pieces that carry behaviour:

    - the password checks of the auth forms ([signupSchema],
      [getPasswordStrength]);
    - the scope list of the OIDC configuration form ([addScope],
      [removeScope]);
    - the axios instance with its two interceptors and the [ApiClient]
      endpoint table;
    - the [AuthProvider] context ([login], [logout], [register],
      [updateUser], [refreshUser], ...);
    - the [onSubmit] handlers of the form components and the message
      paragraphs of their JSX;
    - the element tree of the home page;
    - the tables and row handlers of the list components, the permission
      hook, the start-up of the provider and the endpoint constants.

    No component among the sources shows bookable slots; the slot view is
    modelled from the specification.

    Effects (local storage, router, toasts, HTTP requests, React state) are
    threaded through a small state-and-exception monad. *)

From stdpp Require Import gmap strings list.
From Stdlib Require Import NArith DecimalString.

Open Scope string_scope.
Open Scope nat_scope.
Open Scope list_scope.

(** ** JavaScript strings as sequences of UTF-16 code units *)

Module Js.

(** [s.length] counts code units, and the regular expressions of the forms
    (none carries the [u] flag) match code unit by code unit. *)
Definition str := list N.

Definition of_string (s : string) : str :=
  map Ascii.N_of_ascii (String.list_ascii_of_string s).

(** [re.test(s)] for a regular expression made of one character class. *)
Definition test (class : N -> bool) (s : str) : bool := existsb class s.

(** [/[A-Z]/] *)
Definition upper (c : N) : bool := ((65 <=? c) && (c <=? 90))%N.
(** [/[a-z]/] *)
Definition lower (c : N) : bool := ((97 <=? c) && (c <=? 122))%N.
(** [/\d/] *)
Definition digit (c : N) : bool := ((48 <=? c) && (c <=? 57))%N.

(** The members of the character class of the special-character test, in
    the order written: ! @ # $ % ^ & * ( ) , . ? double-quote : { } | < > *)
Definition special_units : list N :=
  [33; 64; 35; 36; 37; 94; 38; 42; 40; 41; 44; 46; 63; 34; 58; 123; 125;
   124; 60; 62]%N.

Definition special (c : N) : bool := existsb (N.eqb c) special_units.

(** Truthiness of a text kept as a [string]: only the empty one is
    falsy. *)
Definition nonempty (s : string) : bool :=
  match s with EmptyString => false | _ => true end.

End Js.

(** ** Password rules of the signup form *)

Module Signup.

Record SignupFormData := {
  email : Js.str;
  first_name : Js.str;
  last_name : Js.str;
  password : Js.str;
  password_confirm : Js.str;
  terms_accepted : bool
}.

(** A validation issue: the path of the field and the message. *)
Definition Issue : Type := string * string.

Definition check (path : string) (ok : bool) (message : string) : list Issue :=
  if ok then [] else [(path, message)].

(** The [password] field of [signupSchema]: every failing check adds its
    issue, in the order the checks are chained. *)
Definition passwordIssues (p : Js.str) : list Issue :=
  check "password" (8 <=? length p)
    "Password must be at least 8 characters"
  ++ check "password" (Js.test Js.upper p)
    "Password must contain at least one uppercase letter"
  ++ check "password" (Js.test Js.lower p)
    "Password must contain at least one lowercase letter"
  ++ check "password" (Js.test Js.digit p)
    "Password must contain at least one number"
  ++ check "password" (Js.test Js.special p)
    "Password must contain at least one special character".

Section Schema.

(** The format test behind [z.string().email(..)], which belongs to the
    schema library. *)
Variable isEmail : Js.str -> bool.

Definition signupSchema (d : SignupFormData) : list Issue :=
  check "email" (isEmail (email d)) "Please enter a valid email address"
  ++ check "first_name" (1 <=? length (first_name d)) "First name is required"
  ++ check "first_name" (length (first_name d) <=? 30) "First name is too long"
  ++ check "last_name" (1 <=? length (last_name d)) "Last name is required"
  ++ check "last_name" (length (last_name d) <=? 30) "Last name is too long"
  ++ passwordIssues (password d)
  ++ check "terms_accepted" (terms_accepted d)
       "You must accept the terms and conditions"
  ++ check "password_confirm"
       (bool_decide (password d = password_confirm d))
       "Passwords don't match".

(** The form submits only data for which the resolver reports no issue. *)
Definition accepted (d : SignupFormData) : Prop := signupSchema d = [].

End Schema.

Definition incr (b : bool) (strength : nat) : nat :=
  if b then S strength else strength.

Definition getPasswordStrength (password : Js.str) : nat :=
  let strength := 0 in
  let strength := incr (8 <=? length password) strength in
  let strength := incr (Js.test Js.upper password) strength in
  let strength := incr (Js.test Js.lower password) strength in
  let strength := incr (Js.test Js.digit password) strength in
  let strength := incr (Js.test Js.special password) strength in
  strength.

(** [passwordValue ? getPasswordStrength(passwordValue) : 0]; the empty
    string is the only falsy string. *)
Definition passwordStrength (passwordValue : Js.str) : nat :=
  match passwordValue with
  | [] => 0
  | _ => getPasswordStrength passwordValue
  end.

(** The text after "Password strength:" in the indicator. *)
Definition strengthLabel (passwordStrength : nat) : string :=
  if passwordStrength <=? 2 then "Weak"
  else if passwordStrength <=? 3 then "Fair"
  else if passwordStrength <=? 4 then "Good"
  else "Strong".

(** The indicator is rendered only for a non-empty password value. *)
Definition strengthIndicator (passwordValue : Js.str) : option string :=
  match passwordValue with
  | [] => None
  | _ => Some (strengthLabel (passwordStrength passwordValue))
  end.

End Signup.

(** ** Scope list of the OIDC configuration form *)

Module Oidc.

(** The pieces of component state the two handlers touch: the
    [customScopes] and [newScope] state cells and the [scopes] value of
    the form. *)
Record ScopeState := {
  customScopes : list string;
  newScope : string;
  formScopes : list string
}.

Definition includes (l : list string) (s : string) : bool :=
  bool_decide (s ∈ l).

Definition addScope (st : ScopeState) : ScopeState :=
  if Js.nonempty (newScope st) && negb (includes (customScopes st) (newScope st))
  then
    let updatedScopes := customScopes st ++ [newScope st] in
    {| customScopes := updatedScopes;
       newScope := EmptyString;
       formScopes := updatedScopes |}
  else st.

Definition removeScope (scope : string) (st : ScopeState) : ScopeState :=
  let updatedScopes := filter (λ s, s ≠ scope) (customScopes st) in
  {| customScopes := updatedScopes;
     newScope := newScope st;
     formScopes := updatedScopes |}.

(** Typing into the scope input. *)
Definition setNewScope (s : string) (st : ScopeState) : ScopeState :=
  {| customScopes := customScopes st;
     newScope := s;
     formScopes := formScopes st |}.

End Oidc.

(** ** JSON values

    Request bodies, response bodies and the objects kept in component state
    are JavaScript values of the JSON kind. A text is kept as the sequence
    of its code units, one character each, so it holds the code units
    below 256. An object is kept as the list of its own properties. The
    members a value inherits from its prototype are functions, not values
    of this kind; no handler reads one as a property. *)

#[warnings="-register-all"]
Inductive Json :=
| JUndefined
| JNull
| JBool (b : bool)
| JNum (n : Z)
| JStr (s : string)
| JArr (items : list Json)
| JObj (fields : list (string * Json)).

Module JsonOps.

(** Truthiness, as used by [if (x)], [x && y] and [x || y]. *)
Definition truthy (j : Json) : bool :=
  match j with
  | JUndefined | JNull => false
  | JBool b => b
  | JNum n => negb (n =? 0)%Z
  | JStr s => negb (String.eqb s EmptyString)
  | JArr _ | JObj _ => true
  end.

Fixpoint lookup_field (k : string) (fields : list (string * Json)) : Json :=
  match fields with
  | [] => JUndefined
  | (k', v) :: rest => if String.eqb k k' then v else lookup_field k rest
  end.

(** [Some i] when the property name [k] is an array index: the canonical
    decimal numeral of a number below 2^32 - 1. *)
Definition array_index (k : string) : option N :=
  match NilZero.uint_of_string k with
  | Some digits =>
      let i := N.of_uint digits in
      if String.eqb (NilZero.string_of_uint (N.to_uint i)) k
         && (i <? 4294967295)%N
      then Some i else None
  | None => None
  end.

(** The property name of the index [i]. *)
Definition index_key (i : nat) : string :=
  NilZero.string_of_uint (N.to_uint (N.of_nat i)).

(** The one-character texts of a text, in order. *)
Definition chars (s : string) : list Json :=
  map (λ c, JStr (String c EmptyString)) (String.list_ascii_of_string s).

(** The own properties of an array, or of a text seen as the array of its
    characters: [length] and the indices. *)
Definition item_prop (k : string) (items : list Json) : Json :=
  if String.eqb k "length" then JNum (Z.of_nat (length items))
  else
    match array_index k with
    | Some i =>
        if (i <? N.of_nat (length items))%N
        then nth (N.to_nat i) items JUndefined
        else JUndefined
    | None => JUndefined
    end.

(** [o?.k]: [undefined] when [o] is nullish or has no such own property. *)
Definition opt_prop (k : string) (o : Json) : Json :=
  match o with
  | JObj fields => lookup_field k fields
  | JArr items => item_prop k items
  | JStr s => item_prop k (chars s)
  | _ => JUndefined
  end.

(** [o.k]: as [o?.k], but reading a property of [undefined] or [null]
    raises a TypeError, here [None]. *)
Definition prop (k : string) (o : Json) : option Json :=
  match o with
  | JUndefined | JNull => None
  | _ => Some (opt_prop k o)
  end.

(** [x === 'literal'] *)
Definition is_str (lit : string) (j : Json) : bool :=
  match j with
  | JStr s => String.eqb s lit
  | _ => false
  end.

(** [x === n] for a number literal. *)
Definition is_num (n : Z) (j : Json) : bool :=
  match j with
  | JNum m => (m =? n)%Z
  | _ => false
  end.

(** Assignment of one own property: the value is replaced in place when
    the key exists and appended otherwise. *)
Fixpoint set_field (k : string) (v : Json) (fields : list (string * Json))
  : list (string * Json) :=
  match fields with
  | [] => [(k, v)]
  | (k', v') :: rest =>
      if String.eqb k k' then (k, v) :: rest
      else (k', v') :: set_field k v rest
  end.

(** The own enumerable properties an object spread (or [Object.entries])
    copies: the properties of an object, the indices of an array, the
    indices of the characters of a text. [undefined], [null], a boolean
    or a number have none. *)
Definition own_fields (j : Json) : list (string * Json) :=
  match j with
  | JObj fields => fields
  | JArr items => imap (λ i x, (index_key i, x)) items
  | JStr s => imap (λ i x, (index_key i, x)) (chars s)
  | _ => []
  end.

(** A property with an array index put into a list sorted by index,
    before the first property whose index is not smaller. *)
Fixpoint insert_indexed (i : N) (kv : string * Json)
    (sorted : list (N * (string * Json))) : list (N * (string * Json)) :=
  match sorted with
  | [] => [(i, kv)]
  | (j, kv') :: rest =>
      if (i <=? j)%N then (i, kv) :: sorted
      else (j, kv') :: insert_indexed i kv rest
  end.

(** The properties whose name is an array index, sorted by index. *)
Definition indexed (fields : list (string * Json))
  : list (N * (string * Json)) :=
  foldr (λ kv acc,
           match array_index kv.1 with
           | Some i => insert_indexed i kv acc
           | None => acc
           end) [] fields.

(** The properties whose name is no array index, in the order given. *)
Definition named (fields : list (string * Json)) : list (string * Json) :=
  List.filter (λ kv, match array_index kv.1 with
                     | Some _ => false
                     | None => true
                     end) fields.

(** The order in which an object lists its own properties: those named by
    an array index first, by ascending index, then the others in the order
    they were created. *)
Definition property_order (fields : list (string * Json))
  : list (string * Json) :=
  map snd (indexed fields) ++ named fields.

(** [{ ...a, ...b }] *)
Definition spread (a b : Json) : Json :=
  JObj (property_order
          (foldl (λ acc kv, set_field kv.1 kv.2 acc)
             (own_fields a) (own_fields b))).

End JsonOps.

(** ** The effect monad: state of type [S] and thrown values *)

Module Http.
(** What a resolved call yields ([response.status], [response.data]). *)
Record Response := { status : Z; data : Json }.
End Http.
Abbreviation Response := Http.Response.

(** What a [catch] clause can receive. *)
Inductive Thrown :=
| AxiosError (response : option Response)
| TypeError
| OtherError (value : Json).

Inductive Outcome (A : Type) :=
| Returned (a : A)
| Threw (e : Thrown).
Arguments Returned {A} a.
Arguments Threw {A} e.

Definition M (S A : Type) : Type := S -> Outcome A * S.

Module Eff.

Definition ret {S A} (a : A) : M S A := λ s, (Returned a, s).

Definition bind {S A B} (m : M S A) (k : A -> M S B) : M S B :=
  λ s, match m s with
       | (Returned a, s') => k a s'
       | (Threw e, s') => (Threw e, s')
       end.

Definition throw {S A} (e : Thrown) : M S A := λ s, (Threw e, s).

Definition get {S} : M S S := λ s, (Returned s, s).

Definition modify {S} (f : S -> S) : M S unit := λ s, (Returned tt, f s).

(** [try { body } catch (e) { handler e }] *)
Definition try_catch {S A} (body : M S A) (handler : Thrown -> M S A) : M S A :=
  λ s, match body s with
       | (Returned a, s') => (Returned a, s')
       | (Threw e, s') => handler e s'
       end.

(** [try { body } finally { final }]: [final] always runs; when it
    completes normally the outcome of [body] stands, when it throws its
    exception replaces that outcome. *)
Definition try_finally {S A} (body : M S A) (final : M S unit) : M S A :=
  λ s, match body s with
       | (o, s') =>
           match final s' with
           | (Returned _, s'') => (o, s'')
           | (Threw e, s'') => (Threw e, s'')
           end
       end.

(** [try { body } catch (e) { handler e } finally { final }] *)
Definition try_catch_finally {S A}
    (body : M S A) (handler : Thrown -> M S A) (final : M S unit) : M S A :=
  try_finally (try_catch body handler) final.

(** Reading a property that raises a TypeError on a nullish receiver. *)
Definition of_option {S A} (o : option A) : M S A :=
  match o with
  | Some a => ret a
  | None => throw TypeError
  end.

Definition when {S} (b : bool) (m : M S unit) : M S unit :=
  if b then m else ret tt.

(** The state reached by running [m] from [s], and its outcome. *)
Definition exec {S A} (m : M S A) (s : S) : S := (m s).2.
Definition outcome {S A} (m : M S A) (s : S) : Outcome A := (m s).1.

End Eff.

Notation "'let*' x := m 'in' k" := (Eff.bind m (λ x, k))
  (at level 10, x name, m at level 100, k at level 200).
Notation "m ';;;' k" := (Eff.bind m (λ _, k))
  (at level 100, k at level 200, right associativity).

(** ** The browser, the router and the network *)

(** A value held by local storage: what the caller passed, or the
    [JSON.stringify] image of a value (kept as the value it serialises). *)
Inductive Stored :=
| Raw (v : Json)
| Stringified (v : Json).

(** What exists only in a browser ([typeof window !== 'undefined']). *)
Record Window := {
  localStorage : gmap string Stored;
  href : string                         (* window.location.href *)
}.

Inductive Verb := GET | POST | PATCH | DELETE.

(** One HTTP request as it leaves the axios instance. *)
Record Request := {
  verb : Verb;
  url : string;
  body : Json;                          (* [JUndefined] when there is none *)
  config : Json;                        (* per-call config, or [JUndefined] *)
  authorization : option Stored         (* [Token <token>] header, if set *)
}.

(** The answer of the network to one request: a response with a status, or
    none at all (connection failure, or the 30 s timeout). *)
Inductive Reply :=
| Responded (r : Response)
| NoResponse.

Inductive Variant := success | destructive | warning | info.

Record Toast := { title : string; description : string; variant : Variant }.

Record World := {
  window : option Window;               (* [None] outside a browser *)
  routerLog : list string;              (* targets of router.push, in order *)
  requests : list Request;              (* requests sent so far, in order *)
  server : list Request -> Request -> Reply;
                                        (* the backend, given the history *)
  toasts : list Toast;                  (* toasts shown so far, in order *)
  console : list string;                (* labels of console.error calls *)
  user : Json                           (* the [user] state of AuthProvider *)
}.

Module Browser.

Definition set_window (win : option Window) (w : World) : World :=
  {| window := win; routerLog := routerLog w; requests := requests w;
     server := server w; toasts := toasts w; console := console w;
     user := user w |}.

(** [localStorage.getItem(key)] where a window exists. *)
Definition stored (key : string) (w : World) : option Stored :=
  win ← window w; localStorage win !! key.

Definition localStorage_removeItem (key : string) : M World unit :=
  Eff.modify (λ w,
    set_window
      (option_map (λ win, {| localStorage := delete key (localStorage win);
                             href := href win |}) (window w)) w).

Definition localStorage_setItem (key : string) (v : Stored) : M World unit :=
  Eff.modify (λ w,
    set_window
      (option_map (λ win, {| localStorage := <[key := v]> (localStorage win);
                             href := href win |}) (window w)) w).

(** [window.location.href = target] *)
Definition set_href (target : string) : M World unit :=
  Eff.modify (λ w,
    set_window
      (option_map (λ win, {| localStorage := localStorage win;
                             href := target |}) (window w)) w).

Definition location (w : World) : option string := option_map href (window w).

(** [router.push(target)] *)
Definition router_push (target : string) : M World unit :=
  Eff.modify (λ w,
    {| window := window w; routerLog := routerLog w ++ [target];
       requests := requests w; server := server w; toasts := toasts w;
       console := console w; user := user w |}).

Definition console_error (label : string) : M World unit :=
  Eff.modify (λ w,
    {| window := window w; routerLog := routerLog w;
       requests := requests w; server := server w; toasts := toasts w;
       console := console w ++ [label]; user := user w |}).

Definition toast (t : Toast) : M World unit :=
  Eff.modify (λ w,
    {| window := window w; routerLog := routerLog w;
       requests := requests w; server := server w;
       toasts := toasts w ++ [t]; console := console w; user := user w |}).

(** [setUser(v)] of AuthProvider. *)
Definition setUser (v : Json) : M World unit :=
  Eff.modify (λ w,
    {| window := window w; routerLog := routerLog w;
       requests := requests w; server := server w; toasts := toasts w;
       console := console w; user := v |}).

(** The adapter: the request goes on the wire once and the backend
    answers, knowing what it has received before. *)
Definition send (r : Request) : M World Reply :=
  λ w, (Returned (server w (requests w) r),
        {| window := window w; routerLog := routerLog w;
           requests := requests w ++ [r]; server := server w;
           toasts := toasts w; console := console w; user := user w |}).

End Browser.

(** The storage helpers of [lib/utils], a module that is not among the
    sources. *)
Module StorageUtils.

(** Modelled from the spec: [getStorageItem] of [lib/utils], missing from
    the sources; taken to read local storage, and to find nothing outside
    a browser. *)
Definition getStorageItem (key : string) : M World (option Stored) :=
  λ w, (Returned (Browser.stored key w), w).

(** Modelled from the spec: [setStorageItem] of [lib/utils], missing from
    the sources; taken to write local storage, and to do nothing outside a
    browser. *)
Definition setStorageItem (key : string) (v : Stored) : M World unit :=
  Browser.localStorage_setItem key v.

(** Modelled from the spec: [removeStorageItem] of [lib/utils], missing
    from the sources; taken to remove the key from local storage, and to
    do nothing outside a browser. *)
Definition removeStorageItem (key : string) : M World unit :=
  Browser.localStorage_removeItem key.

End StorageUtils.

Module STORAGE_KEYS.
Definition AUTH_TOKEN : string := "auth_token".
Definition USER_DATA : string := "user_data".
Definition THEME_MODE : string := "theme_mode".
Definition SIDEBAR_COLLAPSED : string := "sidebar_collapsed".
Definition RECENT_SEARCHES : string := "recent_searches".
Definition DRAFT_FORMS : string := "draft_forms".
End STORAGE_KEYS.

(** ** The axios instance and its interceptors *)

Module Axios.

(** What [api.get], [api.post], [api.patch] or [api.delete] is called
    with. *)
Record Call := {
  call_verb : Verb;
  call_url : string;
  call_body : Json;
  call_config : Json
}.

(** [if (token)] on what [localStorage.getItem] returned: the empty text
    is the only falsy one. *)
Definition token_truthy (t : Stored) : bool :=
  match t with
  | Raw (JStr s) => negb (String.eqb s EmptyString)
  | _ => true
  end.

(** The request as the request interceptor leaves it: the
    [Authorization] header is added when a browser holds a token. *)
Definition authorize (c : Call) (w : World) : Request :=
  let token :=
    match window w with
    | Some win => localStorage win !! "auth_token"
    | None => None
    end in
  {| verb := call_verb c; url := call_url c; body := call_body c;
     config := call_config c;
     authorization :=
       match token with
       | Some t => if token_truthy t then Some t else None
       | None => None
       end |}.

Definition requestInterceptor (c : Call) : M World Request :=
  λ w, (Returned (authorize c w), w).

(** What the backend answers to the call [c] made in the world [w]. *)
Definition answer (c : Call) (w : World) : Reply :=
  server w (requests w) (authorize c w).

(** The world right after the call [c] has gone on the wire. *)
Definition after_send (c : Call) (w : World) : World :=
  Eff.exec (Browser.send (authorize c w)) w.

(** [error.response?.status === n] *)
Definition has_status (n : Z) (error : Thrown) : bool :=
  match error with
  | AxiosError (Some r) => (Http.status r =? n)%Z
  | _ => false
  end.

Definition onFulfilled (response : Response) : M World Response :=
  Eff.ret response.

(** The error branch of the response interceptor. *)
Definition onRejected (error : Thrown) : M World Response :=
  Eff.when (has_status 401 error)
    (let* w := Eff.get in
     Eff.when (bool_decide (is_Some (window w)))
       (Browser.localStorage_removeItem "auth_token" ;;;
        Browser.set_href "/login")) ;;;
  Eff.when (has_status 403 error)
    (Browser.console_error "Permission denied:") ;;;
  Eff.when (has_status 429 error)
    (Browser.console_error "Rate limit exceeded:") ;;;
  Eff.throw error.

(** The default [validateStatus] of the library. *)
Definition validateStatus (s : Z) : bool := ((200 <=? s) && (s <? 300))%Z.

(** One call on the instance: request interceptor, one trip through the
    adapter, then the response interceptor on the side the status
    selects. *)
Definition request (c : Call) : M World Response :=
  let* r := requestInterceptor c in
  let* reply := Browser.send r in
  match reply with
  | Responded resp =>
      if validateStatus (Http.status resp) then onFulfilled resp
      else onRejected (AxiosError (Some resp))
  | NoResponse => onRejected (AxiosError None)
  end.

Definition get (url : string) (config : Json) : M World Response :=
  request {| call_verb := GET; call_url := url; call_body := JUndefined;
             call_config := config |}.

Definition post (url : string) (data config : Json) : M World Response :=
  request {| call_verb := POST; call_url := url; call_body := data;
             call_config := config |}.

Definition patch (url : string) (data config : Json) : M World Response :=
  request {| call_verb := PATCH; call_url := url; call_body := data;
             call_config := config |}.

Definition delete (url : string) (config : Json) : M World Response :=
  request {| call_verb := DELETE; call_url := url; call_body := JUndefined;
             call_config := config |}.

End Axios.

(** ** The endpoint table of [ApiClient]

    One constructor per static method, named [<group>_<method>], with the
    parameters of the method; [invoke] is the body of the method. An
    argument the caller leaves out is [JUndefined]. *)

Module ApiClient.

Inductive Method :=
(* ApiClient.auth *)
| auth_login (data : Json)
| auth_register (data : Json)
| auth_logout
| auth_verifyEmail (data : Json)
| auth_requestPasswordReset (data : Json)
| auth_confirmPasswordReset (data : Json)
| auth_changePassword (data : Json)
| auth_initiateSso (data : Json)
| auth_ssoDiscovery (domain : string)
(* ApiClient.users *)
| users_getProfile
| users_updateProfile (data : Json)
| users_getPublicProfile (slug : string)
| users_getMfaDevices
| users_setupMfa (data : Json)
| users_verifyMfa (data : Json)
| users_disableMfa (data : Json)
| users_regenerateBackupCodes (data : Json)
| users_getSessions
| users_revokeSession (sessionId : string)
| users_revokeAllSessions
| users_getInvitations
| users_sendInvitation (data : Json)
| users_respondToInvitation (data : Json)
| users_getAuditLogs
| users_getRoles
| users_getPermissions
(* ApiClient.events *)
| events_getEventTypes
| events_createEventType (data : Json)
| events_getEventType (id : string)
| events_updateEventType (id : string) (data : Json)
| events_deleteEventType (id : string)
| events_getPublicOrganizer (slug : string)
| events_getPublicEventType (organizerSlug : string) (eventTypeSlug : string)
| events_getAvailableSlots (organizerSlug : string) (eventTypeSlug : string) (params : Json)
| events_getBookings (params : Json)
| events_getBooking (id : string)
| events_updateBooking (id : string) (data : Json)
| events_createBooking (data : Json)
| events_getBookingByToken (token : string)
| events_manageBooking (token : string) (data : Json)
| events_addAttendee (bookingId : string) (data : Json)
| events_removeAttendee (bookingId : string) (attendeeId : string)
| events_getBookingAnalytics (params : Json)
| events_getBookingAuditLogs (bookingId : string)
(* ApiClient.availability *)
| availability_getRules
| availability_createRule (data : Json)
| availability_getRule (id : string)
| availability_updateRule (id : string) (data : Json)
| availability_deleteRule (id : string)
| availability_getOverrides
| availability_createOverride (data : Json)
| availability_getOverride (id : string)
| availability_updateOverride (id : string) (data : Json)
| availability_deleteOverride (id : string)
| availability_getBlockedTimes
| availability_createBlockedTime (data : Json)
| availability_getBlockedTime (id : string)
| availability_updateBlockedTime (id : string) (data : Json)
| availability_deleteBlockedTime (id : string)
| availability_getRecurringBlocks
| availability_createRecurringBlock (data : Json)
| availability_getRecurringBlock (id : string)
| availability_updateRecurringBlock (id : string) (data : Json)
| availability_deleteRecurringBlock (id : string)
| availability_getBufferSettings
| availability_updateBufferSettings (data : Json)
| availability_getCalculatedSlots (organizerSlug : string) (params : Json)
| availability_getStats
| availability_clearCache
| availability_precomputeCache (data : Json)
(* ApiClient.integrations *)
| integrations_getCalendarIntegrations
| integrations_getCalendarIntegration (id : string)
| integrations_updateCalendarIntegration (id : string) (data : Json)
| integrations_deleteCalendarIntegration (id : string)
| integrations_refreshCalendarSync (id : string)
| integrations_forceCalendarSync (id : string)
| integrations_getVideoIntegrations
| integrations_getVideoIntegration (id : string)
| integrations_updateVideoIntegration (id : string) (data : Json)
| integrations_deleteVideoIntegration (id : string)
| integrations_getWebhooks
| integrations_createWebhook (data : Json)
| integrations_getWebhook (id : string)
| integrations_updateWebhook (id : string) (data : Json)
| integrations_deleteWebhook (id : string)
| integrations_testWebhook (id : string)
| integrations_initiateOauth (data : Json)
| integrations_oauthCallback (data : Json)
| integrations_getIntegrationHealth
| integrations_getIntegrationLogs
| integrations_getCalendarConflicts
(* ApiClient.workflows *)
| workflows_getWorkflows
| workflows_createWorkflow (data : Json)
| workflows_getWorkflow (id : string)
| workflows_updateWorkflow (id : string) (data : Json)
| workflows_deleteWorkflow (id : string)
| workflows_duplicateWorkflow (id : string)
| workflows_getWorkflowActions (workflowId : string)
| workflows_createWorkflowAction (workflowId : string) (data : Json)
| workflows_getWorkflowAction (id : string)
| workflows_updateWorkflowAction (id : string) (data : Json)
| workflows_deleteWorkflowAction (id : string)
| workflows_testWorkflow (id : string) (data : Json)
| workflows_validateWorkflow (id : string)
| workflows_getExecutionSummary (id : string)
| workflows_getExecutions
| workflows_getTemplates
| workflows_createFromTemplate (data : Json)
| workflows_bulkTest (data : Json)
| workflows_getPerformanceStats
(* ApiClient.notifications *)
| notifications_getTemplates
| notifications_createTemplate (data : Json)
| notifications_getTemplate (id : string)
| notifications_updateTemplate (id : string) (data : Json)
| notifications_deleteTemplate (id : string)
| notifications_testTemplate (id : string)
| notifications_getPreferences
| notifications_updatePreferences (data : Json)
| notifications_getLogs
| notifications_resendNotification (id : string)
| notifications_getScheduled
| notifications_cancelScheduled (id : string)
| notifications_sendNotification (data : Json)
| notifications_getStats
| notifications_getHealth
(* ApiClient.contacts *)
| contacts_getContacts (params : Json)
| contacts_createContact (data : Json)
| contacts_getContact (id : string)
| contacts_updateContact (id : string) (data : Json)
| contacts_deleteContact (id : string)
| contacts_getContactInteractions (contactId : string)
| contacts_addContactInteraction (contactId : string) (data : Json)
| contacts_getGroups
| contacts_createGroup (data : Json)
| contacts_getGroup (id : string)
| contacts_updateGroup (id : string) (data : Json)
| contacts_deleteGroup (id : string)
| contacts_addContactToGroup (contactId : string) (groupId : string)
| contacts_removeContactFromGroup (contactId : string) (groupId : string)
| contacts_importContacts (data : Json)
| contacts_exportContacts
| contacts_mergeContacts (data : Json)
| contacts_getStats.

Definition invoke (m : Method) : M World Response :=
  match m with
  (* ApiClient.auth *)
  | auth_login data => Axios.post "/users/login/" data JUndefined
  | auth_register data => Axios.post "/users/register/" data JUndefined
  | auth_logout => Axios.post "/users/logout/" JUndefined JUndefined
  | auth_verifyEmail data => Axios.post "/users/verify-email/" data JUndefined
  | auth_requestPasswordReset data => Axios.post "/users/request-password-reset/" data JUndefined
  | auth_confirmPasswordReset data => Axios.post "/users/confirm-password-reset/" data JUndefined
  | auth_changePassword data => Axios.post "/users/change-password/" data JUndefined
  | auth_initiateSso data => Axios.post "/users/sso/initiate/" data JUndefined
  | auth_ssoDiscovery domain => Axios.get ("/users/sso/discovery/?domain=" +:+ domain) JUndefined
  (* ApiClient.users *)
  | users_getProfile => Axios.get "/users/profile/" JUndefined
  | users_updateProfile data => Axios.patch "/users/profile/" data JUndefined
  | users_getPublicProfile slug => Axios.get ("/users/public/" +:+ slug +:+ "/") JUndefined
  | users_getMfaDevices => Axios.get "/users/mfa/devices/" JUndefined
  | users_setupMfa data => Axios.post "/users/mfa/setup/" data JUndefined
  | users_verifyMfa data => Axios.post "/users/mfa/verify/" data JUndefined
  | users_disableMfa data => Axios.post "/users/mfa/disable/" data JUndefined
  | users_regenerateBackupCodes data =>
      Axios.post "/users/mfa/backup-codes/regenerate/" data JUndefined
  | users_getSessions => Axios.get "/users/sessions/" JUndefined
  | users_revokeSession sessionId =>
      Axios.post ("/users/sessions/" +:+ sessionId +:+ "/revoke/") JUndefined JUndefined
  | users_revokeAllSessions => Axios.post "/users/sessions/revoke-all/" JUndefined JUndefined
  | users_getInvitations => Axios.get "/users/invitations/" JUndefined
  | users_sendInvitation data => Axios.post "/users/invitations/" data JUndefined
  | users_respondToInvitation data => Axios.post "/users/invitations/respond/" data JUndefined
  | users_getAuditLogs => Axios.get "/users/audit-logs/" JUndefined
  | users_getRoles => Axios.get "/users/roles/" JUndefined
  | users_getPermissions => Axios.get "/users/permissions/" JUndefined
  (* ApiClient.events *)
  | events_getEventTypes => Axios.get "/events/event-types/" JUndefined
  | events_createEventType data => Axios.post "/events/event-types/" data JUndefined
  | events_getEventType id => Axios.get ("/events/event-types/" +:+ id +:+ "/") JUndefined
  | events_updateEventType id data =>
      Axios.patch ("/events/event-types/" +:+ id +:+ "/") data JUndefined
  | events_deleteEventType id => Axios.delete ("/events/event-types/" +:+ id +:+ "/") JUndefined
  | events_getPublicOrganizer slug => Axios.get ("/events/public/" +:+ slug +:+ "/") JUndefined
  | events_getPublicEventType organizerSlug eventTypeSlug =>
      Axios.get ("/events/public/" +:+ organizerSlug +:+ "/" +:+ eventTypeSlug +:+ "/") JUndefined
  | events_getAvailableSlots organizerSlug eventTypeSlug params =>
      Axios.get ("/events/slots/" +:+ organizerSlug +:+ "/" +:+ eventTypeSlug +:+ "/") (JObj [("params", params)])
  | events_getBookings params => Axios.get "/events/bookings/" (JObj [("params", params)])
  | events_getBooking id => Axios.get ("/events/bookings/" +:+ id +:+ "/") JUndefined
  | events_updateBooking id data =>
      Axios.patch ("/events/bookings/" +:+ id +:+ "/") data JUndefined
  | events_createBooking data => Axios.post "/events/bookings/create/" data JUndefined
  | events_getBookingByToken token =>
      Axios.get ("/events/booking/" +:+ token +:+ "/manage/") JUndefined
  | events_manageBooking token data =>
      Axios.post ("/events/booking/" +:+ token +:+ "/manage/") data JUndefined
  | events_addAttendee bookingId data =>
      Axios.post ("/events/bookings/" +:+ bookingId +:+ "/attendees/add/") data JUndefined
  | events_removeAttendee bookingId attendeeId =>
      Axios.post ("/events/bookings/" +:+ bookingId +:+ "/attendees/" +:+ attendeeId +:+ "/remove/") JUndefined JUndefined
  | events_getBookingAnalytics params =>
      Axios.get "/events/analytics/" (JObj [("params", params)])
  | events_getBookingAuditLogs bookingId =>
      Axios.get ("/events/bookings/" +:+ bookingId +:+ "/audit/") JUndefined
  (* ApiClient.availability *)
  | availability_getRules => Axios.get "/availability/rules/" JUndefined
  | availability_createRule data => Axios.post "/availability/rules/" data JUndefined
  | availability_getRule id => Axios.get ("/availability/rules/" +:+ id +:+ "/") JUndefined
  | availability_updateRule id data =>
      Axios.patch ("/availability/rules/" +:+ id +:+ "/") data JUndefined
  | availability_deleteRule id => Axios.delete ("/availability/rules/" +:+ id +:+ "/") JUndefined
  | availability_getOverrides => Axios.get "/availability/overrides/" JUndefined
  | availability_createOverride data => Axios.post "/availability/overrides/" data JUndefined
  | availability_getOverride id =>
      Axios.get ("/availability/overrides/" +:+ id +:+ "/") JUndefined
  | availability_updateOverride id data =>
      Axios.patch ("/availability/overrides/" +:+ id +:+ "/") data JUndefined
  | availability_deleteOverride id =>
      Axios.delete ("/availability/overrides/" +:+ id +:+ "/") JUndefined
  | availability_getBlockedTimes => Axios.get "/availability/blocked/" JUndefined
  | availability_createBlockedTime data => Axios.post "/availability/blocked/" data JUndefined
  | availability_getBlockedTime id =>
      Axios.get ("/availability/blocked/" +:+ id +:+ "/") JUndefined
  | availability_updateBlockedTime id data =>
      Axios.patch ("/availability/blocked/" +:+ id +:+ "/") data JUndefined
  | availability_deleteBlockedTime id =>
      Axios.delete ("/availability/blocked/" +:+ id +:+ "/") JUndefined
  | availability_getRecurringBlocks => Axios.get "/availability/recurring-blocks/" JUndefined
  | availability_createRecurringBlock data =>
      Axios.post "/availability/recurring-blocks/" data JUndefined
  | availability_getRecurringBlock id =>
      Axios.get ("/availability/recurring-blocks/" +:+ id +:+ "/") JUndefined
  | availability_updateRecurringBlock id data =>
      Axios.patch ("/availability/recurring-blocks/" +:+ id +:+ "/") data JUndefined
  | availability_deleteRecurringBlock id =>
      Axios.delete ("/availability/recurring-blocks/" +:+ id +:+ "/") JUndefined
  | availability_getBufferSettings => Axios.get "/availability/buffer/" JUndefined
  | availability_updateBufferSettings data => Axios.patch "/availability/buffer/" data JUndefined
  | availability_getCalculatedSlots organizerSlug params =>
      Axios.get ("/availability/calculated-slots/" +:+ organizerSlug +:+ "/") (JObj [("params", params)])
  | availability_getStats => Axios.get "/availability/stats/" JUndefined
  | availability_clearCache => Axios.post "/availability/cache/clear/" JUndefined JUndefined
  | availability_precomputeCache data =>
      Axios.post "/availability/cache/precompute/" data JUndefined
  (* ApiClient.integrations *)
  | integrations_getCalendarIntegrations => Axios.get "/integrations/calendar/" JUndefined
  | integrations_getCalendarIntegration id =>
      Axios.get ("/integrations/calendar/" +:+ id +:+ "/") JUndefined
  | integrations_updateCalendarIntegration id data =>
      Axios.patch ("/integrations/calendar/" +:+ id +:+ "/") data JUndefined
  | integrations_deleteCalendarIntegration id =>
      Axios.delete ("/integrations/calendar/" +:+ id +:+ "/") JUndefined
  | integrations_refreshCalendarSync id =>
      Axios.post ("/integrations/calendar/" +:+ id +:+ "/refresh/") JUndefined JUndefined
  | integrations_forceCalendarSync id =>
      Axios.post ("/integrations/calendar/" +:+ id +:+ "/force-sync/") JUndefined JUndefined
  | integrations_getVideoIntegrations => Axios.get "/integrations/video/" JUndefined
  | integrations_getVideoIntegration id =>
      Axios.get ("/integrations/video/" +:+ id +:+ "/") JUndefined
  | integrations_updateVideoIntegration id data =>
      Axios.patch ("/integrations/video/" +:+ id +:+ "/") data JUndefined
  | integrations_deleteVideoIntegration id =>
      Axios.delete ("/integrations/video/" +:+ id +:+ "/") JUndefined
  | integrations_getWebhooks => Axios.get "/integrations/webhooks/" JUndefined
  | integrations_createWebhook data => Axios.post "/integrations/webhooks/" data JUndefined
  | integrations_getWebhook id => Axios.get ("/integrations/webhooks/" +:+ id +:+ "/") JUndefined
  | integrations_updateWebhook id data =>
      Axios.patch ("/integrations/webhooks/" +:+ id +:+ "/") data JUndefined
  | integrations_deleteWebhook id =>
      Axios.delete ("/integrations/webhooks/" +:+ id +:+ "/") JUndefined
  | integrations_testWebhook id =>
      Axios.post ("/integrations/webhooks/" +:+ id +:+ "/test/") JUndefined JUndefined
  | integrations_initiateOauth data => Axios.post "/integrations/oauth/initiate/" data JUndefined
  | integrations_oauthCallback data => Axios.post "/integrations/oauth/callback/" data JUndefined
  | integrations_getIntegrationHealth => Axios.get "/integrations/health/" JUndefined
  | integrations_getIntegrationLogs => Axios.get "/integrations/logs/" JUndefined
  | integrations_getCalendarConflicts => Axios.get "/integrations/calendar/conflicts/" JUndefined
  (* ApiClient.workflows *)
  | workflows_getWorkflows => Axios.get "/workflows/" JUndefined
  | workflows_createWorkflow data => Axios.post "/workflows/" data JUndefined
  | workflows_getWorkflow id => Axios.get ("/workflows/" +:+ id +:+ "/") JUndefined
  | workflows_updateWorkflow id data => Axios.patch ("/workflows/" +:+ id +:+ "/") data JUndefined
  | workflows_deleteWorkflow id => Axios.delete ("/workflows/" +:+ id +:+ "/") JUndefined
  | workflows_duplicateWorkflow id =>
      Axios.post ("/workflows/" +:+ id +:+ "/duplicate/") JUndefined JUndefined
  | workflows_getWorkflowActions workflowId =>
      Axios.get ("/workflows/" +:+ workflowId +:+ "/actions/") JUndefined
  | workflows_createWorkflowAction workflowId data =>
      Axios.post ("/workflows/" +:+ workflowId +:+ "/actions/") data JUndefined
  | workflows_getWorkflowAction id => Axios.get ("/workflows/actions/" +:+ id +:+ "/") JUndefined
  | workflows_updateWorkflowAction id data =>
      Axios.patch ("/workflows/actions/" +:+ id +:+ "/") data JUndefined
  | workflows_deleteWorkflowAction id =>
      Axios.delete ("/workflows/actions/" +:+ id +:+ "/") JUndefined
  | workflows_testWorkflow id data =>
      Axios.post ("/workflows/" +:+ id +:+ "/test/") data JUndefined
  | workflows_validateWorkflow id =>
      Axios.post ("/workflows/" +:+ id +:+ "/validate/") JUndefined JUndefined
  | workflows_getExecutionSummary id =>
      Axios.get ("/workflows/" +:+ id +:+ "/execution-summary/") JUndefined
  | workflows_getExecutions => Axios.get "/workflows/executions/" JUndefined
  | workflows_getTemplates => Axios.get "/workflows/templates/" JUndefined
  | workflows_createFromTemplate data =>
      Axios.post "/workflows/templates/create-from/" data JUndefined
  | workflows_bulkTest data => Axios.post "/workflows/bulk-test/" data JUndefined
  | workflows_getPerformanceStats => Axios.get "/workflows/performance-stats/" JUndefined
  (* ApiClient.notifications *)
  | notifications_getTemplates => Axios.get "/notifications/templates/" JUndefined
  | notifications_createTemplate data => Axios.post "/notifications/templates/" data JUndefined
  | notifications_getTemplate id =>
      Axios.get ("/notifications/templates/" +:+ id +:+ "/") JUndefined
  | notifications_updateTemplate id data =>
      Axios.patch ("/notifications/templates/" +:+ id +:+ "/") data JUndefined
  | notifications_deleteTemplate id =>
      Axios.delete ("/notifications/templates/" +:+ id +:+ "/") JUndefined
  | notifications_testTemplate id =>
      Axios.post ("/notifications/templates/" +:+ id +:+ "/test/") JUndefined JUndefined
  | notifications_getPreferences => Axios.get "/notifications/preferences/" JUndefined
  | notifications_updatePreferences data =>
      Axios.patch "/notifications/preferences/" data JUndefined
  | notifications_getLogs => Axios.get "/notifications/logs/" JUndefined
  | notifications_resendNotification id =>
      Axios.post ("/notifications/" +:+ id +:+ "/resend/") JUndefined JUndefined
  | notifications_getScheduled => Axios.get "/notifications/scheduled/" JUndefined
  | notifications_cancelScheduled id =>
      Axios.post ("/notifications/scheduled/" +:+ id +:+ "/cancel/") JUndefined JUndefined
  | notifications_sendNotification data => Axios.post "/notifications/send/" data JUndefined
  | notifications_getStats => Axios.get "/notifications/stats/" JUndefined
  | notifications_getHealth => Axios.get "/notifications/health/" JUndefined
  (* ApiClient.contacts *)
  | contacts_getContacts params => Axios.get "/contacts/" (JObj [("params", params)])
  | contacts_createContact data => Axios.post "/contacts/" data JUndefined
  | contacts_getContact id => Axios.get ("/contacts/" +:+ id +:+ "/") JUndefined
  | contacts_updateContact id data => Axios.patch ("/contacts/" +:+ id +:+ "/") data JUndefined
  | contacts_deleteContact id => Axios.delete ("/contacts/" +:+ id +:+ "/") JUndefined
  | contacts_getContactInteractions contactId =>
      Axios.get ("/contacts/" +:+ contactId +:+ "/interactions/") JUndefined
  | contacts_addContactInteraction contactId data =>
      Axios.post ("/contacts/" +:+ contactId +:+ "/interactions/add/") data JUndefined
  | contacts_getGroups => Axios.get "/contacts/groups/" JUndefined
  | contacts_createGroup data => Axios.post "/contacts/groups/" data JUndefined
  | contacts_getGroup id => Axios.get ("/contacts/groups/" +:+ id +:+ "/") JUndefined
  | contacts_updateGroup id data =>
      Axios.patch ("/contacts/groups/" +:+ id +:+ "/") data JUndefined
  | contacts_deleteGroup id => Axios.delete ("/contacts/groups/" +:+ id +:+ "/") JUndefined
  | contacts_addContactToGroup contactId groupId =>
      Axios.post ("/contacts/" +:+ contactId +:+ "/groups/" +:+ groupId +:+ "/add/") JUndefined JUndefined
  | contacts_removeContactFromGroup contactId groupId =>
      Axios.post ("/contacts/" +:+ contactId +:+ "/groups/" +:+ groupId +:+ "/remove/") JUndefined JUndefined
  | contacts_importContacts data =>
      Axios.post "/contacts/import/" data (JObj [("headers", JObj [("Content-Type", JStr "multipart/form-data")])])
  | contacts_exportContacts =>
      Axios.get "/contacts/export/" (JObj [("responseType", JStr "blob")])
  | contacts_mergeContacts data => Axios.post "/contacts/merge/" data JUndefined
  | contacts_getStats => Axios.get "/contacts/stats/" JUndefined
  end.

(** The two methods that ask the backend for bookable slots. *)
Definition is_slot_method (m : Method) : bool :=
  match m with
  | events_getAvailableSlots _ _ _ => true
  | availability_getCalculatedSlots _ _ => true
  | _ => false
  end.

(** The paths of the slot endpoints of the backend. *)
Definition slot_endpoint (path : string) : bool :=
  String.prefix "/events/slots/" path
  || String.prefix "/availability/calculated-slots/" path.

End ApiClient.

(** ** The slot view *)

Module SlotView.

(** Modelled from the spec: what the component that shows bookable slots,
    missing from the sources, is asked for. The spec has slot computation
    "delegated to backend endpoints; the frontend passes parameters and
    renders the returned list": a query names one of the two slot methods
    of the client and carries the parameters of the caller. *)
Inductive Query :=
| Available (organizerSlug eventTypeSlug : string) (params : Json)
| Calculated (organizerSlug : string) (params : Json).

(** Modelled from the spec: the client method the missing slot view calls
    for a query, "obtained solely via" the two slot methods. *)
Definition method (q : Query) : ApiClient.Method :=
  match q with
  | Available organizerSlug eventTypeSlug params =>
      ApiClient.events_getAvailableSlots organizerSlug eventTypeSlug params
  | Calculated organizerSlug params =>
      ApiClient.availability_getCalculatedSlots organizerSlug params
  end.

(** Modelled from the spec: the slots the missing view displays; it
    "passes parameters and renders the returned list", so it awaits the
    client method and shows the body of the answer as it came. *)
Definition displayedSlots (q : Query) : M World Json :=
  let* response := ApiClient.invoke (method q) in
  Eff.ret (Http.data response).

(** The paths under which the backend serves what slots are computed
    from: rules, date overrides, blocked times, recurring blocks and the
    buffer settings. *)
Definition ingredient_paths : list string :=
  ["/availability/rules/"; "/availability/overrides/";
   "/availability/blocked/"; "/availability/recurring-blocks/";
   "/availability/buffer/"].

End SlotView.

(** ** Reading an error in a [catch] clause *)

Module Caught.

(** [error.response]: the response of an axios error, [undefined] on an
    error object without one; reading it off a thrown [undefined] or
    [null] raises a TypeError. *)
Definition response (error : Thrown) : option Json :=
  match error with
  | AxiosError (Some r) =>
      Some (JObj [("status", JNum (Http.status r)); ("data", Http.data r)])
  | AxiosError None => Some JUndefined
  | TypeError => Some JUndefined
  | OtherError v => JsonOps.prop "response" v
  end.

(** [error.response?.data?.code] *)
Definition code {S} (error : Thrown) : M S Json :=
  let* r := Eff.of_option (response error) in
  Eff.ret (JsonOps.opt_prop "code" (JsonOps.opt_prop "data" r)).

(** [error.response?.status] *)
Definition status_of {S} (error : Thrown) : M S Json :=
  let* r := Eff.of_option (response error) in
  Eff.ret (JsonOps.opt_prop "status" r).

End Caught.

(** ** The authentication context ([AuthProvider], [useAuth]) *)

Module Auth.

(** The value [useAuth()] hands to a component. The last four members are
    read by form components but provided by no version of the provider
    among the sources. *)
Record Context := {
  user : Json;
  login : Json -> Json -> Json -> M World unit;
  logout : M World unit;
  register : Json -> M World unit;
  updateUser : Json -> M World unit;
  refreshUser : M World unit;
  forcePasswordChange : Json -> M World unit;
  resendVerification : Json -> M World unit;
  setupMfa : Json -> M World Json;
  verifyMfa : Json -> M World Json;
  disableMfa : Json -> M World unit;
  regenerateBackupCodes : Json -> M World Json;
  sendSmsMfaCode : Json -> M World unit;
  initiateSso : Json -> M World Json;
  ssoDiscovery : string -> M World Json;
  requestPasswordReset : Json -> M World Json;
  confirmPasswordReset : Json -> M World Json;
  respondToInvitation : Json -> M World Json;
  changePassword : Json -> M World Json
}.

End Auth.

Module AuthProvider.

Import StorageUtils.

(** The three [ApiClient] methods the provider calls that the client among
    the sources does not define. *)
Record MissingEndpoints := {
  auth_forcePasswordChange : Json -> M World Response;
  auth_resendVerification : Json -> M World Response;
  users_sendSmsMfaCode : Json -> M World Response
}.

(** With the client among the sources the three are [undefined], and
    calling one raises a TypeError before anything is sent. *)
Definition undefined_endpoints : MissingEndpoints :=
  {| auth_forcePasswordChange := λ _, Eff.throw TypeError;
     auth_resendVerification := λ _, Eff.throw TypeError;
     users_sendSmsMfaCode := λ _, Eff.throw TypeError |}.

(** [const { user: userData, token } = response.data] *)
Definition destructure_login (response : Response) : M World (Json * Json) :=
  let* userData := Eff.of_option (JsonOps.prop "user" (Http.data response)) in
  let* token := Eff.of_option (JsonOps.prop "token" (Http.data response)) in
  Eff.ret (userData, token).

Definition logout : M World unit :=
  Eff.try_catch_finally
    (let* _ := ApiClient.invoke ApiClient.auth_logout in Eff.ret tt)
    (λ error, Browser.console_error "Logout error:")
    (removeStorageItem STORAGE_KEYS.AUTH_TOKEN ;;;
     removeStorageItem STORAGE_KEYS.USER_DATA ;;;
     Browser.setUser JNull ;;;
     Browser.router_push "/login").

(** [rememberMe = false]: the default applies to a missing argument. *)
Definition login (email password rememberMe : Json) : M World unit :=
  let rememberMe :=
    match rememberMe with JUndefined => JBool false | v => v end in
  Eff.try_catch
    (let* response :=
       ApiClient.invoke
         (ApiClient.auth_login
            (JObj [("email", email); ("password", password);
                   ("remember_me", rememberMe)])) in
     let* ut := destructure_login response in
     let userData := ut.1 in
     let token := ut.2 in
     setStorageItem STORAGE_KEYS.AUTH_TOKEN (Raw token) ;;;
     setStorageItem STORAGE_KEYS.USER_DATA (Stringified userData) ;;;
     Browser.setUser userData ;;;
     let* account_status :=
       Eff.of_option (JsonOps.prop "account_status" userData) in
     if JsonOps.is_str "pending_verification" account_status then
       Browser.router_push "/verify-email"
     else if JsonOps.is_str "password_expired_grace_period" account_status then
       Browser.router_push "/force-password-change"
     else
       Browser.router_push "/dashboard")
    (λ error,
       let* code := Caught.code error in
       Eff.when (JsonOps.is_str "password_expired" code)
         (Browser.router_push "/reset-password") ;;;
       Eff.throw error).

Definition register (data : Json) : M World unit :=
  let* response := ApiClient.invoke (ApiClient.auth_register data) in
  let* ut := destructure_login response in
  let userData := ut.1 in
  let token := ut.2 in
  setStorageItem STORAGE_KEYS.AUTH_TOKEN (Raw token) ;;;
  setStorageItem STORAGE_KEYS.USER_DATA (Stringified userData) ;;;
  Browser.setUser userData ;;;
  Browser.router_push "/verify-email".

Definition refreshUser : M World unit :=
  Eff.try_catch
    (let* response := ApiClient.invoke ApiClient.users_getProfile in
     let userData := Http.data response in
     Browser.setUser userData ;;;
     setStorageItem STORAGE_KEYS.USER_DATA (Stringified userData))
    (λ error,
       Browser.console_error "Error refreshing user data:" ;;;
       let* st := Caught.status_of error in
       Eff.when (JsonOps.is_num 401 st) logout ;;;
       Eff.throw error).

Definition setupMfa (data : Json) : M World Json :=
  let* response := ApiClient.invoke (ApiClient.users_setupMfa data) in
  Eff.ret (Http.data response).

Definition regenerateBackupCodes (data : Json) : M World Json :=
  let* response :=
    ApiClient.invoke (ApiClient.users_regenerateBackupCodes data) in
  Eff.ret (Http.data response).

Definition initiateSso (data : Json) : M World Json :=
  let* response := ApiClient.invoke (ApiClient.auth_initiateSso data) in
  Eff.of_option (JsonOps.prop "auth_url" (Http.data response)).

Definition ssoDiscovery (domain : string) : M World Json :=
  let* response := ApiClient.invoke (ApiClient.auth_ssoDiscovery domain) in
  Eff.ret (Http.data response).

Section Render.

(** The [user] state as the closures of one render captured it. *)
Variable user : Json.

Variable missing : MissingEndpoints.

Definition updateUser (userData : Json) : M World unit :=
  Eff.when (JsonOps.truthy user)
    (let updatedUser := JsonOps.spread user userData in
     Browser.setUser updatedUser ;;;
     setStorageItem STORAGE_KEYS.USER_DATA (Stringified updatedUser)).

Definition forcePasswordChange (data : Json) : M World unit :=
  let* response := auth_forcePasswordChange missing data in
  Eff.when (JsonOps.truthy user)
    (let updatedUser :=
       JsonOps.spread user (JObj [("account_status", JStr "active")]) in
     updateUser updatedUser) ;;;
  Browser.router_push "/dashboard".

Definition resendVerification (email : Json) : M World unit :=
  let* _ := auth_resendVerification missing (JObj [("email", email)]) in
  Eff.ret tt.

Definition verifyMfa (data : Json) : M World Json :=
  let* response := ApiClient.invoke (ApiClient.users_verifyMfa data) in
  Eff.when (JsonOps.truthy user)
    (let updatedUser :=
       JsonOps.spread user (JObj [("is_mfa_enabled", JBool true)]) in
     updateUser updatedUser) ;;;
  Eff.ret (Http.data response).

Definition disableMfa (data : Json) : M World unit :=
  let* _ := ApiClient.invoke (ApiClient.users_disableMfa data) in
  Eff.when (JsonOps.truthy user)
    (let updatedUser :=
       JsonOps.spread user (JObj [("is_mfa_enabled", JBool false)]) in
     updateUser updatedUser).

Definition sendSmsMfaCode (deviceId : Json) : M World unit :=
  let* _ := users_sendSmsMfaCode missing (JObj [("device_id", deviceId)]) in
  Eff.ret tt.

End Render.

(** A member the value object of the provider does not have
    ([requestPasswordReset], [confirmPasswordReset], [respondToInvitation]
    and [changePassword]): the component that destructures it reads
    [undefined], and calling it raises a TypeError before anything is
    sent. *)
Definition absent {A} (argument : Json) : M World A := Eff.throw TypeError.

(** The context value of the render in which the state holds [user]. *)
Definition value (missing : MissingEndpoints) (user : Json) : Auth.Context :=
  {| Auth.user := user;
     Auth.login := login;
     Auth.logout := logout;
     Auth.register := register;
     Auth.updateUser := updateUser user;
     Auth.refreshUser := refreshUser;
     Auth.forcePasswordChange := forcePasswordChange user missing;
     Auth.resendVerification := resendVerification missing;
     Auth.setupMfa := setupMfa;
     Auth.verifyMfa := verifyMfa user;
     Auth.disableMfa := disableMfa user;
     Auth.regenerateBackupCodes := regenerateBackupCodes;
     Auth.sendSmsMfaCode := sendSmsMfaCode missing;
     Auth.initiateSso := initiateSso;
     Auth.ssoDiscovery := ssoDiscovery;
     Auth.requestPasswordReset := absent;
     Auth.confirmPasswordReset := absent;
     Auth.respondToInvitation := absent;
     Auth.changePassword := absent |}.

End AuthProvider.

(** ** Form components *)

(** The state cells every form component declares, and the remaining cells
    of the component by name. *)
Record FormState := {
  isLoading : bool;
  error : option string;
  fieldErrors : gmap string (list string);
  cells : gmap string Json
}.

(** A mounted form: its own state, and everything outside it. *)
Record App := { form : FormState; world : World }.

(** [getErrorMessage] and [getFieldErrors] of [lib/utils], a module that is
    not among the sources: they read the error body of the backend and are
    left open. *)
Record Utils := {
  getErrorMessage : Thrown -> string;
  getFieldErrors : Thrown -> gmap string (list string)
}.

(** What the parent passes to a form, as far as the submit handlers read
    it. A callback runs outside the form and cannot reach its state. *)
Module Props.
Record t := {
  onSave : option (Json -> M World unit);
  onSuccess : option (Json -> M World unit);
  onUpdate : option (Json -> M World unit);
  config : Json;
  profile : Json
}.
End Props.

Module Form.

Definition liftW {A} (m : M World A) : M App A :=
  λ app, match m (world app) with
         | (o, w') => (o, {| form := form app; world := w' |})
         end.

Definition modify_form (f : FormState -> FormState) : M App unit :=
  Eff.modify (λ app, {| form := f (form app); world := world app |}).

Definition setIsLoading (b : bool) : M App unit :=
  modify_form (λ s, {| isLoading := b; error := error s;
                       fieldErrors := fieldErrors s; cells := cells s |}).

Definition setError (e : option string) : M App unit :=
  modify_form (λ s, {| isLoading := isLoading s; error := e;
                       fieldErrors := fieldErrors s; cells := cells s |}).

Definition setFieldErrors (fe : gmap string (list string)) : M App unit :=
  modify_form (λ s, {| isLoading := isLoading s; error := error s;
                       fieldErrors := fe; cells := cells s |}).

(** The setter of any other state cell, e.g. [setIsSubmitted]. *)
Definition setCell (name : string) (v : Json) : M App unit :=
  modify_form (λ s, {| isLoading := isLoading s; error := error s;
                       fieldErrors := fieldErrors s;
                       cells := <[name := v]> (cells s) |}).

Definition cell (name : string) : M App Json :=
  λ app, (Returned (default JUndefined (cells (form app) !! name)), app).

Definition toast (title description : string) (variant : Variant) : M App unit :=
  liftW (Browser.toast {| title := title; description := description;
                          variant := variant |}).

(** [callback?.(arg)] *)
Definition opt_call (callback : option (Json -> M World unit)) (arg : Json)
  : M App unit :=
  match callback with
  | Some f => liftW (f arg)
  | None => Eff.ret tt
  end.

(** [callback(arg)] for a callback the props type requires; calling a
    missing one raises a TypeError. *)
Definition call (callback : option (Json -> M World unit)) (arg : Json)
  : M App unit :=
  match callback with
  | Some f => liftW (f arg)
  | None => Eff.throw TypeError
  end.

(** [o.k]; a TypeError when [o] is nullish. *)
Definition prop (k : string) (o : Json) : M App Json :=
  Eff.of_option (JsonOps.prop k o).

(** [Object.entries(o)]; a TypeError when [o] is nullish. *)
Definition entries (o : Json) : M App (list (string * Json)) :=
  match o with
  | JUndefined | JNull => Eff.throw TypeError
  | _ => Eff.ret (JsonOps.property_order (JsonOps.own_fields o))
  end.

Definition nullish (j : Json) : bool :=
  match j with JUndefined | JNull => true | _ => false end.

Section Handlers.

Variable utils : Utils.
Variable auth : Auth.Context.
Variable props : Props.t.

Definition ForgotPasswordForm_onSubmit (data : Json) : M App unit :=
  Eff.try_catch_finally
    (setError None ;;;
     setIsLoading true ;;;
     let* email := prop "email" data in
     let* _ := liftW (Auth.requestPasswordReset auth email) in
     setCell "isSubmitted" (JBool true) ;;;
     toast "Reset link sent"
       "If an account with that email exists, a password reset link has been sent."
       success)
    (λ err,
       let errorMessage := getErrorMessage utils err in
       setError (Some errorMessage) ;;;
       toast "Request failed" errorMessage destructive)
    (setIsLoading false).

Definition ResetPasswordForm_onSubmit (data : Json) : M App unit :=
  Eff.try_catch_finally
    (setError None ;;;
     setFieldErrors ∅ ;;;
     setIsLoading true ;;;
     let* _ := liftW (Auth.confirmPasswordReset auth data) in
     setCell "isSuccess" (JBool true) ;;;
     toast "Password reset successful"
       "Your password has been reset. You can now sign in with your new password."
       success)
    (λ err,
       let errorMessage := getErrorMessage utils err in
       let fieldErrs := getFieldErrors utils err in
       setError (Some errorMessage) ;;;
       setFieldErrors fieldErrs ;;;
       toast "Reset failed" errorMessage destructive)
    (setIsLoading false).

Definition SignupForm_onSubmit (data : Json) : M App unit :=
  Eff.try_catch_finally
    (setError None ;;;
     setFieldErrors ∅ ;;;
     setIsLoading true ;;;
     liftW (Auth.register auth data) ;;;
     toast "Account created!"
       "Please check your email to verify your account." success)
    (λ err,
       let errorMessage := getErrorMessage utils err in
       let fieldErrs := getFieldErrors utils err in
       setError (Some errorMessage) ;;;
       setFieldErrors fieldErrs ;;;
       toast "Registration failed" errorMessage destructive)
    (setIsLoading false).

Definition ForcePasswordChangeForm_onSubmit (data : Json) : M App unit :=
  Eff.try_catch_finally
    (setError None ;;;
     setFieldErrors ∅ ;;;
     setIsLoading true ;;;
     liftW (Auth.forcePasswordChange auth data) ;;;
     toast "Password updated"
       "Your password has been successfully updated. Your account is now active."
       success)
    (λ err,
       let errorMessage := getErrorMessage utils err in
       let fieldErrs := getFieldErrors utils err in
       setError (Some errorMessage) ;;;
       setFieldErrors fieldErrs ;;;
       toast "Password change failed" errorMessage destructive)
    (setIsLoading false).

(** [reset()] of the form library clears the inputs; it touches none of
    the state modelled here. *)
Definition ChangePasswordForm_onSubmit (data : Json) : M App unit :=
  Eff.try_catch_finally
    (setError None ;;;
     setFieldErrors ∅ ;;;
     setIsLoading true ;;;
     let* _ := liftW (Auth.changePassword auth data) in
     toast "Password changed"
       "Your password has been successfully updated." success)
    (λ err,
       let errorMessage := getErrorMessage utils err in
       let fieldErrs := getFieldErrors utils err in
       setError (Some errorMessage) ;;;
       setFieldErrors fieldErrs ;;;
       toast "Password change failed" errorMessage destructive)
    (setIsLoading false).

Definition OIDCConfigurationForm_onSubmit (data : Json) : M App unit :=
  Eff.try_catch_finally
    (setError None ;;;
     setFieldErrors ∅ ;;;
     setIsLoading true ;;;
     opt_call (Props.onSave props) data ;;;
     toast
       (if JsonOps.truthy (Props.config props) then "OIDC configuration updated"
        else "OIDC configuration created")
       "The OIDC configuration has been successfully saved." success)
    (λ err,
       let errorMessage := getErrorMessage utils err in
       let fieldErrs := getFieldErrors utils err in
       setError (Some errorMessage) ;;;
       setFieldErrors fieldErrs ;;;
       toast "Save failed" errorMessage destructive)
    (setIsLoading false).

Definition SAMLConfigurationForm_onSubmit (data : Json) : M App unit :=
  Eff.try_catch_finally
    (setError None ;;;
     setFieldErrors ∅ ;;;
     setIsLoading true ;;;
     opt_call (Props.onSave props) data ;;;
     toast
       (if JsonOps.truthy (Props.config props) then "SAML configuration updated"
        else "SAML configuration created")
       "The SAML configuration has been successfully saved." success)
    (λ err,
       let errorMessage := getErrorMessage utils err in
       let fieldErrs := getFieldErrors utils err in
       setError (Some errorMessage) ;;;
       setFieldErrors fieldErrs ;;;
       toast "Save failed" errorMessage destructive)
    (setIsLoading false).

Definition DisableMFAForm_onSubmit (data : Json) : M App unit :=
  Eff.try_catch_finally
    (setError None ;;;
     setIsLoading true ;;;
     liftW (Auth.disableMfa auth data) ;;;
     toast "MFA disabled"
       "Multi-factor authentication has been disabled for your account."
       success ;;;
     opt_call (Props.onSuccess props) JUndefined)
    (λ err,
       let errorMessage := getErrorMessage utils err in
       setError (Some errorMessage) ;;;
       toast "Failed to disable MFA" errorMessage destructive)
    (setIsLoading false).

Definition RegenerateBackupCodesForm_onSubmit (data : Json) : M App unit :=
  Eff.try_catch_finally
    (setError None ;;;
     setIsLoading true ;;;
     let* response := liftW (Auth.regenerateBackupCodes auth data) in
     let* backup_codes := prop "backup_codes" response in
     setCell "backupCodes" backup_codes ;;;
     setCell "showCodes" (JBool true) ;;;
     toast "Backup codes regenerated"
       "New backup codes have been generated. Please save them securely."
       success ;;;
     opt_call (Props.onSuccess props) backup_codes)
    (λ err,
       let errorMessage := getErrorMessage utils err in
       setError (Some errorMessage) ;;;
       toast "Failed to regenerate codes" errorMessage destructive)
    (setIsLoading false).

Definition MFAEnrollmentWizard_handleDeviceSelection (data : Json)
  : M App unit :=
  Eff.try_catch_finally
    (setError None ;;;
     setIsLoading true ;;;
     setCell "setupData" data ;;;
     let* response := liftW (Auth.setupMfa auth data) in
     let* device_type := prop "device_type" data in
     (if JsonOps.is_str "totp" device_type then
        setCell "totpData" response ;;;
        setCell "currentStep" (JStr "totp-setup")
      else
        setCell "currentStep" (JStr "sms-setup")) ;;;
     toast "MFA setup initiated"
       ((if JsonOps.is_str "totp" device_type then "TOTP" else "SMS")
        +:+ " setup started")
       success)
    (λ err,
       let errorMessage := getErrorMessage utils err in
       setError (Some errorMessage) ;;;
       toast "Setup failed" errorMessage destructive)
    (setIsLoading false).

Definition MFAEnrollmentWizard_handleVerification (data : Json)
  : M App unit :=
  Eff.try_catch_finally
    (setError None ;;;
     setIsLoading true ;;;
     let* response := liftW (Auth.verifyMfa auth data) in
     let* backup_codes := prop "backup_codes" response in
     (if JsonOps.truthy backup_codes then
        setCell "backupCodes" backup_codes ;;;
        setCell "currentStep" (JStr "backup-codes")
      else
        setCell "currentStep" (JStr "complete")) ;;;
     toast "MFA enabled"
       "Multi-factor authentication has been successfully enabled."
       success)
    (λ err,
       let errorMessage := getErrorMessage utils err in
       setError (Some errorMessage) ;;;
       toast "Verification failed" errorMessage destructive)
    (setIsLoading false).

Definition MFALoginStep_onSubmit (data : Json) : M App unit :=
  Eff.try_catch_finally
    (setError None ;;;
     setIsLoading true ;;;
     let* _ := liftW (Auth.verifyMfa auth data) in
     call (Props.onSuccess props) JUndefined ;;;
     toast "Login successful"
       "You have been successfully authenticated." success)
    (λ err,
       let errorMessage := getErrorMessage utils err in
       setError (Some errorMessage) ;;;
       toast "Verification failed" errorMessage destructive)
    (setIsLoading false).

(** The [return] statements of the source end the handler inside the
    [try] and inside the [catch]; the [finally] clause still runs. *)
Definition InvitationResponseForm_onSubmit (data : Json) : M App unit :=
  Eff.try_catch_finally
    (setError None ;;;
     setFieldErrors ∅ ;;;
     setIsLoading true ;;;
     let* action := prop "action" data in
     if JsonOps.is_str "decline" action then
       let* _ := liftW (Auth.respondToInvitation auth data) in
       setCell "isDeclined" (JBool true) ;;;
       toast "Invitation declined"
         "You have declined the team invitation." info
     else
       let* response := liftW (Auth.respondToInvitation auth data) in
       setCell "isSuccess" (JBool true) ;;;
       toast "Welcome to the team!"
         "You have successfully joined the organization." success ;;;
       opt_call (Props.onSuccess props) JUndefined)
    (λ err,
       let errorMessage := getErrorMessage utils err in
       let fieldErrs := getFieldErrors utils err in
       let* code := Caught.code err in
       if JsonOps.is_str "user_not_found" code then
         setCell "needsRegistration" (JBool true)
       else
         setError (Some errorMessage) ;;;
         setFieldErrors fieldErrs ;;;
         toast "Response failed" errorMessage destructive)
    (setIsLoading false).

(** The form data built for the upload: the non-nullish entries of
    [data] and, when one is chosen, the picture. *)
Definition ProfileForm_formData (entries : list (string * Json))
    (profileImage : Json) : list (string * Json) :=
  filter (λ kv, nullish kv.2 = false) entries
  ++ (if JsonOps.truthy profileImage
      then [("profile_picture", profileImage)] else []).

(** The call that would send [formData] to [ApiClient.users.updateProfile]
    is commented out in the source ("For now, simulate success"), so
    [formData] is built and dropped. *)
Definition ProfileForm_onSubmit (data : Json) : M App unit :=
  Eff.try_catch_finally
    (setError None ;;;
     setFieldErrors ∅ ;;;
     setIsLoading true ;;;
     let* entries := entries data in
     let* profileImage := cell "profileImage" in
     let formData := ProfileForm_formData entries profileImage in
     let updatedProfile := JsonOps.spread (Props.profile props) data in
     opt_call (Props.onUpdate props) updatedProfile ;;;
     liftW (Auth.updateUser auth (JObj [("profile", updatedProfile)])) ;;;
     toast "Profile updated"
       "Your profile has been successfully updated." success)
    (λ err,
       let errorMessage := getErrorMessage utils err in
       let fieldErrs := getFieldErrors utils err in
       setError (Some errorMessage) ;;;
       setFieldErrors fieldErrs ;;;
       toast "Update failed" errorMessage destructive)
    (setIsLoading false).

(** [login(data)] passes the whole form object as the first argument
    and leaves the other two out. *)
Definition LoginForm_onSubmit (data : Json) : M App unit :=
  Eff.try_catch_finally
    (setError None ;;;
     setIsLoading true ;;;
     Eff.try_catch
       (liftW (Auth.login auth data JUndefined JUndefined) ;;;
        toast "Welcome back!"
          "You have been successfully logged in." success)
       (λ loginError,
          let* code := Caught.code loginError in
          if JsonOps.is_str "mfa_required" code then
            let* email := prop "email" data in
            let* response := Eff.of_option (Caught.response loginError) in
            let mfa_devices :=
              JsonOps.opt_prop "mfa_devices"
                (JsonOps.opt_prop "data" response) in
            setCell "mfaUserData"
              (JObj [("email", email);
                     ("mfa_devices",
                      if JsonOps.truthy mfa_devices then mfa_devices
                      else JArr [])]) ;;;
            setCell "showMfaStep" (JBool true)
          else Eff.throw loginError))
    (λ err,
       let errorMessage := getErrorMessage utils err in
       setError (Some errorMessage) ;;;
       let* code := Caught.code err in
       if JsonOps.is_str "password_expired" code then
         toast "Password Expired"
           "Your password has expired. Please check your email for reset instructions."
           warning
       else if JsonOps.is_str "account_locked" code then
         toast "Account Locked"
           "Your account has been temporarily locked due to multiple failed login attempts."
           destructive
       else Eff.ret tt)
    (setIsLoading false).

End Handlers.

(** The components that render a [<form onSubmit={handleSubmit(..)}>]. *)
Inductive Component :=
| ForgotPasswordForm
| ResetPasswordForm
| SignupForm
| LoginForm
| ForcePasswordChangeForm
| ChangePasswordForm
| OIDCConfigurationForm
| SAMLConfigurationForm
| DisableMFAForm
| RegenerateBackupCodesForm
| MFAEnrollmentWizard_deviceSelection
| MFAEnrollmentWizard_verification
| MFALoginStep
| InvitationResponseForm
| ProfileForm.

(** The handler a component passes to [handleSubmit]. *)
Definition onSubmit (c : Component)
  : Utils -> Auth.Context -> Props.t -> Json -> M App unit :=
  match c with
  | ForgotPasswordForm => λ u a _, ForgotPasswordForm_onSubmit u a
  | ResetPasswordForm => λ u a _, ResetPasswordForm_onSubmit u a
  | SignupForm => λ u a _, SignupForm_onSubmit u a
  | LoginForm => λ u a _, LoginForm_onSubmit u a
  | ForcePasswordChangeForm => λ u a _, ForcePasswordChangeForm_onSubmit u a
  | ChangePasswordForm => λ u a _, ChangePasswordForm_onSubmit u a
  | OIDCConfigurationForm => λ u _ p, OIDCConfigurationForm_onSubmit u p
  | SAMLConfigurationForm => λ u _ p, SAMLConfigurationForm_onSubmit u p
  | DisableMFAForm => DisableMFAForm_onSubmit
  | RegenerateBackupCodesForm => RegenerateBackupCodesForm_onSubmit
  | MFAEnrollmentWizard_deviceSelection =>
      λ u a _, MFAEnrollmentWizard_handleDeviceSelection u a
  | MFAEnrollmentWizard_verification =>
      λ u a _, MFAEnrollmentWizard_handleVerification u a
  | MFALoginStep => MFALoginStep_onSubmit
  | InvitationResponseForm => InvitationResponseForm_onSubmit
  | ProfileForm => ProfileForm_onSubmit
  end.










End Form.

(** ** The home page *)

#[warnings="-register-all"]
Inductive Node :=
| Text (s : string)
| Elem (tag : string) (attrs : list (string * string)) (children : list Node).

Module Page.

Definition attr (name : string) (attrs : list (string * string)) : option string :=
  snd <$> find (λ kv, String.eqb kv.1 name) attrs.

(** The text a node shows: the text of its descendants, in order. *)
Fixpoint textContent (n : Node) : string :=
  match n with
  | Text s => s
  | Elem _ _ children => String.concat EmptyString (map textContent children)
  end.

(** Every element with the given tag, in document order. *)
Fixpoint byTag (tag : string) (n : Node) : list Node :=
  match n with
  | Text _ => []
  | Elem t _ children =>
      (if String.eqb t tag then [n] else [])
      ++ concat (map (byTag tag) children)
  end.

Definition headings (page : Node) : list string :=
  textContent <$> byTag "h1" page.

(** The links of a page: target and label of every [<Link>]. *)
Definition links (page : Node) : list (string * string) :=
  omap (λ n, match n with
             | Elem _ attrs _ => (λ h, (h, textContent n)) <$> attr "href" attrs
             | Text _ => None
             end)
       (byTag "Link" page).

(** Clicking the link with the given label: the router goes to its
    target; nothing happens when the page has no such link. *)
Definition click (label : string) (page : Node) : M World unit :=
  match find (λ l, String.eqb l.2 label) (links page) with
  | Some l => Browser.router_push l.1
  | None => Eff.ret tt
  end.

Definition div (className : string) (children : list Node) : Node :=
  Elem "div" [("className", className)] children.

Definition li (s : string) : Node := Elem "li" [] [Text s].

Definition featureCard (cardTitle cardDescription : string) (items : list string)
  : Node :=
  Elem "Card" [("className", "enterprise-shadow")]
    [ Elem "CardHeader" []
        [ Elem "CardTitle" [("className", "text-enterprise-800")]
            [Text cardTitle];
          Elem "CardDescription" [] [Text cardDescription] ];
      Elem "CardContent" []
        [ Elem "ul" [("className", "space-y-2 text-sm text-enterprise-600")]
            (li <$> items) ] ].

Definition HomePage : Node :=
  div "min-h-screen bg-gradient-to-br from-enterprise-50 to-enterprise-100"
    [ div "container mx-auto px-4 py-16"
        [ div "text-center space-y-8"
            [ div "space-y-4"
                [ Elem "h1" [("className", "text-display-2xl text-enterprise-900")]
                    [Text "Enterprise Scheduling Platform"];
                  Elem "p"
                    [("className", "text-xl text-enterprise-600 max-w-2xl mx-auto")]
                    [Text "Professional scheduling and calendar management for enterprise teams. Streamline your meetings with advanced automation and integrations."] ];
              div "flex flex-col sm:flex-row gap-4 justify-center"
                [ Elem "Button"
                    [("asChild", "true"); ("size", "lg"); ("variant", "enterprise")]
                    [Elem "Link" [("href", "/login")] [Text "Sign In"]];
                  Elem "Button"
                    [("asChild", "true"); ("size", "lg");
                     ("variant", "enterprise-outline")]
                    [Elem "Link" [("href", "/signup")] [Text "Get Started"]] ] ];
          div "mt-16 grid grid-cols-1 md:grid-cols-3 gap-8"
            [ featureCard "Smart Scheduling"
                "Intelligent availability management with calendar sync and conflict resolution."
                [ "• Multi-calendar integration"; "• Timezone intelligence";
                  "• Buffer time management"; "• Recurring availability rules" ];
              featureCard "Enterprise Security"
                "Advanced security features including SSO, MFA, and comprehensive audit trails."
                [ "• SAML & OIDC SSO"; "• Multi-factor authentication";
                  "• Role-based access control"; "• Complete audit logging" ];
              featureCard "Workflow Automation"
                "Powerful automation engine for notifications, follow-ups, and custom workflows."
                [ "• Custom workflow builder"; "• Email & SMS automation";
                  "• Webhook integrations"; "• Conditional logic" ] ] ] ].

End Page.

(** * Sample inputs

    Concrete data on which the statements below are exercised. *)

Module Sample.

(** A signup with the password [Abcdef1!]. *)
Definition signup : Signup.SignupFormData :=
  {| Signup.email := Js.of_string "ada@example.com";
     Signup.first_name := Js.of_string "Ada";
     Signup.last_name := Js.of_string "Lovelace";
     Signup.password := Js.of_string "Abcdef1!";
     Signup.password_confirm := Js.of_string "Abcdef1!";
     Signup.terms_accepted := true |}.

(** The scope state of a fresh OIDC form after typing [groups]. *)
Definition scopes : Oidc.ScopeState :=
  {| Oidc.customScopes := ["openid"; "email"; "profile"];
     Oidc.newScope := "groups";
     Oidc.formScopes := ["openid"; "email"; "profile"] |}.

Definition ada : Json :=
  JObj [("email", JStr "ada@example.com"); ("first_name", JStr "Ada");
        ("is_mfa_enabled", JBool false)].

(** A browser tab of a logged-in user. *)
Definition tab : Window :=
  {| localStorage :=
       {[ "auth_token" := Raw (JStr "t0k3n");
          "user_data" := Stringified ada ]};
     href := "/dashboard" |}.

(** The logged-in tab in front of a backend [srv], nothing sent yet. *)
Definition logged_in (srv : list Request -> Request -> Reply) : World :=
  {| window := Some tab; routerLog := []; requests := []; server := srv;
     toasts := []; console := []; user := ada |}.

(** Backends that give every request the same answer. *)
Definition answering (status : Z) (data : Json)
  : list Request -> Request -> Reply :=
  λ _ _, Responded {| Http.status := status; Http.data := data |}.

Definition offline : list Request -> Request -> Reply := λ _ _, NoResponse.

Definition unauthorized : Response :=
  {| Http.status := 401;
     Http.data := JObj [("code", JStr "not_authenticated")] |}.

Definition slots : Json :=
  JArr [JObj [("start_time", JStr "2025-01-06T09:00:00Z")];
        JObj [("start_time", JStr "2025-01-06T09:30:00Z")]].

Definition getProfile : Axios.Call :=
  {| Axios.call_verb := GET; Axios.call_url := "/users/profile/";
     Axios.call_body := JUndefined; Axios.call_config := JUndefined |}.

Definition utils : Utils :=
  {| getErrorMessage := λ _, "Something went wrong";
     getFieldErrors := λ _, {[ "email" := ["Enter a valid email address."] ]} |}.

Definition auth : Auth.Context :=
  AuthProvider.value AuthProvider.undefined_endpoints ada.

Definition props : Props.t :=
  {| Props.onSave := None; Props.onSuccess := None; Props.onUpdate := None;
     Props.config := JUndefined; Props.profile := JObj [] |}.

Definition idle : FormState :=
  {| isLoading := false; error := None; fieldErrors := ∅; cells := ∅ |}.

(** A freshly mounted form in the logged-in tab. *)
Definition app (srv : list Request -> Request -> Reply) : App :=
  {| form := idle; world := logged_in srv |}.

Definition profile_data : list (string * Json) :=
  [("display_name", JStr "Ada L."); ("timezone_name", JStr "UTC")].

Definition signup_data : Json :=
  JObj [("email", JStr "ada@example.com"); ("first_name", JStr "Ada");
        ("last_name", JStr "Lovelace"); ("password", JStr "Abcdef1!");
        ("password_confirm", JStr "Abcdef1!"); ("terms_accepted", JBool true)].




End Sample.

(** * Further components *)

(** ** Arrays *)

Module Arr.

(** [Array.from(new Set(xs))]: the distinct elements, each at the place of
    its first occurrence. *)
Definition add (seen : list string) (x : string) : list string :=
  if bool_decide (x ∈ seen) then seen else seen ++ [x].

Definition unique (xs : list string) : list string := foldl add [] xs.

(** [s.includes(t)] on texts. *)
Fixpoint includes (s t : string) : bool :=
  String.prefix t s
  || match s with
     | EmptyString => false
     | String _ rest => includes rest t
     end.

(** [xs.some(f)] where [f] may raise a TypeError ([None]): the scan stops
    at the first element for which [f] holds or fails. *)
Fixpoint some (f : Json -> option bool) (xs : list Json) : option bool :=
  match xs with
  | [] => Some false
  | x :: rest =>
      match f x with
      | None => None
      | Some true => Some true
      | Some false => some f rest
      end
  end.

(** [v.some(f)] on a value: only an array has the method, on anything else
    the call raises a TypeError. *)
Definition some_of (v : Json) (f : Json -> option bool) : option bool :=
  match v with
  | JArr items => some f items
  | _ => None
  end.

End Arr.

(** ** Permissions ([usePermissions]) *)

Module Permissions.

(** [None] stands for the TypeError a malformed user object raises. *)
Definition hasPermission (user : Json) (permission : string) : option bool :=
  if negb (JsonOps.truthy user) then Some false
  else
    roles ← JsonOps.prop "roles" user;
    Arr.some_of roles (λ role,
      role_permissions ← JsonOps.prop "role_permissions" role;
      Arr.some_of role_permissions (λ perm,
        codename ← JsonOps.prop "codename" perm;
        Some (JsonOps.is_str permission codename))).

Definition hasRole (user : Json) (roleName : string) : option bool :=
  if negb (JsonOps.truthy user) then Some false
  else
    roles ← JsonOps.prop "roles" user;
    Arr.some_of roles (λ role,
      name ← JsonOps.prop "name" role;
      Some (JsonOps.is_str roleName name)).

(** [a || b]: the first operand when it is truthy, the second otherwise. *)
Definition or_else (a b : Json) : Json := if JsonOps.truthy a then a else b.

(** [hasRole('admin') || user?.is_staff || false] *)
Definition isAdmin (user : Json) : option Json :=
  admin ← hasRole user "admin";
  Some (or_else (or_else (JBool admin) (JsonOps.opt_prop "is_staff" user))
          (JBool false)).

(** [user?.is_organizer || false] *)
Definition isOrganizer (user : Json) : Json :=
  or_else (JsonOps.opt_prop "is_organizer" user) (JBool false).

(** [user?.roles || []] *)
Definition userRoles (user : Json) : Json :=
  or_else (JsonOps.opt_prop "roles" user) (JArr []).

End Permissions.

(** ** The audit log table *)

Module AuditLogTable.

Record AuditLog := {
  action : string;
  description : string;
  ip_address : option string
}.

Section Filter.

(** [String.prototype.toLowerCase], a function of the platform. *)
Variable toLowerCase : string -> string.

Definition matches (filterAction searchTerm : string) (log : AuditLog) : bool :=
  let matchesAction :=
    String.eqb filterAction "all" || String.eqb (action log) filterAction in
  let matchesSearch :=
    String.eqb searchTerm EmptyString
    || Arr.includes (toLowerCase (description log)) (toLowerCase searchTerm)
    || match ip_address log with
       | Some ip => Arr.includes (toLowerCase ip) (toLowerCase searchTerm)
       | None => false
       end in
  matchesAction && matchesSearch.

Definition filteredLogs (filterAction searchTerm : string)
    (auditLogs : list AuditLog) : list AuditLog :=
  List.filter (matches filterAction searchTerm) auditLogs.

End Filter.

(** The entries of the action filter below "All Actions". *)
Definition uniqueActions (auditLogs : list AuditLog) : list string :=
  Arr.unique (map action auditLogs).

End AuditLogTable.

(** ** The session list *)

Module SessionList.

Record UserSession := {
  id : string;
  is_active : bool;
  is_current : bool;
  is_expired : bool;
  browser : option string;              (* device_info?.browser *)
  os : option string                    (* device_info?.os *)
}.

Definition activeSessions (sessions : list UserSession) : list UserSession :=
  List.filter (λ s, is_active s && negb (is_expired s)) sessions.

Definition otherSessions (sessions : list UserSession) : list UserSession :=
  List.filter (λ s, negb (is_current s)) (activeSessions sessions).

(** [if (x) parts.push(x)] for a text that may be missing. *)
Definition push_if (x : option string) (parts : list string) : list string :=
  match x with
  | Some text => if Js.nonempty text then parts ++ [text] else parts
  | None => parts
  end.

(** [parts.join(sep)] *)
Fixpoint join (sep : string) (parts : list string) : string :=
  match parts with
  | [] => EmptyString
  | [x] => x
  | x :: rest => x +:+ sep +:+ join sep rest
  end.

Definition getDeviceDescription (session : UserSession) : string :=
  let parts := push_if (os session) (push_if (browser session) []) in
  if 0 <? length parts then join " on " parts else "Unknown device".

(** The "Revoke All Others" button is there when another session is. *)
Definition showsRevokeAllOthers (sessions : list UserSession) : bool :=
  0 <? length (otherSessions sessions).

(** A row of the list carries its own revoke menu unless it is the
    current session. *)
Definition hasRevokeMenu (session : UserSession) : bool :=
  negb (is_current session).

End SessionList.

(** ** The role viewer *)

Module RolePermissionViewer.

(** The set of expanded roles after a click on the role [roleId]. *)
Definition toggleRoleExpansion (roleId : string) (expandedRoles : gset string)
  : gset string :=
  if bool_decide (roleId ∈ expandedRoles)
  then expandedRoles ∖ {[ roleId ]}
  else expandedRoles ∪ {[ roleId ]}.

Record Permission := { codename : string; category : string }.

Record Role := { role_id : string; role_permissions : list Permission }.

(** The categories offered by the category filter. *)
Definition permissionCategories (roles : list Role) : list string :=
  let allPermissions := concat (map role_permissions roles) in
  Arr.unique (map category allPermissions).

(** The permissions listed for a role under the chosen category. *)
Definition filteredPermissions (filterCategory : string) (role : Role)
  : list Permission :=
  if String.eqb filterCategory "all" then role_permissions role
  else List.filter (λ p, String.eqb (category p) filterCategory)
         (role_permissions role).

End RolePermissionViewer.

(** ** Row actions of the list components *)

Module ListActions.

(** The body the nine row handlers share: mark the row busy, await the
    optional callback of the props, announce the result, and always mark
    the row idle again.

    [try { setBusy(busy); await callback?.(arg); toast(done) }
     catch (error) { toast(failed) } finally { setBusy(idle) }] *)
Definition guarded (busy_cell : string) (busy idle : Json)
    (callback : option (Json -> M World unit)) (arg : Json)
    (done failed : Toast) : M App unit :=
  Eff.try_catch_finally
    (Form.setCell busy_cell busy ;;;
     Form.opt_call callback arg ;;;
     Form.liftW (Browser.toast done))
    (λ _, Form.liftW (Browser.toast failed))
    (Form.setCell busy_cell idle).

Definition announce (title description : string) (variant : Variant) : Toast :=
  {| title := title; description := description; variant := variant |}.

Section Handlers.

(** The callback of the props the handler awaits. *)
Variable callback : option (Json -> M World unit).

(** [InvitationList] *)
Definition handleResendInvitation (invitationId : string) : M App unit :=
  guarded "actionLoading" (JStr invitationId) JNull callback (JStr invitationId)
    (announce "Invitation resent" "The invitation has been sent again." success)
    (announce "Resend failed"
       "Failed to resend invitation. Please try again." destructive).

Definition handleCancelInvitation (invitationId : string) : M App unit :=
  guarded "actionLoading" (JStr invitationId) JNull callback (JStr invitationId)
    (announce "Invitation cancelled" "The invitation has been cancelled."
       success)
    (announce "Cancellation failed"
       "Failed to cancel invitation. Please try again." destructive).

(** [SessionList] *)
Definition handleRevokeSession (sessionId : string) : M App unit :=
  guarded "revokingSession" (JStr sessionId) JNull callback (JStr sessionId)
    (announce "Session revoked" "The session has been successfully revoked."
       success)
    (announce "Revocation failed"
       "Failed to revoke session. Please try again." destructive).

Definition handleRevokeAllOthers : M App unit :=
  guarded "revokingAll" (JBool true) (JBool false) callback JUndefined
    (announce "Sessions revoked"
       "All other sessions have been successfully revoked." success)
    (announce "Revocation failed"
       "Failed to revoke sessions. Please try again." destructive).

(** [SSOSessionList] *)
Definition handleRevokeSsoSession (sessionId : string) : M App unit :=
  guarded "revokingSession" (JStr sessionId) JNull callback (JStr sessionId)
    (announce "SSO session revoked"
       "The SSO session has been successfully revoked." success)
    (announce "Revocation failed"
       "Failed to revoke SSO session. Please try again." destructive).

Definition handleRevokeAll : M App unit :=
  guarded "revokingAll" (JBool true) (JBool false) callback JUndefined
    (announce "All SSO sessions revoked"
       "All SSO sessions have been successfully revoked." success)
    (announce "Revocation failed"
       "Failed to revoke SSO sessions. Please try again." destructive).

(** [MFADeviceList] *)
Definition handleRemoveDevice (deviceId : string) : M App unit :=
  guarded "removingDevice" (JStr deviceId) JNull callback (JStr deviceId)
    (announce "Device removed" "MFA device has been successfully removed."
       success)
    (announce "Removal failed"
       "Failed to remove MFA device. Please try again." destructive).

(** [OIDCConfigurationList] *)
Definition handleDeleteOidc (configId : string) : M App unit :=
  guarded "deletingConfig" (JStr configId) JNull callback (JStr configId)
    (announce "OIDC configuration deleted"
       "The OIDC configuration has been successfully deleted." success)
    (announce "Deletion failed"
       "Failed to delete OIDC configuration. Please try again." destructive).

(** [SAMLConfigurationList] *)
Definition handleDeleteSaml (configId : string) : M App unit :=
  guarded "deletingConfig" (JStr configId) JNull callback (JStr configId)
    (announce "SAML configuration deleted"
       "The SAML configuration has been successfully deleted." success)
    (announce "Deletion failed"
       "Failed to delete SAML configuration. Please try again." destructive).

End Handlers.

(** The nine handlers, each with the identifier of the row it acts on. *)
Inductive Action :=
| ResendInvitation (invitationId : string)
| CancelInvitation (invitationId : string)
| RevokeSession (sessionId : string)
| RevokeAllOthers
| RevokeSsoSession (sessionId : string)
| RevokeAll
| RemoveDevice (deviceId : string)
| DeleteOidc (configId : string)
| DeleteSaml (configId : string).

Definition handle (callback : option (Json -> M World unit)) (a : Action)
  : M App unit :=
  match a with
  | ResendInvitation i => handleResendInvitation callback i
  | CancelInvitation i => handleCancelInvitation callback i
  | RevokeSession i => handleRevokeSession callback i
  | RevokeAllOthers => handleRevokeAllOthers callback
  | RevokeSsoSession i => handleRevokeSsoSession callback i
  | RevokeAll => handleRevokeAll callback
  | RemoveDevice i => handleRemoveDevice callback i
  | DeleteOidc i => handleDeleteOidc callback i
  | DeleteSaml i => handleDeleteSaml callback i
  end.

(** The state cell that marks a row busy, and its idle value. *)
Definition busy_cell (a : Action) : string :=
  match a with
  | ResendInvitation _ | CancelInvitation _ => "actionLoading"
  | RevokeSession _ | RevokeSsoSession _ => "revokingSession"
  | RevokeAllOthers | RevokeAll => "revokingAll"
  | RemoveDevice _ => "removingDevice"
  | DeleteOidc _ | DeleteSaml _ => "deletingConfig"
  end.

Definition idle (a : Action) : Json :=
  match a with
  | RevokeAllOthers | RevokeAll => JBool false
  | _ => JNull
  end.

(** The toast of the [try] block, shown when the callback has returned. *)
Definition succeeded (a : Action) : Toast :=
  match a with
  | ResendInvitation _ =>
      announce "Invitation resent" "The invitation has been sent again."
        success
  | CancelInvitation _ =>
      announce "Invitation cancelled" "The invitation has been cancelled."
        success
  | RevokeSession _ =>
      announce "Session revoked" "The session has been successfully revoked."
        success
  | RevokeAllOthers =>
      announce "Sessions revoked"
        "All other sessions have been successfully revoked." success
  | RevokeSsoSession _ =>
      announce "SSO session revoked"
        "The SSO session has been successfully revoked." success
  | RevokeAll =>
      announce "All SSO sessions revoked"
        "All SSO sessions have been successfully revoked." success
  | RemoveDevice _ =>
      announce "Device removed" "MFA device has been successfully removed."
        success
  | DeleteOidc _ =>
      announce "OIDC configuration deleted"
        "The OIDC configuration has been successfully deleted." success
  | DeleteSaml _ =>
      announce "SAML configuration deleted"
        "The SAML configuration has been successfully deleted." success
  end.

(** The toast of the [catch] block; the caught error is not read. *)
Definition failed (a : Action) : Toast :=
  match a with
  | ResendInvitation _ =>
      announce "Resend failed"
        "Failed to resend invitation. Please try again." destructive
  | CancelInvitation _ =>
      announce "Cancellation failed"
        "Failed to cancel invitation. Please try again." destructive
  | RevokeSession _ =>
      announce "Revocation failed"
        "Failed to revoke session. Please try again." destructive
  | RevokeAllOthers =>
      announce "Revocation failed"
        "Failed to revoke sessions. Please try again." destructive
  | RevokeSsoSession _ =>
      announce "Revocation failed"
        "Failed to revoke SSO session. Please try again." destructive
  | RevokeAll =>
      announce "Revocation failed"
        "Failed to revoke SSO sessions. Please try again." destructive
  | RemoveDevice _ =>
      announce "Removal failed"
        "Failed to remove MFA device. Please try again." destructive
  | DeleteOidc _ =>
      announce "Deletion failed"
        "Failed to delete OIDC configuration. Please try again." destructive
  | DeleteSaml _ =>
      announce "Deletion failed"
        "Failed to delete SAML configuration. Please try again." destructive
  end.

(** What the callback is called with. *)
Definition argument (a : Action) : Json :=
  match a with
  | ResendInvitation i | CancelInvitation i | RevokeSession i
  | RevokeSsoSession i | RemoveDevice i | DeleteOidc i | DeleteSaml i => JStr i
  | RevokeAllOthers | RevokeAll => JUndefined
  end.

End ListActions.

(** ** One-time codes *)

Module Otp.

(** [/^\d+$/]: one digit or more and nothing else; without the [m] flag
    the two anchors are the ends of the text. *)
Definition digits_only (code : Js.str) : bool :=
  (0 <? length code) && forallb Js.digit code.

(** The [otp_code] field of [verificationSchema] (enrollment wizard) and of
    [mfaVerificationSchema] (login step):
    [z.string().length(6, ..).regex(/^\d+$/, ..)]. *)
Definition otpIssues (otp_code : Js.str) : list Signup.Issue :=
  Signup.check "otp_code" (length otp_code =? 6) "Code must be 6 digits"
  ++ Signup.check "otp_code" (digits_only otp_code)
       "Code must contain only numbers".

End Otp.

(** ** The picture of the profile form *)

Module ProfilePicture.

(** What the handlers read of a [File]. *)
Record File := { file_name : string; size : N }.

(** The two state cells of the picture, the object URLs handed out so
    far, and the toasts shown. *)
Record State := {
  profileImage : option File;
  previewUrl : option string;
  objectUrls : nat;
  shown : list Toast
}.

(** The state of a freshly rendered form:
    [useState(null)] and [useState(profile.profile_picture)]. *)
Definition initial (profile_picture : option string) : State :=
  {| profileImage := None; previewUrl := profile_picture;
     objectUrls := 0; shown := [] |}.

Section Handlers.

(** [URL.createObjectURL]: the n-th URL the browser hands out, for the
    given file. *)
Variable createObjectURL : nat -> File -> string.

(** [file] is [event.target.files?.[0]]. *)
Definition handleImageChange (file : option File) (st : State) : State :=
  match file with
  | Some file =>
      if (5 * 1024 * 1024 <? size file)%N then
        {| profileImage := profileImage st; previewUrl := previewUrl st;
           objectUrls := objectUrls st;
           shown := shown st
                    ++ [ {| title := "File too large";
                            description := "Profile picture must be less than 5MB";
                            variant := destructive |} ] |}
      else
        let url := createObjectURL (objectUrls st) file in
        {| profileImage := Some file; previewUrl := Some url;
           objectUrls := S (objectUrls st); shown := shown st |}
  | None => st
  end.

Definition removeImage (st : State) : State :=
  {| profileImage := None; previewUrl := None;
     objectUrls := objectUrls st; shown := shown st |}.

(** What the user does with the picture. *)
Inductive Event :=
| Choose (file : option File)
| Remove.

Definition step (st : State) (ev : Event) : State :=
  match ev with
  | Choose file => handleImageChange file st
  | Remove => removeImage st
  end.

Definition run (events : list Event) (st : State) : State :=
  foldl step st events.

End Handlers.

End ProfilePicture.

(** ** Start-up of the provider ([initAuth]) *)

Module Provider.

Import StorageUtils.

(** The [isLoading] state of [AuthProvider] (true on the first render)
    beside everything else the provider acts on. *)
Record State := { loading : bool; env : World }.

Definition lift {A} (m : M World A) : M State A :=
  λ st, match m (env st) with
        | (o, w') => (o, {| loading := loading st; env := w' |})
        end.

Definition setIsLoading (b : bool) : M State unit :=
  Eff.modify (λ st, {| loading := b; env := env st |}).

(** Truthiness of what [getStorageItem] returned. *)
Definition found (item : option Stored) : bool :=
  match item with
  | Some text => Axios.token_truthy text
  | None => false
  end.

Section Init.

(** [JSON.parse] on a stored item; [None] is the SyntaxError of a text
    that is no JSON. *)
Variable JSON_parse : Stored -> option Json.

Definition SyntaxError : Thrown := OtherError (JObj [("name", JStr "SyntaxError")]).

(** [JSON.parse(null)] is [null]. *)
Definition parse (item : option Stored) : M State Json :=
  match item with
  | Some text =>
      match JSON_parse text with
      | Some v => Eff.ret v
      | None => Eff.throw SyntaxError
      end
  | None => Eff.ret JNull
  end.

Definition initAuth : M State unit :=
  let* token := lift (getStorageItem STORAGE_KEYS.AUTH_TOKEN) in
  let* userData := lift (getStorageItem STORAGE_KEYS.USER_DATA) in
  Eff.when (found token && found userData)
    (Eff.try_catch
       (let* parsedUser := parse userData in
        lift (Browser.setUser parsedUser) ;;;
        lift AuthProvider.refreshUser)
       (λ error,
          lift (Browser.console_error "Error parsing stored user data:") ;;;
          lift (removeStorageItem STORAGE_KEYS.AUTH_TOKEN) ;;;
          lift (removeStorageItem STORAGE_KEYS.USER_DATA))) ;;;
  setIsLoading false.

End Init.

(** [isAuthenticated = !!user] *)
Definition isAuthenticated (st : State) : bool := JsonOps.truthy (user (env st)).

End Provider.

(** ** The endpoint constants ([API_ENDPOINTS]) *)

Module API_ENDPOINTS.

(** An entry of the table, with the arguments of the entries that are
    functions. *)
Inductive Endpoint :=
| LOGIN
| REGISTER
| LOGOUT
| VERIFY_EMAIL
| REQUEST_PASSWORD_RESET
| CONFIRM_PASSWORD_RESET
| CHANGE_PASSWORD
| PROFILE
| PUBLIC_PROFILE (slug : string)
| MFA_DEVICES
| MFA_SETUP
| MFA_VERIFY
| MFA_DISABLE
| MFA_BACKUP_CODES
| SESSIONS
| REVOKE_SESSION (id : string)
| REVOKE_ALL_SESSIONS
| EVENT_TYPES
| EVENT_TYPE (id : string)
| PUBLIC_ORGANIZER (slug : string)
| PUBLIC_EVENT_TYPE (organizerSlug : string) (eventTypeSlug : string)
| AVAILABLE_SLOTS (organizerSlug : string) (eventTypeSlug : string)
| BOOKINGS
| BOOKING (id : string)
| CREATE_BOOKING
| BOOKING_MANAGEMENT (token : string)
| AVAILABILITY_RULES
| AVAILABILITY_RULE (id : string)
| DATE_OVERRIDES
| DATE_OVERRIDE (id : string)
| BLOCKED_TIMES
| BLOCKED_TIME (id : string)
| RECURRING_BLOCKS
| RECURRING_BLOCK (id : string)
| BUFFER_SETTINGS
| CALENDAR_INTEGRATIONS
| VIDEO_INTEGRATIONS
| WEBHOOKS
| OAUTH_INITIATE
| OAUTH_CALLBACK
| WORKFLOWS
| WORKFLOW (id : string)
| WORKFLOW_ACTIONS (workflowId : string)
| NOTIFICATION_TEMPLATES
| NOTIFICATION_PREFERENCES
| NOTIFICATION_LOGS
| CONTACTS
| CONTACT (id : string)
| CONTACT_GROUPS.

Definition path (e : Endpoint) : string :=
  match e with
  | LOGIN => "/users/login/"
  | REGISTER => "/users/register/"
  | LOGOUT => "/users/logout/"
  | VERIFY_EMAIL => "/users/verify-email/"
  | REQUEST_PASSWORD_RESET => "/users/request-password-reset/"
  | CONFIRM_PASSWORD_RESET => "/users/confirm-password-reset/"
  | CHANGE_PASSWORD => "/users/change-password/"
  | PROFILE => "/users/profile/"
  | PUBLIC_PROFILE slug => "/users/public/" +:+ slug +:+ "/"
  | MFA_DEVICES => "/users/mfa/devices/"
  | MFA_SETUP => "/users/mfa/setup/"
  | MFA_VERIFY => "/users/mfa/verify/"
  | MFA_DISABLE => "/users/mfa/disable/"
  | MFA_BACKUP_CODES => "/users/mfa/backup-codes/regenerate/"
  | SESSIONS => "/users/sessions/"
  | REVOKE_SESSION id => "/users/sessions/" +:+ id +:+ "/revoke/"
  | REVOKE_ALL_SESSIONS => "/users/sessions/revoke-all/"
  | EVENT_TYPES => "/events/event-types/"
  | EVENT_TYPE id => "/events/event-types/" +:+ id +:+ "/"
  | PUBLIC_ORGANIZER slug => "/events/public/" +:+ slug +:+ "/"
  | PUBLIC_EVENT_TYPE organizerSlug eventTypeSlug => "/events/public/" +:+ organizerSlug +:+ "/" +:+ eventTypeSlug +:+ "/"
  | AVAILABLE_SLOTS organizerSlug eventTypeSlug => "/events/slots/" +:+ organizerSlug +:+ "/" +:+ eventTypeSlug +:+ "/"
  | BOOKINGS => "/events/bookings/"
  | BOOKING id => "/events/bookings/" +:+ id +:+ "/"
  | CREATE_BOOKING => "/events/bookings/create/"
  | BOOKING_MANAGEMENT token => "/events/booking/" +:+ token +:+ "/manage/"
  | AVAILABILITY_RULES => "/availability/rules/"
  | AVAILABILITY_RULE id => "/availability/rules/" +:+ id +:+ "/"
  | DATE_OVERRIDES => "/availability/overrides/"
  | DATE_OVERRIDE id => "/availability/overrides/" +:+ id +:+ "/"
  | BLOCKED_TIMES => "/availability/blocked/"
  | BLOCKED_TIME id => "/availability/blocked/" +:+ id +:+ "/"
  | RECURRING_BLOCKS => "/availability/recurring-blocks/"
  | RECURRING_BLOCK id => "/availability/recurring-blocks/" +:+ id +:+ "/"
  | BUFFER_SETTINGS => "/availability/buffer/"
  | CALENDAR_INTEGRATIONS => "/integrations/calendar/"
  | VIDEO_INTEGRATIONS => "/integrations/video/"
  | WEBHOOKS => "/integrations/webhooks/"
  | OAUTH_INITIATE => "/integrations/oauth/initiate/"
  | OAUTH_CALLBACK => "/integrations/oauth/callback/"
  | WORKFLOWS => "/workflows/"
  | WORKFLOW id => "/workflows/" +:+ id +:+ "/"
  | WORKFLOW_ACTIONS workflowId => "/workflows/" +:+ workflowId +:+ "/actions/"
  | NOTIFICATION_TEMPLATES => "/notifications/templates/"
  | NOTIFICATION_PREFERENCES => "/notifications/preferences/"
  | NOTIFICATION_LOGS => "/notifications/logs/"
  | CONTACTS => "/contacts/"
  | CONTACT id => "/contacts/" +:+ id +:+ "/"
  | CONTACT_GROUPS => "/contacts/groups/"
  end.

(** The client method that serves an entry of the table. *)
Definition serving (e : Endpoint) : ApiClient.Method :=
  match e with
  | LOGIN => ApiClient.auth_login JUndefined
  | REGISTER => ApiClient.auth_register JUndefined
  | LOGOUT => ApiClient.auth_logout
  | VERIFY_EMAIL => ApiClient.auth_verifyEmail JUndefined
  | REQUEST_PASSWORD_RESET => ApiClient.auth_requestPasswordReset JUndefined
  | CONFIRM_PASSWORD_RESET => ApiClient.auth_confirmPasswordReset JUndefined
  | CHANGE_PASSWORD => ApiClient.auth_changePassword JUndefined
  | PROFILE => ApiClient.users_getProfile
  | PUBLIC_PROFILE slug => ApiClient.users_getPublicProfile slug
  | MFA_DEVICES => ApiClient.users_getMfaDevices
  | MFA_SETUP => ApiClient.users_setupMfa JUndefined
  | MFA_VERIFY => ApiClient.users_verifyMfa JUndefined
  | MFA_DISABLE => ApiClient.users_disableMfa JUndefined
  | MFA_BACKUP_CODES => ApiClient.users_regenerateBackupCodes JUndefined
  | SESSIONS => ApiClient.users_getSessions
  | REVOKE_SESSION id => ApiClient.users_revokeSession id
  | REVOKE_ALL_SESSIONS => ApiClient.users_revokeAllSessions
  | EVENT_TYPES => ApiClient.events_getEventTypes
  | EVENT_TYPE id => ApiClient.events_getEventType id
  | PUBLIC_ORGANIZER slug => ApiClient.events_getPublicOrganizer slug
  | PUBLIC_EVENT_TYPE organizerSlug eventTypeSlug => ApiClient.events_getPublicEventType organizerSlug eventTypeSlug
  | AVAILABLE_SLOTS organizerSlug eventTypeSlug => ApiClient.events_getAvailableSlots organizerSlug eventTypeSlug JUndefined
  | BOOKINGS => ApiClient.events_getBookings JUndefined
  | BOOKING id => ApiClient.events_getBooking id
  | CREATE_BOOKING => ApiClient.events_createBooking JUndefined
  | BOOKING_MANAGEMENT token => ApiClient.events_getBookingByToken token
  | AVAILABILITY_RULES => ApiClient.availability_getRules
  | AVAILABILITY_RULE id => ApiClient.availability_getRule id
  | DATE_OVERRIDES => ApiClient.availability_getOverrides
  | DATE_OVERRIDE id => ApiClient.availability_getOverride id
  | BLOCKED_TIMES => ApiClient.availability_getBlockedTimes
  | BLOCKED_TIME id => ApiClient.availability_getBlockedTime id
  | RECURRING_BLOCKS => ApiClient.availability_getRecurringBlocks
  | RECURRING_BLOCK id => ApiClient.availability_getRecurringBlock id
  | BUFFER_SETTINGS => ApiClient.availability_getBufferSettings
  | CALENDAR_INTEGRATIONS => ApiClient.integrations_getCalendarIntegrations
  | VIDEO_INTEGRATIONS => ApiClient.integrations_getVideoIntegrations
  | WEBHOOKS => ApiClient.integrations_getWebhooks
  | OAUTH_INITIATE => ApiClient.integrations_initiateOauth JUndefined
  | OAUTH_CALLBACK => ApiClient.integrations_oauthCallback JUndefined
  | WORKFLOWS => ApiClient.workflows_getWorkflows
  | WORKFLOW id => ApiClient.workflows_getWorkflow id
  | WORKFLOW_ACTIONS workflowId => ApiClient.workflows_getWorkflowActions workflowId
  | NOTIFICATION_TEMPLATES => ApiClient.notifications_getTemplates
  | NOTIFICATION_PREFERENCES => ApiClient.notifications_getPreferences
  | NOTIFICATION_LOGS => ApiClient.notifications_getLogs
  | CONTACTS => ApiClient.contacts_getContacts JUndefined
  | CONTACT id => ApiClient.contacts_getContact id
  | CONTACT_GROUPS => ApiClient.contacts_getGroups
  end.

End API_ENDPOINTS.

(** * Further sample inputs *)

Module Fixture.

(** A user whose e-mail address still awaits verification. *)
Definition pending_user : Json :=
  JObj [("email", JStr "grace@example.com");
        ("account_status", JStr "pending_verification")].

(** The answer of the backend to an accepted login of that user. *)
Definition session : Response :=
  {| Http.status := 200;
     Http.data := JObj [("user", pending_user); ("token", JStr "s3ss10n")] |}.

(** An accepted answer that carries a token but no user. *)
Definition token_only : Response :=
  {| Http.status := 200; Http.data := JObj [("token", JStr "s3ss10n")] |}.

(** The answer to a login with an expired password. *)
Definition expired : Response :=
  {| Http.status := 400;
     Http.data := JObj [("code", JStr "password_expired")] |}.

(** The answer to a login that needs a second factor. *)
Definition mfa_required : Response :=
  {| Http.status := 400;
     Http.data :=
       JObj [("code", JStr "mfa_required");
             ("mfa_devices", JArr [JObj [("device_type", JStr "totp")]])] |}.

Definition forbidden : Response :=
  {| Http.status := 403; Http.data := JObj [("detail", JStr "denied")] |}.

(** A role that grants one permission, and a user who holds it. *)
Definition editor_role : Json :=
  JObj [("name", JStr "editor");
        ("role_permissions", JArr [JObj [("codename", JStr "can_edit")]])].

Definition editor : Json :=
  JObj [("email", JStr "grace@example.com"); ("roles", JArr [editor_role])].

(** The same user after a further, malformed role was appended. *)
Definition editor_with_broken_role : Json :=
  JObj [("email", JStr "grace@example.com");
        ("roles", JArr [editor_role; JNull])].

Definition login_entry : AuditLogTable.AuditLog :=
  {| AuditLogTable.action := "login";
     AuditLogTable.description := "Signed in";
     AuditLogTable.ip_address := Some "10.0.0.1" |}.

Definition logout_entry : AuditLogTable.AuditLog :=
  {| AuditLogTable.action := "logout";
     AuditLogTable.description := "Signed out";
     AuditLogTable.ip_address := None |}.

(** A browser tab that holds no session yet, the provider still loading. *)
Definition first_visit : Provider.State :=
  {| Provider.loading := true;
     Provider.env :=
       {| window := Some {| localStorage := ∅; href := "/" |};
          routerLog := []; requests := []; server := Sample.offline;
          toasts := []; console := []; user := JNull |} |}.

(** The tab of a logged-in user when the provider starts, in front of a
    backend [srv]. *)
Definition returning_visit (srv : list Request -> Request -> Reply)
  : Provider.State :=
  {| Provider.loading := true;
     Provider.env :=
       {| window := Some Sample.tab; routerLog := []; requests := [];
          server := srv; toasts := []; console := []; user := JNull |} |}.

(** A [JSON.parse] that reads back what [JSON.stringify] wrote and takes
    nothing else for JSON. *)
Definition read_back (item : Stored) : option Json :=
  match item with
  | Stringified v => Some v
  | Raw _ => None
  end.

Definition phone_session : SessionList.UserSession :=
  {| SessionList.id := "s-2"; SessionList.is_active := true;
     SessionList.is_current := false; SessionList.is_expired := false;
     SessionList.browser := Some "Firefox"; SessionList.os := None |}.

End Fixture.

(** * Properties *)

(** ** Password strength *)

Section PasswordFacts.

Import Signup.

Lemma check_nil path ok message : check path ok message = [] -> ok = true.
Proof. destruct ok; [reflexivity | discriminate]. Qed.

(** A password without issues passes each of the five checks. *)
Lemma passwordIssues_nil p :
  passwordIssues p = [] ->
  (8 <=? length p) = true /\ Js.test Js.upper p = true /\
  Js.test Js.lower p = true /\ Js.test Js.digit p = true /\
  Js.test Js.special p = true.
Proof.
  unfold passwordIssues. intros H.
  repeat (apply app_eq_nil in H; destruct H as [?%check_nil H]).
  apply check_nil in H. auto.
Qed.

Lemma accepted_passwordIssues isEmail d :
  accepted isEmail d -> passwordIssues (password d) = [].
Proof.
  unfold accepted, signupSchema. intros H.
  do 5 (apply app_eq_nil in H; destruct H as [_ H]).
  apply app_eq_nil in H. tauto.
Qed.

Lemma incr_le b n : incr b n <= S n.
Proof. destruct b; simpl; lia. Qed.

Lemma getPasswordStrength_le p : getPasswordStrength p <= 5.
Proof.
  unfold getPasswordStrength.
  repeat match goal with
         | |- context [incr ?b ?n] =>
             let H := fresh in
             pose proof (incr_le b n) as H; destruct b; simpl in *; clear H
         end; lia.
Qed.

End PasswordFacts.

(** C9. Every password the signup schema accepts gets the maximal strength
    5 from [getPasswordStrength], so the indicator of the form labels it
    "Strong"; and on every string the strength is a number from 0 to 5. *)
Theorem accepted_password_is_strong
    (isEmail : Js.str -> bool) (d : Signup.SignupFormData) (p : Js.str) :
  (Signup.accepted isEmail d ->
   Signup.getPasswordStrength (Signup.password d) = 5 /\
   Signup.strengthIndicator (Signup.password d) = Some "Strong") /\
  0 <= Signup.getPasswordStrength p <= 5.
Proof.
  split.
  - intros Hacc. apply accepted_passwordIssues in Hacc.
    apply passwordIssues_nil in Hacc as (Hlen & Hu & Hl & Hd & Hs).
    assert (Hfive : Signup.getPasswordStrength (Signup.password d) = 5).
    { unfold Signup.getPasswordStrength. rewrite Hlen, Hu, Hl, Hd, Hs.
      reflexivity. }
    split; [exact Hfive |].
    unfold Signup.strengthIndicator, Signup.passwordStrength.
    destruct (Signup.password d) as [| c rest] eqn:Hp.
    + simpl in Hlen. discriminate.
    + rewrite Hfive. reflexivity.
  - split; [lia | apply getPasswordStrength_le].
Qed.

Lemma accepted_password_is_strong_witness :
  Signup.accepted (λ _, true) Sample.signup /\
  Signup.getPasswordStrength (Signup.password Sample.signup) = 5 /\
  Signup.strengthIndicator (Signup.password Sample.signup) = Some "Strong".
Proof.
  split; [reflexivity |].
  apply (accepted_password_is_strong (λ _, true) Sample.signup []).
  reflexivity.
Defined.

(** ** Scope list of the OIDC form *)

Section ScopeFacts.

Import Oidc.

Lemma filter_absent (scope : string) (l : list string) :
  scope ∉ l -> filter (λ s, s ≠ scope) l = l.
Proof.
  induction l as [| x l IH]; intros Hnotin; [reflexivity |].
  apply not_elem_of_cons in Hnotin as [Hne Hl].
  rewrite filter_cons_True by congruence.
  f_equal. exact (IH Hl).
Qed.

Lemma addScope_scopes st :
  customScopes (addScope st) =
    if decide (newScope st ≠ EmptyString ∧ newScope st ∉ customScopes st)
    then customScopes st ++ [newScope st]
    else customScopes st.
Proof.
  unfold addScope, includes.
  destruct (decide _) as [[Hne Hnotin] | Hno].
  - rewrite (bool_decide_eq_false_2 _ Hnotin).
    destruct (newScope st); [congruence | reflexivity].
  - destruct (newScope st) as [| c rest] eqn:Hnew; [reflexivity |].
    destruct (bool_decide_reflect (String c rest ∈ customScopes st)) as [Hin | Hout].
    + reflexivity.
    + exfalso. apply Hno. split; [discriminate | assumption].
Qed.

Lemma addScope_NoDup st : NoDup (customScopes st) -> NoDup (customScopes (addScope st)).
Proof.
  intros Hnd. rewrite addScope_scopes.
  destruct (decide _) as [[_ Hnotin] |]; [| exact Hnd].
  apply NoDup_app. split; [exact Hnd |]. split.
  - intros x Hx Hin. apply list_elem_of_singleton in Hin. congruence.
  - apply NoDup_singleton.
Qed.

Lemma removeScope_after_addScope st :
  newScope st ∉ customScopes st ->
  customScopes (removeScope (newScope st) (addScope st)) = customScopes st.
Proof.
  intros Hnotin. unfold removeScope. simpl. rewrite addScope_scopes.
  destruct (decide _) as [[Hne _] | _].
  - rewrite filter_app, filter_absent by assumption.
    rewrite filter_cons_False by tauto.
    rewrite filter_nil. apply app_nil_r.
  - apply filter_absent; assumption.
Qed.

End ScopeFacts.

(** C10. From a duplicate-free scope list, [addScope] appends the typed
    scope exactly when it is non-empty and not yet present, [removeScope]
    removes every occurrence of its argument, both keep the list
    duplicate-free, and removing a scope right after adding it, when it was
    absent, gives back the original list. *)
Theorem scopes_stay_duplicate_free (st : Oidc.ScopeState) (scope : string) :
  NoDup (Oidc.customScopes st) ->
  NoDup (Oidc.customScopes (Oidc.addScope st)) /\
  NoDup (Oidc.customScopes (Oidc.removeScope scope st)) /\
  Oidc.customScopes (Oidc.addScope st) =
    (if decide (Oidc.newScope st ≠ EmptyString ∧
                Oidc.newScope st ∉ Oidc.customScopes st)
     then Oidc.customScopes st ++ [Oidc.newScope st]
     else Oidc.customScopes st) /\
  (scope ∉ Oidc.customScopes (Oidc.removeScope scope st)) /\
  (∀ s, s ≠ scope ->
        (s ∈ Oidc.customScopes (Oidc.removeScope scope st) <->
         s ∈ Oidc.customScopes st)) /\
  (Oidc.newScope st ∉ Oidc.customScopes st ->
   Oidc.customScopes (Oidc.removeScope (Oidc.newScope st) (Oidc.addScope st))
   = Oidc.customScopes st).
Proof.
  intros Hnd. repeat split.
  - apply addScope_NoDup, Hnd.
  - simpl. apply NoDup_filter, Hnd.
  - apply addScope_scopes.
  - simpl. rewrite list_elem_of_filter. tauto.
  - simpl. rewrite list_elem_of_filter. tauto.
  - simpl. rewrite list_elem_of_filter. tauto.
  - apply removeScope_after_addScope.
Qed.

Lemma scopes_stay_duplicate_free_witness :
  NoDup (Oidc.customScopes Sample.scopes) /\
  Oidc.customScopes (Oidc.addScope Sample.scopes)
  = ["openid"; "email"; "profile"; "groups"] /\
  Oidc.customScopes (Oidc.removeScope "groups" (Oidc.addScope Sample.scopes))
  = ["openid"; "email"; "profile"].
Proof.
  assert (Hnd : NoDup (Oidc.customScopes Sample.scopes)).
  { compute_done. }
  split; [exact Hnd |].
  pose proof (scopes_stay_duplicate_free Sample.scopes "groups" Hnd)
    as (_ & _ & Hadd & _ & _ & Hback).
  split.
  - rewrite Hadd. reflexivity.
  - apply Hback. compute_done.
Defined.

(** ** Home page *)

(** C7. The home page shows the heading "Enterprise Scheduling Platform"
    and exactly two links, "Sign In" to /login and "Get Started" to
    /signup; clicking the "Sign In" link takes the router to /login. *)
Theorem homepage_heading_and_links (w : World) :
  Page.headings Page.HomePage = ["Enterprise Scheduling Platform"] /\
  Page.links Page.HomePage
  = [("/login", "Sign In"); ("/signup", "Get Started")] /\
  routerLog (Eff.exec (Page.click "Sign In" Page.HomePage) w)
  = routerLog w ++ ["/login"] /\
  routerLog (Eff.exec (Page.click "Get Started" Page.HomePage) w)
  = routerLog w ++ ["/signup"].
Proof. repeat split; reflexivity. Qed.

(** ** The client: one request per call *)

Section AxiosFacts.

Lemma onRejected_requests error w :
  requests (Eff.exec (Axios.onRejected error) w) = requests w.
Proof.
  unfold Eff.exec, Axios.onRejected, Eff.bind, Eff.when, Eff.get, Eff.throw,
    Eff.ret.
  destruct (Axios.has_status 401 error), (Axios.has_status 403 error),
    (Axios.has_status 429 error), (window w); reflexivity.
Qed.

Lemma onRejected_throws error w :
  Eff.outcome (Axios.onRejected error) w = Threw error.
Proof.
  unfold Eff.outcome, Axios.onRejected, Eff.bind, Eff.when, Eff.get,
    Eff.throw, Eff.ret.
  destruct (Axios.has_status 401 error), (Axios.has_status 403 error),
    (Axios.has_status 429 error), (window w); reflexivity.
Qed.

(** A call runs its response interceptor in the world after the send. *)
Lemma request_unfold c w :
  Axios.request c w =
    match Axios.answer c w with
    | Responded resp =>
        if Axios.validateStatus (Http.status resp)
        then (Returned resp, Axios.after_send c w)
        else Axios.onRejected (AxiosError (Some resp))
               (Axios.after_send c w)
    | NoResponse =>
        Axios.onRejected (AxiosError None)
          (Axios.after_send c w)
    end.
Proof.
  unfold Axios.request, Axios.requestInterceptor, Axios.answer, Eff.bind,
    Axios.after_send, Eff.exec, Browser.send. simpl.
  destruct (server w (requests w) (Axios.authorize c w)) as [resp |];
    [destruct (Axios.validateStatus (Http.status resp)) |]; reflexivity.
Qed.

Lemma request_requests c w :
  requests (Eff.exec (Axios.request c) w)
  = requests w ++ [Axios.authorize c w].
Proof.
  unfold Eff.exec. rewrite request_unfold.
  destruct (Axios.answer c w) as [resp |];
    [destruct (Axios.validateStatus (Http.status resp)) |];
    try reflexivity; apply onRejected_requests.
Qed.

Lemma request_fulfilled c w resp :
  Axios.answer c w = Responded resp ->
  Axios.validateStatus (Http.status resp) = true ->
  Axios.request c w = (Returned resp, Axios.after_send c w).
Proof. intros Ha Hv. rewrite request_unfold, Ha, Hv. reflexivity. Qed.

Lemma request_failed c w :
  (∀ resp, Axios.answer c w = Responded resp ->
           Axios.validateStatus (Http.status resp) = false) ->
  ∃ e, Eff.outcome (Axios.request c) w = Threw (AxiosError e).
Proof.
  intros Hbad. unfold Eff.outcome. rewrite request_unfold.
  destruct (Axios.answer c w) as [resp |].
  - rewrite (Hbad resp eq_refl). eexists. apply onRejected_throws.
  - eexists. apply onRejected_throws.
Qed.

(** Every method of the table is one call on the instance. *)
Lemma invoke_is_request m : ∃ c, ApiClient.invoke m = Axios.request c.
Proof. destruct m; eexists; reflexivity. Qed.

End AxiosFacts.

(** C4. Every method of [ApiClient] puts exactly one request on the wire
    per invocation, after the requests sent before and whatever the backend
    answers; the interceptors of the instance send nothing themselves, so
    no answer leads to a second attempt. *)
Theorem apiclient_sends_exactly_one_request (m : ApiClient.Method) (w : World) :
  (∃ r, requests (Eff.exec (ApiClient.invoke m) w) = requests w ++ [r]) /\
  (∀ c, requests (Eff.exec (Axios.requestInterceptor c) w) = requests w) /\
  (∀ response, requests (Eff.exec (Axios.onFulfilled response) w) = requests w) /\
  (∀ error, requests (Eff.exec (Axios.onRejected error) w) = requests w).
Proof.
  repeat split.
  - destruct (invoke_is_request m) as [c ->].
    exists (Axios.authorize c w). apply request_requests.
  - intros error. apply onRejected_requests.
Qed.

(** ** Slots come from the backend *)

Section SlotFacts.

(** Only the two slot methods address a slot endpoint. *)
Lemma slot_endpoint_method m :
  ∃ c, ApiClient.invoke m = Axios.request c /\
       (ApiClient.slot_endpoint (Axios.call_url c) = true ->
        ApiClient.is_slot_method m = true).
Proof.
  destruct m; eexists; (split; [reflexivity |]);
    solve [ reflexivity | intros H; vm_compute in H; discriminate H
          | intros H; cbn in H; discriminate H ].
Qed.

Lemma prefix_app (p s : string) : String.prefix p (p +:+ s) = true.
Proof.
  induction p as [| c p IH]; [by destruct s |].
  change (String c p +:+ s) with (String c (p +:+ s)). cbn.
  destruct (Ascii.ascii_dec c c); [exact IH | congruence].
Qed.

Lemma prefix_spec (p t : string) :
  String.prefix p t = true -> exists s, t = p +:+ s.
Proof.
  revert t. induction p as [| c p IH]; intros t H.
  - by exists t.
  - destruct t as [| c' t]; cbn in H; [discriminate |].
    destruct (Ascii.ascii_dec c c') as [<- |]; [| discriminate].
    destruct (IH t H) as [s ->]. exists s. reflexivity.
Qed.

End SlotFacts.

(** C6. The slot view (modelled from the spec) computes no slot. For
    either query it puts exactly one request on the wire, a GET with the
    caller's parameters to the slot endpoint of [getAvailableSlots] or
    [getCalculatedSlots], and none to the endpoints of rules, overrides,
    blocked times, recurring blocks or buffers. When the backend accepts
    the request, what the view displays is the body of that answer,
    unchanged; when the backend refuses or does not answer, the view has
    nothing to display. No other method of the client addresses a slot
    endpoint. *)
Theorem slots_are_the_backend_answer (q : SlotView.Query) (w : World) :
  let call :=
    match q with
    | SlotView.Available organizerSlug eventTypeSlug params =>
        {| Axios.call_verb := GET;
           Axios.call_url :=
             "/events/slots/" +:+ organizerSlug +:+ "/" +:+ eventTypeSlug
             +:+ "/";
           Axios.call_body := JUndefined;
           Axios.call_config := JObj [("params", params)] |}
    | SlotView.Calculated organizerSlug params =>
        {| Axios.call_verb := GET;
           Axios.call_url :=
             "/availability/calculated-slots/" +:+ organizerSlug +:+ "/";
           Axios.call_body := JUndefined;
           Axios.call_config := JObj [("params", params)] |}
    end in
  let view := SlotView.displayedSlots q in
  requests (Eff.exec view w) = requests w ++ [Axios.authorize call w]
  /\ ApiClient.slot_endpoint (Axios.call_url call) = true
  /\ (forall path, path ∈ SlotView.ingredient_paths ->
        String.prefix path (Axios.call_url call) = false)
  /\ (forall resp, Axios.answer call w = Responded resp ->
        Axios.validateStatus (Http.status resp) = true ->
        Eff.outcome view w = Returned (Http.data resp))
  /\ ((forall resp, Axios.answer call w = Responded resp ->
         Axios.validateStatus (Http.status resp) = false) ->
      exists e, Eff.outcome view w = Threw (AxiosError e))
  /\ (forall m r,
        last (requests (Eff.exec (ApiClient.invoke m) w)) = Some r ->
        ApiClient.slot_endpoint (url r) = true ->
        ApiClient.is_slot_method m = true).
Proof.
  intros call view.
  assert (Hview : view = let* response := Axios.request call in
                         Eff.ret (Http.data response)).
  { subst view call. destruct q; reflexivity. }
  split; [| split; [| split; [| split; [| split]]]].
  - rewrite Hview. unfold Eff.exec, Eff.bind.
    pose proof (request_requests call w) as Hreq. unfold Eff.exec in Hreq.
    destruct (Axios.request call w) as [[resp | e] w1]; exact Hreq.
  - subst call. unfold ApiClient.slot_endpoint.
    destruct q; cbn [Axios.call_url]; rewrite prefix_app;
      [reflexivity | apply orb_true_r].
  - intros path Hpath. subst call. unfold SlotView.ingredient_paths in Hpath.
    apply not_true_is_false. intros Hprefix.
    apply prefix_spec in Hprefix as [rest Hrest].
    repeat (apply elem_of_cons in Hpath as [-> | Hpath];
            [destruct q; vm_compute in Hrest; discriminate Hrest |]).
    by apply elem_of_nil in Hpath.
  - intros resp Ha Hv. rewrite Hview. unfold Eff.outcome, Eff.bind.
    rewrite (request_fulfilled call w resp Ha Hv). reflexivity.
  - intros Hbad. rewrite Hview. unfold Eff.outcome, Eff.bind.
    destruct (request_failed call w Hbad) as (e & He).
    unfold Eff.outcome in He.
    destruct (Axios.request call w) as [[resp | e'] w1]; cbn in *;
      [discriminate | injection He as ->; by exists e].
  - intros m r Hlast Hslot.
    destruct (slot_endpoint_method m) as (c & Hinv & Hc).
    rewrite Hinv, request_requests, last_snoc in Hlast.
    injection Hlast as <-. apply Hc. exact Hslot.
Qed.

Lemma slots_are_the_backend_answer_witness :
  Eff.outcome
    (SlotView.displayedSlots
       (SlotView.Available "ada" "intro-call"
          (JObj [("start_date", JStr "2025-01-06")])))
    (Sample.logged_in (Sample.answering 200 Sample.slots))
  = Returned Sample.slots.
Proof.
  destruct (slots_are_the_backend_answer
              (SlotView.Available "ada" "intro-call"
                 (JObj [("start_date", JStr "2025-01-06")]))
              (Sample.logged_in (Sample.answering 200 Sample.slots)))
    as (_ & _ & _ & Hshown & _).
  apply (Hshown {| Http.status := 200; Http.data := Sample.slots |});
    reflexivity.
Defined.

(** ** Logging out *)

Section LogoutFacts.

Lemma onRejected_routerLog error w :
  routerLog (Eff.exec (Axios.onRejected error) w) = routerLog w.
Proof.
  unfold Eff.exec, Axios.onRejected, Eff.bind, Eff.when, Eff.get, Eff.throw,
    Eff.ret.
  destruct (Axios.has_status 401 error), (Axios.has_status 403 error),
    (Axios.has_status 429 error), (window w); reflexivity.
Qed.

Lemma request_routerLog c w :
  routerLog (Eff.exec (Axios.request c) w) = routerLog w.
Proof.
  unfold Eff.exec. rewrite request_unfold.
  destruct (Axios.answer c w) as [resp |];
    [destruct (Axios.validateStatus (Http.status resp)) |];
    try reflexivity;
    (etransitivity; [apply onRejected_routerLog | reflexivity]).
Qed.

(** The call to the logout endpoint, with its [catch] clause, always
    completes, and leaves the router alone. *)
Lemma logout_attempt w :
  ∃ w1,
    Eff.try_catch
      (let* _ := ApiClient.invoke ApiClient.auth_logout in Eff.ret tt)
      (λ error, Browser.console_error "Logout error:") w
    = (Returned tt, w1) /\
    routerLog w1 = routerLog w.
Proof.
  unfold Eff.try_catch, Eff.bind.
  pose proof (request_routerLog
                {| Axios.call_verb := POST; Axios.call_url := "/users/logout/";
                   Axios.call_body := JUndefined;
                   Axios.call_config := JUndefined |} w) as Hlog.
  unfold Eff.exec in Hlog. simpl ApiClient.invoke. unfold Axios.post.
  destruct (Axios.request _ w) as [[resp | e] w1]; eexists; split;
    try reflexivity; exact Hlog.
Qed.

(** The [finally] clause of [logout]. *)
Lemma logout_cleanup w1 :
  ∃ w2,
    (StorageUtils.removeStorageItem STORAGE_KEYS.AUTH_TOKEN ;;;
     StorageUtils.removeStorageItem STORAGE_KEYS.USER_DATA ;;;
     Browser.setUser JNull ;;;
     Browser.router_push "/login") w1
    = (Returned tt, w2) /\
    Browser.stored "auth_token" w2 = None /\
    Browser.stored "user_data" w2 = None /\
    user w2 = JNull /\
    routerLog w2 = routerLog w1 ++ ["/login"].
Proof.
  eexists. split; [reflexivity |].
  unfold Browser.stored. cbn.
  destruct (window w1) as [win |]; cbn; [| auto].
  rewrite lookup_delete_ne by discriminate.
  rewrite !lookup_delete_eq. auto.
Qed.

End LogoutFacts.

(** C8. [logout] always ends in the logged-out state, whether the logout
    call succeeds, is refused or gets no answer: it completes normally,
    local storage holds neither [auth_token] nor [user_data], the [user]
    state is [null] and the router has been sent to /login. *)
Theorem logout_always_reaches_logged_out_state (w : World) :
  Eff.outcome AuthProvider.logout w = Returned tt /\
  Browser.stored STORAGE_KEYS.AUTH_TOKEN (Eff.exec AuthProvider.logout w) = None /\
  Browser.stored STORAGE_KEYS.USER_DATA (Eff.exec AuthProvider.logout w) = None /\
  user (Eff.exec AuthProvider.logout w) = JNull /\
  routerLog (Eff.exec AuthProvider.logout w) = routerLog w ++ ["/login"].
Proof.
  unfold Eff.outcome, Eff.exec, AuthProvider.logout, Eff.try_catch_finally,
    Eff.try_finally.
  destruct (logout_attempt w) as (w1 & -> & Hlog).
  destruct (logout_cleanup w1) as (w2 & -> & Htok & Hdata & Huser & Hrouter).
  simpl. rewrite <- Hlog. auto.
Qed.

(** ** Unauthorized answers and the loading flag *)

Section RecoveryFacts.

(** Whatever the [try] and [catch] blocks do, a handler that ends in
    [finally { setIsLoading(false) }] leaves the flag cleared. *)
Lemma finally_clears_loading (body : M App unit) handler app :
  isLoading
    (form (Eff.exec
             (Eff.try_catch_finally body handler (Form.setIsLoading false))
             app))
  = false.
Proof.
  unfold Eff.exec, Eff.try_catch_finally, Eff.try_finally.
  destruct (Eff.try_catch body handler app) as [o s]. reflexivity.
Qed.

Lemma onSubmit_clears_loading component utils auth props data app :
  isLoading
    (form (Eff.exec (Form.onSubmit component utils auth props data) app))
  = false.
Proof. destruct component; apply finally_clears_loading. Qed.

Lemma onRejected_unauthorized resp w :
  Http.status resp = 401%Z ->
  Axios.onRejected (AxiosError (Some resp)) w
  = (Threw (AxiosError (Some resp)),
     Browser.set_window
       (option_map
          (λ win, {| localStorage := delete "auth_token" (localStorage win);
                     href := "/login" |})
          (window w)) w).
Proof.
  intros Hs.
  unfold Axios.onRejected, Axios.has_status, Eff.bind, Eff.when, Eff.get,
    Eff.throw, Eff.ret.
  rewrite Hs. cbn. destruct w as [[win |] ? ? ? ? ? ?]; reflexivity.
Qed.

End RecoveryFacts.

(** C3. When the backend answers a call of the shared instance with status
    401, the response interceptor removes the stored [auth_token], points
    the browser at /login and rejects with the error; and every submit
    handler of a form ends with its [isLoading] flag cleared, whatever
    happened in between. *)
Theorem unauthorized_redirects_and_loading_clears
    (c : Axios.Call) (w : World) (resp : Response)
    (component : Form.Component) (utils : Utils) (auth : Auth.Context)
    (props : Props.t) (data : Json) (app : App) :
  (Axios.answer c w = Responded resp -> Http.status resp = 401%Z ->
   Eff.outcome (Axios.request c) w = Threw (AxiosError (Some resp)) /\
   Browser.stored "auth_token" (Eff.exec (Axios.request c) w) = None /\
   Browser.location (Eff.exec (Axios.request c) w)
   = (λ _, "/login") <$> Browser.location w) /\
  isLoading
    (form (Eff.exec (Form.onSubmit component utils auth props data) app))
  = false.
Proof.
  split; [| apply onSubmit_clears_loading].
  intros Ha Hs. unfold Eff.outcome, Eff.exec.
  rewrite request_unfold, Ha, Hs.
  change (Axios.validateStatus 401) with false. cbv iota.
  rewrite (onRejected_unauthorized resp _ Hs).
  unfold Browser.stored, Browser.location. cbn.
  destruct (window w) as [win |]; cbn; [| auto].
  rewrite lookup_delete_eq. auto.
Qed.

Lemma unauthorized_redirects_and_loading_clears_witness :
  Axios.answer Sample.getProfile
    (Sample.logged_in (λ _ _, Responded Sample.unauthorized))
  = Responded Sample.unauthorized /\
  Browser.stored "auth_token" (Sample.logged_in (λ _ _, Responded Sample.unauthorized))
  = Some (Raw (JStr "t0k3n")) /\
  Browser.stored "auth_token"
    (Eff.exec (Axios.request Sample.getProfile)
       (Sample.logged_in (λ _ _, Responded Sample.unauthorized)))
  = None /\
  Browser.location
    (Eff.exec (Axios.request Sample.getProfile)
       (Sample.logged_in (λ _ _, Responded Sample.unauthorized)))
  = Some "/login".
Proof.
  split; [reflexivity |]. split; [reflexivity |].
  destruct (unauthorized_redirects_and_loading_clears
              Sample.getProfile
              (Sample.logged_in (λ _ _, Responded Sample.unauthorized))
              Sample.unauthorized Form.SignupForm Sample.utils Sample.auth
              Sample.props JNull (Sample.app Sample.offline)) as [H401 _].
  destruct (H401 eq_refl eq_refl) as (_ & Htoken & Hlocation).
  split; [exact Htoken | exact Hlocation].
Defined.

(** ** Submit handlers and the backend *)

Section SubmitFacts.

Variable utils : Utils.
Variable missing : AuthProvider.MissingEndpoints.

Lemma prop_defined k j :
  Form.nullish j = false -> JsonOps.prop k j = Some (JsonOps.opt_prop k j).
Proof. destruct j; (discriminate || reflexivity). Qed.




End SubmitFacts.




(** ** Reporting a failed submit *)

Section FailureFacts.

Variable utils : Utils.




End FailureFacts.




(** ** Where the stored user comes from *)

Section UserStateFacts.

Lemma stored_after_set key v w :
  Browser.stored key (Eff.exec (StorageUtils.setStorageItem key v) w)
  = (λ _, v) <$> window w.
Proof.
  unfold Browser.stored. cbn.
  destruct (window w) as [win |]; cbn; [apply lookup_insert_eq | reflexivity].
Qed.

Lemma refreshUser_success w resp :
  Axios.answer
    {| Axios.call_verb := GET; Axios.call_url := "/users/profile/";
       Axios.call_body := JUndefined; Axios.call_config := JUndefined |} w
  = Responded resp ->
  Axios.validateStatus (Http.status resp) = true ->
  Eff.outcome AuthProvider.refreshUser w = Returned tt /\
  requests (Eff.exec AuthProvider.refreshUser w)
  = requests w
    ++ [Axios.authorize
          {| Axios.call_verb := GET; Axios.call_url := "/users/profile/";
             Axios.call_body := JUndefined;
             Axios.call_config := JUndefined |} w] /\
  user (Eff.exec AuthProvider.refreshUser w) = Http.data resp /\
  Browser.stored STORAGE_KEYS.USER_DATA (Eff.exec AuthProvider.refreshUser w)
  = (λ _, Stringified (Http.data resp)) <$> window w.
Proof.
  intros Ha Hv. unfold Eff.outcome, Eff.exec, AuthProvider.refreshUser,
    Eff.try_catch, Eff.bind, ApiClient.invoke, Axios.get.
  rewrite (request_fulfilled _ _ resp Ha Hv).
  unfold Browser.stored. cbn.
  destruct (window w) as [win |]; cbn; [rewrite lookup_insert_eq |]; auto.
Qed.

Lemma updateUser_local u patch w :
  requests (Eff.exec (AuthProvider.updateUser u patch) w) = requests w /\
  (JsonOps.truthy u = true ->
   user (Eff.exec (AuthProvider.updateUser u patch) w)
   = JsonOps.spread u patch /\
   Browser.stored STORAGE_KEYS.USER_DATA
     (Eff.exec (AuthProvider.updateUser u patch) w)
   = (λ _, Stringified (JsonOps.spread u patch)) <$> window w) /\
  (JsonOps.truthy u = false ->
   Eff.exec (AuthProvider.updateUser u patch) w = w).
Proof.
  unfold AuthProvider.updateUser, Eff.when, Eff.exec.
  destruct (JsonOps.truthy u); (split; [reflexivity |]); split;
    try discriminate; intros _; [| reflexivity].
  unfold Browser.stored. cbn.
  destruct (window w) as [win |]; cbn; [rewrite lookup_insert_eq |]; auto.
Qed.

Lemma register_success data w resp :
  Axios.answer
    {| Axios.call_verb := POST; Axios.call_url := "/users/register/";
       Axios.call_body := data; Axios.call_config := JUndefined |} w
  = Responded resp ->
  Axios.validateStatus (Http.status resp) = true ->
  Form.nullish (Http.data resp) = false ->
  user (Eff.exec (AuthProvider.register data) w)
  = JsonOps.opt_prop "user" (Http.data resp) /\
  Browser.stored STORAGE_KEYS.USER_DATA
    (Eff.exec (AuthProvider.register data) w)
  = (λ _, Stringified (JsonOps.opt_prop "user" (Http.data resp)))
      <$> window w.
Proof.
  intros Ha Hv Hdata.
  unfold Eff.exec, AuthProvider.register, Eff.bind, ApiClient.invoke,
    Axios.post.
  rewrite (request_fulfilled _ _ resp Ha Hv).
  unfold AuthProvider.destructure_login, Eff.bind, Eff.of_option.
  rewrite !(prop_defined _ _ Hdata).
  unfold Browser.stored. cbn.
  destruct (window w) as [win |]; cbn; [rewrite lookup_insert_eq |]; auto.
Qed.

Lemma login_success email password rememberMe w resp :
  Axios.answer
    {| Axios.call_verb := POST; Axios.call_url := "/users/login/";
       Axios.call_body :=
         JObj [("email", email); ("password", password);
               ("remember_me",
                match rememberMe with
                | JUndefined => JBool false
                | v => v
                end)];
       Axios.call_config := JUndefined |} w
  = Responded resp ->
  Axios.validateStatus (Http.status resp) = true ->
  Form.nullish (Http.data resp) = false ->
  user (Eff.exec (AuthProvider.login email password rememberMe) w)
  = JsonOps.opt_prop "user" (Http.data resp) /\
  Browser.stored STORAGE_KEYS.USER_DATA
    (Eff.exec (AuthProvider.login email password rememberMe) w)
  = (λ _, Stringified (JsonOps.opt_prop "user" (Http.data resp)))
      <$> window w.
Proof.
  intros Ha Hv Hdata.
  unfold Eff.exec, AuthProvider.login, Eff.try_catch, Eff.bind,
    ApiClient.invoke, Axios.post.
  rewrite (request_fulfilled _ _ resp Ha Hv).
  unfold AuthProvider.destructure_login, Eff.bind, Eff.of_option.
  rewrite !(prop_defined _ _ Hdata).
  unfold Browser.stored. cbn.
  destruct (JsonOps.prop "account_status" _) as [account_status |]; cbn.
  - destruct (JsonOps.is_str "pending_verification" account_status);
      [| destruct (JsonOps.is_str "password_expired_grace_period"
                     account_status)];
      cbn; (destruct (window w) as [win |]; cbn;
            [rewrite lookup_insert_eq |]; auto).
  - destruct (window w) as [win |]; cbn; [rewrite lookup_insert_eq |]; auto.
Qed.

End UserStateFacts.

(** C5, as the code has it. [login], [register] and [refreshUser] put into
    the [user] state and under [user_data] exactly the user object of the
    answer of the backend, [refreshUser] by one GET of the profile
    endpoint. [updateUser] is a local write: without any request it stores
    the current user overlaid with the fields the caller passes (and does
    nothing when nobody is logged in). *)
Theorem user_state_sources
    (w : World) (resp : Response)
    (email password rememberMe data u patch : Json) :
  let profile_call :=
    {| Axios.call_verb := GET; Axios.call_url := "/users/profile/";
       Axios.call_body := JUndefined; Axios.call_config := JUndefined |} in
  let login_call :=
    {| Axios.call_verb := POST; Axios.call_url := "/users/login/";
       Axios.call_body :=
         JObj [("email", email); ("password", password);
               ("remember_me",
                match rememberMe with JUndefined => JBool false | v => v end)];
       Axios.call_config := JUndefined |} in
  let register_call :=
    {| Axios.call_verb := POST; Axios.call_url := "/users/register/";
       Axios.call_body := data; Axios.call_config := JUndefined |} in
  let cached (v : Json) (after : World) :=
    user after = v /\
    Browser.stored STORAGE_KEYS.USER_DATA after
    = (λ _, Stringified v) <$> window w in
  (Axios.answer profile_call w = Responded resp ->
   Axios.validateStatus (Http.status resp) = true ->
   requests (Eff.exec AuthProvider.refreshUser w)
   = requests w ++ [Axios.authorize profile_call w] /\
   cached (Http.data resp) (Eff.exec AuthProvider.refreshUser w)) /\
  (Axios.answer login_call w = Responded resp ->
   Axios.validateStatus (Http.status resp) = true ->
   Form.nullish (Http.data resp) = false ->
   cached (JsonOps.opt_prop "user" (Http.data resp))
     (Eff.exec (AuthProvider.login email password rememberMe) w)) /\
  (Axios.answer register_call w = Responded resp ->
   Axios.validateStatus (Http.status resp) = true ->
   Form.nullish (Http.data resp) = false ->
   cached (JsonOps.opt_prop "user" (Http.data resp))
     (Eff.exec (AuthProvider.register data) w)) /\
  requests (Eff.exec (AuthProvider.updateUser u patch) w) = requests w /\
  (JsonOps.truthy u = true ->
   cached (JsonOps.spread u patch)
     (Eff.exec (AuthProvider.updateUser u patch) w)) /\
  (JsonOps.truthy u = false ->
   Eff.exec (AuthProvider.updateUser u patch) w = w).
Proof.
  intros profile_call login_call register_call cached.
  split; [| split; [| split]].
  - intros Ha Hv.
    destruct (refreshUser_success w resp Ha Hv) as (_ & Hreq & Huser & Hstored).
    split; [exact Hreq | split; assumption].
  - apply login_success.
  - apply register_success.
  - apply updateUser_local.
Qed.

Lemma user_state_sources_witness :
  let fresh : Response :=
    {| Http.status := 200;
       Http.data := JObj [("email", JStr "ada@example.com");
                          ("first_name", JStr "Augusta")] |} in
  let session : Response :=
    {| Http.status := 200;
       Http.data := JObj [("user", Sample.ada); ("token", JStr "n3w")] |} in
  user (Eff.exec AuthProvider.refreshUser
          (Sample.logged_in (λ _ _, Responded fresh)))
  = Http.data fresh /\
  Browser.stored "user_data"
    (Eff.exec (AuthProvider.login (JStr "ada@example.com") (JStr "pw") JUndefined)
       (Sample.logged_in (λ _ _, Responded session)))
  = Some (Stringified Sample.ada) /\
  Browser.stored "user_data"
    (Eff.exec (AuthProvider.register Sample.signup_data)
       (Sample.logged_in (λ _ _, Responded session)))
  = Some (Stringified Sample.ada) /\
  user (Eff.exec (AuthProvider.updateUser Sample.ada
                    (JObj [("first_name", JStr "Mallory")]))
          (Sample.logged_in Sample.offline))
  = JObj [("email", JStr "ada@example.com"); ("first_name", JStr "Mallory");
          ("is_mfa_enabled", JBool false)] /\
  Eff.exec (AuthProvider.updateUser JNull (JObj [("first_name", JStr "Mallory")]))
    (Sample.logged_in Sample.offline)
  = Sample.logged_in Sample.offline.
Proof.
  intros fresh session.
  destruct (user_state_sources
              (Sample.logged_in (λ _ _, Responded fresh)) fresh
              JNull JNull JNull JNull JNull JNull) as (Hrefresh & _).
  destruct (user_state_sources
              (Sample.logged_in (λ _ _, Responded session)) session
              (JStr "ada@example.com") (JStr "pw") JUndefined
              Sample.signup_data JNull JNull)
    as (_ & Hlogin & Hregister & _).
  destruct (user_state_sources
              (Sample.logged_in Sample.offline) fresh
              JNull JNull JNull JNull
              Sample.ada (JObj [("first_name", JStr "Mallory")]))
    as (_ & _ & _ & _ & Hupdate & _).
  destruct (user_state_sources
              (Sample.logged_in Sample.offline) fresh
              JNull JNull JNull JNull
              JNull (JObj [("first_name", JStr "Mallory")]))
    as (_ & _ & _ & _ & _ & Hnobody).
  split; [| split; [| split; [| split]]].
  - destruct (Hrefresh eq_refl eq_refl) as (_ & Huser & _). exact Huser.
  - destruct (Hlogin eq_refl eq_refl eq_refl) as (_ & Hstored). exact Hstored.
  - destruct (Hregister eq_refl eq_refl eq_refl) as (_ & Hstored).
    exact Hstored.
  - destruct (Hupdate eq_refl) as (Huser & _). exact Huser.
  - exact (Hnobody eq_refl).
Defined.

(** C5 fails as stated: [updateUser] writes [user_data] and the [user]
    state from what its caller passes. With a backend that never answers
    and no request sent, a changed user is persisted, directly and through
    a [ProfileForm] submit; and after an accepted MFA verification the
    stored user is the old one with [is_mfa_enabled] set, not the answer of
    the backend. *)
Lemma updateUser_persists_local_data :
  let before := Sample.logged_in Sample.offline in
  let patch := JObj [("first_name", JStr "Mallory")] in
  let changed :=
    JObj [("email", JStr "ada@example.com"); ("first_name", JStr "Mallory");
          ("is_mfa_enabled", JBool false)] in
  let after := Eff.exec (AuthProvider.updateUser (user before) patch) before in
  let submitted :=
    world (Eff.exec
             (Form.onSubmit Form.ProfileForm Sample.utils Sample.auth
                Sample.props (JObj Sample.profile_data))
             (Sample.app Sample.offline)) in
  let verified :=
    Eff.exec
      (AuthProvider.verifyMfa Sample.ada (JObj [("otp_code", JStr "123456")]))
      (Sample.logged_in
         (Sample.answering 200 (JObj [("detail", JStr "verified")]))) in
  Browser.stored "user_data" before = Some (Stringified Sample.ada) /\
  requests after = [] /\
  user after = changed /\
  Browser.stored "user_data" after = Some (Stringified changed) /\
  requests submitted = [] /\
  Browser.stored "user_data" submitted
  = Some (Stringified
            (JObj [("email", JStr "ada@example.com"); ("first_name", JStr "Ada");
                   ("is_mfa_enabled", JBool false);
                   ("profile", JObj Sample.profile_data)])) /\
  Browser.stored "user_data" verified
  = Some (Stringified
            (JObj [("email", JStr "ada@example.com"); ("first_name", JStr "Ada");
                   ("is_mfa_enabled", JBool true)])).
Proof. repeat split; reflexivity. Qed.

(** * Further properties of the session code *)

Section SessionFacts.

(** A rejected call changes the browser only on status 401; it never
    touches the router, the toasts, the [user] state or the request log. *)
Lemma onRejected_run error w :
  ∃ w1,
    Axios.onRejected error w = (Threw error, w1) /\
    routerLog w1 = routerLog w /\
    toasts w1 = toasts w /\
    user w1 = user w /\
    requests w1 = requests w /\
    server w1 = server w /\
    (∀ key, key ≠ "auth_token" ->
            Browser.stored key w1 = Browser.stored key w) /\
    (Axios.has_status 401 error = false -> window w1 = window w).
Proof.
  unfold Axios.onRejected, Eff.bind, Eff.when, Eff.get, Eff.throw, Eff.ret,
    Browser.stored.
  destruct (Axios.has_status 401 error), (Axios.has_status 403 error),
    (Axios.has_status 429 error), (window w) as [win |] eqn:Hwin;
    cbn; rewrite ?Hwin; eexists; (split; [reflexivity |]); cbn;
    rewrite ?Hwin; repeat split; try discriminate;
    try (intros key Hkey; cbn; rewrite ?lookup_delete_ne by congruence;
         reflexivity).
Qed.

(** A call that the backend does not accept: what is left behind. *)
Lemma request_rejected_run c w :
  (∀ resp, Axios.answer c w = Responded resp ->
           Axios.validateStatus (Http.status resp) = false) ->
  ∃ e w1,
    Axios.request c w = (Threw (AxiosError e), w1) /\
    e = match Axios.answer c w with Responded r => Some r | NoResponse => None end /\
    routerLog w1 = routerLog w /\
    toasts w1 = toasts w /\
    user w1 = user w /\
    requests w1 = requests w ++ [Axios.authorize c w] /\
    (∀ key, key ≠ "auth_token" ->
            Browser.stored key w1 = Browser.stored key w).
Proof.
  intros Hbad. rewrite request_unfold.
  destruct (Axios.answer c w) as [resp |] eqn:Ha.
  - rewrite (Hbad resp eq_refl).
    destruct (onRejected_run (AxiosError (Some resp)) (Axios.after_send c w))
      as (w1 & -> & Hr & Ht & Hu & Hq & _ & Hs & _).
    exists (Some resp), w1. repeat split; try assumption.
  - destruct (onRejected_run (AxiosError None) (Axios.after_send c w))
      as (w1 & -> & Hr & Ht & Hu & Hq & _ & Hs & _).
    exists None, w1. repeat split; try assumption.
Qed.

End SessionFacts.

(** X1. A login the backend accepts, whose answer carries a user, returns
    normally, stores the token of the answer and sends the router to
    exactly one place, chosen by the account status of that user:
    /verify-email while verification is pending, /force-password-change in
    the grace period of an expired password, /dashboard otherwise. *)
Theorem login_routes_by_account_status
    (email password rememberMe : Json) (w : World) (resp : Response) :
  let login_call :=
    {| Axios.call_verb := POST; Axios.call_url := "/users/login/";
       Axios.call_body :=
         JObj [("email", email); ("password", password);
               ("remember_me",
                match rememberMe with JUndefined => JBool false | v => v end)];
       Axios.call_config := JUndefined |} in
  let run := AuthProvider.login email password rememberMe in
  let account_status :=
    JsonOps.opt_prop "account_status"
      (JsonOps.opt_prop "user" (Http.data resp)) in
  Axios.answer login_call w = Responded resp ->
  Axios.validateStatus (Http.status resp) = true ->
  Form.nullish (Http.data resp) = false ->
  Form.nullish (JsonOps.opt_prop "user" (Http.data resp)) = false ->
  Eff.outcome run w = Returned tt /\
  routerLog (Eff.exec run w)
  = routerLog w
    ++ [if JsonOps.is_str "pending_verification" account_status
        then "/verify-email"
        else if JsonOps.is_str "password_expired_grace_period" account_status
             then "/force-password-change"
             else "/dashboard"] /\
  Browser.stored STORAGE_KEYS.AUTH_TOKEN (Eff.exec run w)
  = (λ _, Raw (JsonOps.opt_prop "token" (Http.data resp))) <$> window w.
Proof.
  intros login_call run account_status Ha Hv Hdata Huser.
  subst run account_status.
  unfold Eff.outcome, Eff.exec, AuthProvider.login, Eff.try_catch, Eff.bind,
    ApiClient.invoke, Axios.post.
  fold login_call. rewrite (request_fulfilled _ _ resp Ha Hv).
  unfold AuthProvider.destructure_login, Eff.bind, Eff.of_option.
  rewrite !(prop_defined _ _ Hdata). cbn.
  rewrite (prop_defined _ _ Huser). cbn.
  unfold Browser.stored.
  destruct (JsonOps.is_str "pending_verification" _);
    [| destruct (JsonOps.is_str "password_expired_grace_period" _)];
    cbn; (destruct (window w) as [win |]; cbn;
          [rewrite lookup_insert_ne by discriminate;
           rewrite lookup_insert_eq |]; auto).
Qed.

Lemma login_routes_by_account_status_witness :
  routerLog
    (Eff.exec (AuthProvider.login (JStr "grace@example.com") (JStr "pw") JUndefined)
       (Sample.logged_in (λ _ _, Responded Fixture.session)))
  = ["/verify-email"].
Proof.
  destruct (login_routes_by_account_status
              (JStr "grace@example.com") (JStr "pw") JUndefined
              (Sample.logged_in (λ _ _, Responded Fixture.session))
              Fixture.session eq_refl eq_refl eq_refl eq_refl)
    as (_ & Hrouter & _).
  exact Hrouter.
Defined.

(** X2. A login the backend accepts but whose answer names no user is an
    error for the caller: [login] throws a TypeError and sends the router
    nowhere, yet the token of the answer is already stored and the [user]
    state already overwritten with [undefined]. *)
Theorem login_without_user_half_stores_session
    (email password rememberMe : Json) (w : World) (resp : Response) :
  let login_call :=
    {| Axios.call_verb := POST; Axios.call_url := "/users/login/";
       Axios.call_body :=
         JObj [("email", email); ("password", password);
               ("remember_me",
                match rememberMe with JUndefined => JBool false | v => v end)];
       Axios.call_config := JUndefined |} in
  let run := AuthProvider.login email password rememberMe in
  Axios.answer login_call w = Responded resp ->
  Axios.validateStatus (Http.status resp) = true ->
  Form.nullish (Http.data resp) = false ->
  Form.nullish (JsonOps.opt_prop "user" (Http.data resp)) = true ->
  Eff.outcome run w = Threw TypeError /\
  routerLog (Eff.exec run w) = routerLog w /\
  user (Eff.exec run w) = JsonOps.opt_prop "user" (Http.data resp) /\
  Browser.stored STORAGE_KEYS.AUTH_TOKEN (Eff.exec run w)
  = (λ _, Raw (JsonOps.opt_prop "token" (Http.data resp))) <$> window w.
Proof.
  intros login_call run Ha Hv Hdata Huser. subst run.
  unfold Eff.outcome, Eff.exec, AuthProvider.login, Eff.try_catch, Eff.bind,
    ApiClient.invoke, Axios.post.
  fold login_call. rewrite (request_fulfilled _ _ resp Ha Hv).
  unfold AuthProvider.destructure_login, Eff.bind, Eff.of_option.
  rewrite !(prop_defined _ _ Hdata). cbn.
  assert (Hnone : JsonOps.prop "account_status"
                    (JsonOps.opt_prop "user" (Http.data resp)) = None).
  { destruct (JsonOps.opt_prop "user" (Http.data resp));
      (discriminate || reflexivity). }
  rewrite Hnone. cbn. unfold Browser.stored.
  destruct (window w) as [win |]; cbn;
    [rewrite lookup_insert_ne by discriminate; rewrite lookup_insert_eq |];
    auto.
Qed.

Lemma login_without_user_half_stores_session_witness :
  Eff.outcome (AuthProvider.login (JStr "grace@example.com") (JStr "pw") JUndefined)
    (Sample.logged_in (λ _ _, Responded Fixture.token_only))
  = Threw TypeError /\
  Browser.stored "auth_token"
    (Eff.exec (AuthProvider.login (JStr "grace@example.com") (JStr "pw") JUndefined)
       (Sample.logged_in (λ _ _, Responded Fixture.token_only)))
  = Some (Raw (JStr "s3ss10n")).
Proof.
  destruct (login_without_user_half_stores_session
              (JStr "grace@example.com") (JStr "pw") JUndefined
              (Sample.logged_in (λ _ _, Responded Fixture.token_only))
              Fixture.token_only eq_refl eq_refl eq_refl eq_refl)
    as (Hthrow & _ & _ & Htoken).
  split; [exact Hthrow | exact Htoken].
Defined.

(** X3. A login the backend does not accept is thrown on to the caller
    unchanged and leaves no session behind: the [user] state and the stored
    user data are as before. The router moves only when the error code is
    [password_expired], and then to /reset-password. *)
Theorem failed_login_leaves_no_session
    (email password rememberMe : Json) (w : World) :
  let login_call :=
    {| Axios.call_verb := POST; Axios.call_url := "/users/login/";
       Axios.call_body :=
         JObj [("email", email); ("password", password);
               ("remember_me",
                match rememberMe with JUndefined => JBool false | v => v end)];
       Axios.call_config := JUndefined |} in
  let run := AuthProvider.login email password rememberMe in
  let refusal :=
    match Axios.answer login_call w with
    | Responded r => Some r
    | NoResponse => None
    end in
  let code :=
    match refusal with
    | Some r => JsonOps.opt_prop "code" (Http.data r)
    | None => JUndefined
    end in
  (∀ resp, Axios.answer login_call w = Responded resp ->
           Axios.validateStatus (Http.status resp) = false) ->
  Eff.outcome run w = Threw (AxiosError refusal) /\
  user (Eff.exec run w) = user w /\
  Browser.stored STORAGE_KEYS.USER_DATA (Eff.exec run w)
  = Browser.stored STORAGE_KEYS.USER_DATA w /\
  routerLog (Eff.exec run w)
  = routerLog w
    ++ (if JsonOps.is_str "password_expired" code
        then ["/reset-password"] else []).
Proof.
  intros login_call run refusal code Hbad. subst run.
  destruct (request_rejected_run login_call w Hbad)
    as (e & w1 & Hrun & He & Hrouter & _ & Huser & _ & Hstored).
  fold refusal in He. subst e.
  unfold Eff.outcome, Eff.exec, AuthProvider.login, Eff.try_catch, Eff.bind,
    ApiClient.invoke, Axios.post.
  fold login_call. rewrite Hrun. cbn.
  assert (Hcode : ∀ S, @Caught.code S (AxiosError refusal)
                       = Eff.ret code).
  { intros S. subst code. destruct refusal; reflexivity. }
  rewrite Hcode. unfold Eff.ret, Eff.when.
  destruct (JsonOps.is_str "password_expired" code); cbn;
    rewrite ?Hrouter, ?Huser, ?app_nil_r;
    (repeat split; try reflexivity);
    unfold Browser.stored in *; cbn; apply Hstored; discriminate.
Qed.

Lemma failed_login_leaves_no_session_witness :
  Eff.outcome (AuthProvider.login (JStr "ada@example.com") (JStr "old") JUndefined)
    (Sample.logged_in (λ _ _, Responded Fixture.expired))
  = Threw (AxiosError (Some Fixture.expired)) /\
  routerLog
    (Eff.exec (AuthProvider.login (JStr "ada@example.com") (JStr "old") JUndefined)
       (Sample.logged_in (λ _ _, Responded Fixture.expired)))
  = ["/reset-password"].
Proof.
  assert (Hbad : ∀ resp,
             Axios.answer
               {| Axios.call_verb := POST; Axios.call_url := "/users/login/";
                  Axios.call_body :=
                    JObj [("email", JStr "ada@example.com");
                          ("password", JStr "old");
                          ("remember_me", JBool false)];
                  Axios.call_config := JUndefined |}
               (Sample.logged_in (λ _ _, Responded Fixture.expired))
             = Responded resp ->
             Axios.validateStatus (Http.status resp) = false).
  { intros resp H. injection H as <-. reflexivity. }
  destruct (failed_login_leaves_no_session
              (JStr "ada@example.com") (JStr "old") JUndefined
              (Sample.logged_in (λ _ _, Responded Fixture.expired)) Hbad)
    as (Hthrow & _ & _ & Hrouter).
  split; [exact Hthrow | exact Hrouter].
Defined.

Section LogoutRun.

(** [logout] from any world: what it returns and leaves behind. *)
Lemma logout_run w :
  ∃ w2,
    AuthProvider.logout w = (Returned tt, w2) /\
    Browser.stored STORAGE_KEYS.AUTH_TOKEN w2 = None /\
    Browser.stored STORAGE_KEYS.USER_DATA w2 = None /\
    user w2 = JNull /\
    routerLog w2 = routerLog w ++ ["/login"] /\
    requests w2
    = requests w
      ++ [Axios.authorize
            {| Axios.call_verb := POST; Axios.call_url := "/users/logout/";
               Axios.call_body := JUndefined;
               Axios.call_config := JUndefined |} w].
Proof.
  set (c := {| Axios.call_verb := POST; Axios.call_url := "/users/logout/";
               Axios.call_body := JUndefined;
               Axios.call_config := JUndefined |}).
  pose proof (request_requests c w) as Hreq.
  pose proof (request_routerLog c w) as Hrouter.
  unfold Eff.exec in Hreq, Hrouter.
  unfold AuthProvider.logout, Eff.try_catch_finally, Eff.try_finally,
    Eff.try_catch, Eff.bind, ApiClient.invoke, Axios.post.
  fold c. destruct (Axios.request c w) as [[resp | e] w1]; cbn in *;
    eexists; (split; [reflexivity |]); unfold Browser.stored; cbn;
    rewrite Hreq, Hrouter;
    (destruct (window w1) as [win |]; cbn;
     [rewrite lookup_delete_ne by discriminate; rewrite !lookup_delete_eq |];
     auto).
Qed.

End LogoutRun.

(** X4. When the profile endpoint answers a refresh with status 401, the
    refresh ends in the logged-out state: it also calls the logout endpoint
    (two requests in all), removes [auth_token] and [user_data], resets the
    [user] state, sends the router to /login, and still throws the 401
    error to its caller. *)
Theorem refresh_with_expired_session_logs_out (w : World) (resp : Response) :
  let profile_call :=
    {| Axios.call_verb := GET; Axios.call_url := "/users/profile/";
       Axios.call_body := JUndefined; Axios.call_config := JUndefined |} in
  Axios.answer profile_call w = Responded resp ->
  Http.status resp = 401%Z ->
  Eff.outcome AuthProvider.refreshUser w = Threw (AxiosError (Some resp)) /\
  Browser.stored STORAGE_KEYS.AUTH_TOKEN (Eff.exec AuthProvider.refreshUser w)
  = None /\
  Browser.stored STORAGE_KEYS.USER_DATA (Eff.exec AuthProvider.refreshUser w)
  = None /\
  user (Eff.exec AuthProvider.refreshUser w) = JNull /\
  routerLog (Eff.exec AuthProvider.refreshUser w) = routerLog w ++ ["/login"] /\
  length (requests (Eff.exec AuthProvider.refreshUser w))
  = length (requests w) + 2.
Proof.
  intros profile_call Ha Hs.
  unfold Eff.outcome, Eff.exec, AuthProvider.refreshUser, Eff.try_catch,
    Eff.bind, ApiClient.invoke, Axios.get.
  fold profile_call.
  rewrite request_unfold, Ha, Hs.
  change (Axios.validateStatus 401) with false. cbv iota.
  rewrite (onRejected_unauthorized resp _ Hs). cbn.
  unfold Eff.when. rewrite Hs. cbn.
  match goal with
  | |- context [AuthProvider.logout ?w1] =>
      destruct (logout_run w1)
        as (w2 & -> & Htok & Hdata & Huser & Hrouter & Hreq)
  end.
  cbn in *. rewrite Hrouter, Hreq, !length_app. cbn.
  repeat split; try assumption. lia.
Qed.

Lemma refresh_with_expired_session_logs_out_witness :
  Eff.outcome AuthProvider.refreshUser
    (Sample.logged_in (λ _ _, Responded Sample.unauthorized))
  = Threw (AxiosError (Some Sample.unauthorized)) /\
  user (Eff.exec AuthProvider.refreshUser
          (Sample.logged_in (λ _ _, Responded Sample.unauthorized)))
  = JNull /\
  length
    (requests (Eff.exec AuthProvider.refreshUser
                 (Sample.logged_in (λ _ _, Responded Sample.unauthorized))))
  = 2.
Proof.
  destruct (refresh_with_expired_session_logs_out
              (Sample.logged_in (λ _ _, Responded Sample.unauthorized))
              Sample.unauthorized eq_refl eq_refl)
    as (Hthrow & _ & _ & Huser & _ & Hcount).
  split; [exact Hthrow |]. split; [exact Huser | exact Hcount].
Defined.

Section TokenFacts.

Lemma authorize_stored c w :
  authorization (Axios.authorize c w)
  = match Browser.stored "auth_token" w with
    | Some t => if Axios.token_truthy t then Some t else None
    | None => None
    end.
Proof.
  unfold Axios.authorize, Browser.stored. cbn.
  destruct (window w) as [win |]; reflexivity.
Qed.

(** An accepted login stores the token of the answer, whether or not the
    rest of the answer is usable. *)
Lemma login_stores_token email password rememberMe w resp :
  Axios.answer
    {| Axios.call_verb := POST; Axios.call_url := "/users/login/";
       Axios.call_body :=
         JObj [("email", email); ("password", password);
               ("remember_me",
                match rememberMe with JUndefined => JBool false | v => v end)];
       Axios.call_config := JUndefined |} w = Responded resp ->
  Axios.validateStatus (Http.status resp) = true ->
  Form.nullish (Http.data resp) = false ->
  Browser.stored "auth_token"
    (Eff.exec (AuthProvider.login email password rememberMe) w)
  = (λ _, Raw (JsonOps.opt_prop "token" (Http.data resp))) <$> window w.
Proof.
  intros Ha Hv Hdata.
  unfold Eff.exec, AuthProvider.login, Eff.try_catch, Eff.bind,
    ApiClient.invoke, Axios.post.
  rewrite (request_fulfilled _ _ resp Ha Hv).
  unfold AuthProvider.destructure_login, Eff.bind, Eff.of_option.
  rewrite !(prop_defined _ _ Hdata). cbn. unfold Browser.stored.
  destruct (JsonOps.prop "account_status" _) as [account_status |]; cbn;
    [destruct (JsonOps.is_str "pending_verification" account_status);
     [| destruct (JsonOps.is_str "password_expired_grace_period"
                    account_status)] |];
    cbn; (destruct (window w) as [win |]; cbn;
          [rewrite lookup_insert_ne by discriminate;
           rewrite lookup_insert_eq |]; auto).
Qed.

End TokenFacts.

(** X5. In a browser, after a login the backend accepted with a non-empty
    token, every later call of the shared instance carries that token in
    its [Authorization] header. *)
Theorem requests_after_login_carry_the_token
    (email password rememberMe : Json) (w : World) (win : Window)
    (resp : Response) (c : Axios.Call) :
  let login_call :=
    {| Axios.call_verb := POST; Axios.call_url := "/users/login/";
       Axios.call_body :=
         JObj [("email", email); ("password", password);
               ("remember_me",
                match rememberMe with JUndefined => JBool false | v => v end)];
       Axios.call_config := JUndefined |} in
  window w = Some win ->
  Axios.answer login_call w = Responded resp ->
  Axios.validateStatus (Http.status resp) = true ->
  Form.nullish (Http.data resp) = false ->
  Axios.token_truthy (Raw (JsonOps.opt_prop "token" (Http.data resp))) = true ->
  authorization
    (Axios.authorize c
       (Eff.exec (AuthProvider.login email password rememberMe) w))
  = Some (Raw (JsonOps.opt_prop "token" (Http.data resp))).
Proof.
  intros login_call Hwin Ha Hv Hdata Htoken.
  rewrite authorize_stored.
  rewrite (login_stores_token email password rememberMe w resp Ha Hv Hdata).
  rewrite Hwin. cbn [fmap option_fmap option_map]. rewrite Htoken.
  reflexivity.
Qed.

Lemma requests_after_login_carry_the_token_witness :
  authorization
    (Axios.authorize Sample.getProfile
       (Eff.exec
          (AuthProvider.login (JStr "grace@example.com") (JStr "pw") JUndefined)
          (Sample.logged_in (λ _ _, Responded Fixture.session))))
  = Some (Raw (JStr "s3ss10n")).
Proof.
  exact (requests_after_login_carry_the_token
           (JStr "grace@example.com") (JStr "pw") JUndefined
           (Sample.logged_in (λ _ _, Responded Fixture.session)) Sample.tab
           Fixture.session Sample.getProfile
           eq_refl eq_refl eq_refl eq_refl eq_refl).
Defined.

(** X6. After [logout], and after any call the backend answered with
    status 401, later calls carry no [Authorization] header. *)
Theorem requests_after_logout_carry_no_token
    (w : World) (c next : Axios.Call) (resp : Response) :
  authorization (Axios.authorize next (Eff.exec AuthProvider.logout w)) = None /\
  (Axios.answer c w = Responded resp -> Http.status resp = 401%Z ->
   authorization (Axios.authorize next (Eff.exec (Axios.request c) w)) = None).
Proof.
  split.
  - rewrite authorize_stored. unfold Eff.exec.
    destruct (logout_run w) as (w2 & -> & Htok & _). cbn.
    change "auth_token" with STORAGE_KEYS.AUTH_TOKEN. rewrite Htok.
    reflexivity.
  - intros Ha Hs. rewrite authorize_stored. unfold Eff.exec.
    rewrite request_unfold, Ha, Hs.
    change (Axios.validateStatus 401) with false. cbv iota.
    rewrite (onRejected_unauthorized resp _ Hs).
    unfold Browser.stored. cbn.
    destruct (window w) as [win |]; cbn; [rewrite lookup_delete_eq |];
      reflexivity.
Qed.

Lemma requests_after_logout_carry_no_token_witness :
  authorization
    (Axios.authorize Sample.getProfile
       (Sample.logged_in (λ _ _, Responded Sample.unauthorized)))
  = Some (Raw (JStr "t0k3n")) /\
  authorization
    (Axios.authorize Sample.getProfile
       (Eff.exec (Axios.request Sample.getProfile)
          (Sample.logged_in (λ _ _, Responded Sample.unauthorized))))
  = None.
Proof.
  split; [reflexivity |].
  destruct (requests_after_logout_carry_no_token
              (Sample.logged_in (λ _ _, Responded Sample.unauthorized))
              Sample.getProfile Sample.getProfile Sample.unauthorized)
    as (_ & H401).
  exact (H401 eq_refl eq_refl).
Defined.

(** X7. A call the backend refuses with any status other than 401, or that
    gets no answer, leaves the browser as it was: storage, location, the
    router, the toasts and the [user] state are untouched. Statuses 403
    and 429 are only logged to the console. *)
Theorem refusals_other_than_401_leave_the_browser_alone
    (c : Axios.Call) (w : World) :
  (∀ resp, Axios.answer c w = Responded resp ->
           Axios.validateStatus (Http.status resp) = false /\
           Http.status resp ≠ 401%Z) ->
  let after := Eff.exec (Axios.request c) w in
  window after = window w /\
  routerLog after = routerLog w /\
  toasts after = toasts w /\
  user after = user w /\
  console after
  = console w
    ++ match Axios.answer c w with
       | Responded resp =>
           if (Http.status resp =? 403)%Z then ["Permission denied:"]
           else if (Http.status resp =? 429)%Z then ["Rate limit exceeded:"]
           else []
       | NoResponse => []
       end.
Proof.
  intros Hbad after. subst after. unfold Eff.exec.
  rewrite request_unfold.
  destruct (Axios.answer c w) as [resp |] eqn:Ha.
  - destruct (Hbad resp eq_refl) as [Hv Hne]. rewrite Hv.
    unfold Axios.onRejected, Axios.has_status, Eff.bind, Eff.when, Eff.get,
      Eff.throw, Eff.ret.
    destruct (Z.eqb_spec (Http.status resp) 401) as [H401 | _];
      [contradiction |].
    destruct (Z.eqb_spec (Http.status resp) 403) as [H403 | _].
    + rewrite H403. cbn. auto.
    + destruct (Http.status resp =? 429)%Z; cbn;
        rewrite ?app_nil_r; auto.
  - cbn. rewrite app_nil_r. auto.
Qed.

Lemma refusals_other_than_401_leave_the_browser_alone_witness :
  window
    (Eff.exec (Axios.request Sample.getProfile)
       (Sample.logged_in (λ _ _, Responded Fixture.forbidden)))
  = Some Sample.tab /\
  console
    (Eff.exec (Axios.request Sample.getProfile)
       (Sample.logged_in (λ _ _, Responded Fixture.forbidden)))
  = ["Permission denied:"].
Proof.
  assert (Hbad : ∀ resp,
             Axios.answer Sample.getProfile
               (Sample.logged_in (λ _ _, Responded Fixture.forbidden))
             = Responded resp ->
             Axios.validateStatus (Http.status resp) = false /\
             Http.status resp ≠ 401%Z).
  { intros resp H. injection H as <-. split; [reflexivity | discriminate]. }
  destruct (refusals_other_than_401_leave_the_browser_alone
              Sample.getProfile
              (Sample.logged_in (λ _ _, Responded Fixture.forbidden)) Hbad)
    as (Hwindow & _ & _ & _ & Hconsole).
  split; [exact Hwindow | exact Hconsole].
Defined.

Section SpreadFacts.

Import JsonOps.

Lemma lookup_set_field_eq k v fields :
  lookup_field k (set_field k v fields) = v.
Proof.
  induction fields as [| [k' v'] rest IH]; cbn.
  - rewrite String.eqb_refl. reflexivity.
  - destruct (String.eqb k k') eqn:Heq; cbn.
    + rewrite String.eqb_refl. reflexivity.
    + rewrite Heq. exact IH.
Qed.

Lemma lookup_set_field_ne k k' v fields :
  k ≠ k' -> lookup_field k (set_field k' v fields) = lookup_field k fields.
Proof.
  intros Hne. induction fields as [| [k0 v0] rest IH]; cbn.
  - apply String.eqb_neq in Hne. rewrite Hne. reflexivity.
  - destruct (String.eqb k' k0) eqn:Heq; cbn.
    + apply String.eqb_eq in Heq. subst k0.
      apply String.eqb_neq in Hne. rewrite Hne. reflexivity.
    + destruct (String.eqb k k0); [reflexivity | exact IH].
Qed.

(** A spread keeps what the overlay does not name. *)
Lemma lookup_spread_kept k (overlay : list (string * Json)) :
  ∀ acc, k ∉ overlay.*1 ->
  lookup_field k
    (foldl (λ acc kv, set_field kv.1 kv.2 acc) acc overlay)
  = lookup_field k acc.
Proof.
  induction overlay as [| [k' v'] rest IH]; intros acc Hnotin;
    [reflexivity |].
  cbn in Hnotin. apply not_elem_of_cons in Hnotin as [Hne Hrest].
  cbn. rewrite (IH _ Hrest). apply lookup_set_field_ne, Hne.
Qed.

(** A spread takes what the overlay names. *)
Lemma lookup_spread_taken k v (overlay : list (string * Json)) :
  ∀ acc, NoDup overlay.*1 -> (k, v) ∈ overlay ->
  lookup_field k
    (foldl (λ acc kv, set_field kv.1 kv.2 acc) acc overlay)
  = v.
Proof.
  induction overlay as [| [k' v'] rest IH]; intros acc Hnd Hin.
  - apply elem_of_nil in Hin. contradiction.
  - cbn in Hnd. apply NoDup_cons in Hnd as [Hfresh Hnd].
    apply elem_of_cons in Hin as [Hhead | Hrest].
    + injection Hhead as -> ->. cbn.
      rewrite (lookup_spread_kept _ _ _ Hfresh).
      apply lookup_set_field_eq.
    + cbn. apply (IH _ Hnd Hrest).
Qed.

(** The name of a property with an array index is the numeral of the
    index. *)
Lemma array_index_key k i :
  array_index k = Some i -> k = NilZero.string_of_uint (N.to_uint i).
Proof.
  unfold array_index.
  destruct (NilZero.uint_of_string k) as [digits |]; [| discriminate].
  destruct (String.eqb _ k && _) eqn:Hcheck; [| discriminate].
  intros [= <-]. apply andb_true_iff in Hcheck as [Hcanon _].
  apply String.eqb_eq in Hcanon. by symmetry.
Qed.

Lemma lookup_app_absent k (l1 l2 : list (string * Json)) :
  k ∉ l2.*1 -> lookup_field k (l1 ++ l2) = lookup_field k l1.
Proof.
  intros Habsent. induction l1 as [| [k' v'] l1 IH]; cbn.
  - induction l2 as [| [k' v'] l2 IH2]; [reflexivity |].
    cbn in Habsent |- *. apply not_elem_of_cons in Habsent as [Hne Hrest].
    apply String.eqb_neq in Hne. rewrite Hne. by apply IH2.
  - destruct (String.eqb k k'); [reflexivity | exact IH].
Qed.

Lemma lookup_app_skip k (l1 l2 : list (string * Json)) :
  k ∉ l1.*1 -> lookup_field k (l1 ++ l2) = lookup_field k l2.
Proof.
  intros Habsent. induction l1 as [| [k' v'] l1 IH]; [reflexivity |].
  cbn in Habsent |- *. apply not_elem_of_cons in Habsent as [Hne Hrest].
  apply String.eqb_neq in Hne. rewrite Hne. by apply IH.
Qed.

(** Each entry of the sorted part carries the index of its name. *)
Lemma insert_indexed_tagged i kv sorted :
  array_index kv.1 = Some i ->
  Forall (λ p, array_index p.2.1 = Some p.1) sorted ->
  Forall (λ p, array_index p.2.1 = Some p.1) (insert_indexed i kv sorted).
Proof.
  intros Hi. induction 1 as [| [j kv'] sorted Hj Hsorted IH]; cbn.
  - by repeat constructor.
  - destruct (i <=? j)%N; by repeat constructor.
Qed.

Lemma indexed_tagged fields :
  Forall (λ p, array_index p.2.1 = Some p.1) (indexed fields).
Proof.
  induction fields as [| kv fields IH]; cbn; [constructor |].
  destruct (array_index kv.1) as [i |] eqn:Hi; [| exact IH].
  by apply insert_indexed_tagged.
Qed.

Lemma lookup_insert_indexed k i kv sorted :
  array_index kv.1 = Some i ->
  Forall (λ p, array_index p.2.1 = Some p.1) sorted ->
  lookup_field k (map snd (insert_indexed i kv sorted))
  = (if String.eqb k kv.1 then kv.2
     else lookup_field k (map snd sorted)).
Proof.
  intros Hi Hsorted. destruct kv as [k0 v0]. cbn in Hi |- *.
  induction Hsorted as [| [j [k' v']] sorted Hj Hsorted IH]; cbn;
    [reflexivity |].
  destruct (i <=? j)%N eqn:Hle; cbn; [reflexivity |].
  rewrite IH. cbn in Hj.
  destruct (String.eqb k k') eqn:Hk'; [| reflexivity].
  destruct (String.eqb k k0) eqn:Hk0; [| reflexivity].
  apply String.eqb_eq in Hk', Hk0. subst k' k0.
  rewrite Hi in Hj. injection Hj as ->.
  apply N.leb_gt in Hle. lia.
Qed.

Lemma indexed_cons kv fields :
  indexed (kv :: fields)
  = match array_index kv.1 with
    | Some i => insert_indexed i kv (indexed fields)
    | None => indexed fields
    end.
Proof. reflexivity. Qed.

(** Listing the properties in their order changes no property. *)
Lemma lookup_property_order k fields :
  lookup_field k (property_order fields) = lookup_field k fields.
Proof.
  unfold property_order.
  destruct (array_index k) as [i |] eqn:Hk.
  - rewrite lookup_app_absent.
    + induction fields as [| [k' v'] fields IH]; [reflexivity |].
      rewrite indexed_cons. cbn [fst lookup_field].
      destruct (array_index k') as [j |] eqn:Hk'.
      * rewrite (lookup_insert_indexed k j (k', v') _ Hk'
                   (indexed_tagged fields)).
        cbn [fst snd]. rewrite IH. reflexivity.
      * rewrite IH. destruct (String.eqb k k') eqn:Heq; [| reflexivity].
        apply String.eqb_eq in Heq. congruence.
    + intros Hin. apply list_elem_of_fmap in Hin as ([k' v'] & Hkey & Hin).
      cbn in Hkey. subst k'.
      unfold named in Hin. apply list_elem_of_In, filter_In in Hin as [_ Hin].
      cbn in Hin. rewrite Hk in Hin. discriminate.
  - rewrite lookup_app_skip.
    + unfold named. induction fields as [| [k' v'] fields IH];
        [reflexivity |].
      cbn. destruct (array_index k') as [j |] eqn:Hk'; cbn.
      * rewrite IH. destruct (String.eqb k k') eqn:Heq; [| reflexivity].
        apply String.eqb_eq in Heq. congruence.
      * rewrite IH. reflexivity.
    + intros Hin. apply list_elem_of_fmap in Hin as ([k' v'] & Hkey & Hin).
      cbn in Hkey. subst k'.
      apply list_elem_of_fmap in Hin as ([j kv] & Hkv & Hin).
      cbn in Hkv. subst kv.
      pose proof (indexed_tagged fields) as Htag.
      rewrite Forall_forall in Htag. specialize (Htag _ Hin).
      cbn in Htag. congruence.
Qed.

End SpreadFacts.

(** X8. [updateUser] overlays the fields it is given on the current user:
    afterwards a field named in the argument has the value passed, every
    property of the user that a spread copies and the argument does not
    name is kept with its value (of a user that is an array or a text
    these are the indices, not the length), and the same object is what
    lands under [user_data]. For a user that is an object, reading any
    name the argument leaves out gives what it gave before. *)
Theorem updateUser_overlays_fields
    (u : Json) (overlay : list (string * Json)) (w : World)
    (k : string) (v : Json) :
  JsonOps.truthy u = true ->
  NoDup overlay.*1 ->
  let after := Eff.exec (AuthProvider.updateUser u (JObj overlay)) w in
  ((k, v) ∈ overlay -> JsonOps.opt_prop k (user after) = v) /\
  (k ∉ overlay.*1 ->
   JsonOps.lookup_field k (JsonOps.own_fields (user after))
   = JsonOps.lookup_field k (JsonOps.own_fields u)) /\
  (forall fields, u = JObj fields -> k ∉ overlay.*1 ->
     JsonOps.opt_prop k (user after) = JsonOps.opt_prop k u) /\
  Browser.stored STORAGE_KEYS.USER_DATA after
  = (λ _, Stringified (user after)) <$> window w.
Proof.
  intros Htruthy Hnd after. subst after.
  unfold Eff.exec, AuthProvider.updateUser, Eff.when. rewrite Htruthy.
  cbn -[JsonOps.property_order]. unfold JsonOps.spread.
  cbn -[JsonOps.property_order]. rewrite lookup_property_order.
  split; [| split; [| split]].
  - intros Hin. apply lookup_spread_taken; assumption.
  - intros Hnotin. apply (lookup_spread_kept _ _ _ Hnotin).
  - intros fields -> Hnotin. apply (lookup_spread_kept _ _ _ Hnotin).
  - unfold Browser.stored. cbn -[JsonOps.property_order].
    destruct (window w) as [win |]; cbn -[JsonOps.property_order];
      [rewrite lookup_insert_eq |]; reflexivity.
Qed.

Lemma updateUser_overlays_fields_witness :
  JsonOps.opt_prop "first_name"
    (user (Eff.exec
             (AuthProvider.updateUser Sample.ada
                (JObj [("first_name", JStr "Augusta")]))
             (Sample.logged_in Sample.offline)))
  = JStr "Augusta" /\
  JsonOps.opt_prop "email"
    (user (Eff.exec
             (AuthProvider.updateUser Sample.ada
                (JObj [("first_name", JStr "Augusta")]))
             (Sample.logged_in Sample.offline)))
  = JStr "ada@example.com".
Proof.
  assert (Hnd : NoDup [("first_name", JStr "Augusta")].*1).
  { cbn. apply NoDup_singleton. }
  split.
  - destruct (updateUser_overlays_fields
                Sample.ada [("first_name", JStr "Augusta")]
                (Sample.logged_in Sample.offline)
                "first_name" (JStr "Augusta") eq_refl Hnd) as (Htaken & _).
    apply Htaken. apply list_elem_of_singleton. reflexivity.
  - destruct (updateUser_overlays_fields
                Sample.ada [("first_name", JStr "Augusta")]
                (Sample.logged_in Sample.offline)
                "email" JNull eq_refl Hnd) as (_ & _ & Hkept & _).
    rewrite (Hkept _ eq_refl); [reflexivity |].
    cbn. intros Hin. apply list_elem_of_singleton in Hin. discriminate.
Defined.

(** X9. When the login fails with the code [mfa_required], [LoginForm]
    treats it as a step, not as an error: the handler returns normally,
    shows no toast and no error message, clears the loading flag, and
    opens the second-factor step with the e-mail address of the form and
    the devices of the answer (an empty list when the answer names
    none). *)
Theorem login_form_opens_second_factor_step
    (utils : Utils) (auth : Auth.Context) (props : Props.t)
    (fields : list (string * Json)) (app : App) (e : Thrown) (r : Json) :
  let attempt := Auth.login auth (JObj fields) JUndefined JUndefined in
  let run := Form.onSubmit Form.LoginForm utils auth props (JObj fields) in
  let devices := JsonOps.opt_prop "mfa_devices" (JsonOps.opt_prop "data" r) in
  Eff.outcome attempt (world app) = Threw e ->
  Caught.response e = Some r ->
  JsonOps.is_str "mfa_required"
    (JsonOps.opt_prop "code" (JsonOps.opt_prop "data" r)) = true ->
  Eff.outcome run app = Returned tt /\
  error (form (Eff.exec run app)) = None /\
  isLoading (form (Eff.exec run app)) = false /\
  toasts (world (Eff.exec run app)) = toasts (Eff.exec attempt (world app)) /\
  cells (form (Eff.exec run app)) !! "showMfaStep" = Some (JBool true) /\
  cells (form (Eff.exec run app)) !! "mfaUserData"
  = Some (JObj [("email", JsonOps.lookup_field "email" fields);
                ("mfa_devices",
                 if JsonOps.truthy devices then devices else JArr [])]).
Proof.
  intros attempt run devices Hthrow Hresp Hcode. subst run attempt devices.
  unfold Eff.outcome, Eff.exec in *.
  unfold Form.onSubmit, Form.LoginForm_onSubmit, Eff.try_catch_finally,
    Eff.try_finally, Eff.try_catch, Eff.bind, Form.liftW.
  cbn.
  destruct (Auth.login auth (JObj fields) JUndefined JUndefined (world app))
    as [o w1]. cbn in Hthrow. subst o. cbn.
  unfold Caught.code, Eff.bind, Eff.of_option. rewrite Hresp. cbn.
  rewrite Hcode. cbn.
  rewrite lookup_insert_eq.
  rewrite lookup_insert_ne by discriminate. rewrite lookup_insert_eq.
  repeat split; reflexivity.
Qed.

Lemma login_form_opens_second_factor_step_witness :
  cells
    (form (Eff.exec
             (Form.onSubmit Form.LoginForm Sample.utils Sample.auth
                Sample.props (JObj [("email", JStr "ada@example.com")]))
             (Sample.app (λ _ _, Responded Fixture.mfa_required))))
  !! "mfaUserData"
  = Some (JObj [("email", JStr "ada@example.com");
                ("mfa_devices", JArr [JObj [("device_type", JStr "totp")]])]) /\
  toasts
    (world (Eff.exec
              (Form.onSubmit Form.LoginForm Sample.utils Sample.auth
                 Sample.props (JObj [("email", JStr "ada@example.com")]))
              (Sample.app (λ _ _, Responded Fixture.mfa_required))))
  = [].
Proof.
  destruct (login_form_opens_second_factor_step
              Sample.utils Sample.auth Sample.props
              [("email", JStr "ada@example.com")]
              (Sample.app (λ _ _, Responded Fixture.mfa_required))
              (AxiosError (Some Fixture.mfa_required))
              (JObj [("status", JNum 400);
                     ("data", Http.data Fixture.mfa_required)])
              eq_refl eq_refl eq_refl)
    as (_ & _ & _ & Htoasts & _ & Hdata).
  split; [exact Hdata | exact Htoasts].
Defined.

(** X10. With the provider among the sources, [InvitationResponseForm]
    never reaches the backend: [respondToInvitation] is not a member of
    the context, so a submit (accepting or declining) raises a TypeError
    inside the [try] block, and the handler reports it as a failure. It
    returns normally, sends nothing, stores the message and the field
    errors of that TypeError, shows the destructive toast "Response
    failed", clears the loading flag, and sets none of [needsRegistration],
    [isSuccess] and [isDeclined]; the [onSuccess] callback is not run. *)
Theorem invitation_response_never_reaches_the_backend
    (utils : Utils) (missing : AuthProvider.MissingEndpoints)
    (props : Props.t) (fields : list (string * Json)) (app : App) :
  let auth := AuthProvider.value missing (user (world app)) in
  let run :=
    Form.onSubmit Form.InvitationResponseForm utils auth props (JObj fields) in
  let after := Eff.exec run app in
  Eff.outcome run app = Returned tt
  /\ world after
     = Eff.exec
         (Browser.toast
            {| title := "Response failed";
               description := getErrorMessage utils TypeError;
               variant := destructive |})
         (world app)
  /\ requests (world after) = requests (world app)
  /\ error (form after) = Some (getErrorMessage utils TypeError)
  /\ fieldErrors (form after) = getFieldErrors utils TypeError
  /\ isLoading (form after) = false
  /\ cells (form after) = cells (form app).
Proof.
  cbv zeta. unfold Eff.outcome, Eff.exec.
  unfold Form.onSubmit, Form.InvitationResponseForm_onSubmit,
    Eff.try_catch_finally, Eff.try_finally, Eff.try_catch, Eff.bind,
    Form.liftW, Form.prop, Eff.of_option.
  cbn.
  destruct (JsonOps.is_str "decline" (JsonOps.lookup_field "action" fields));
    cbn; repeat split.
Qed.

(** X11. With the provider among the sources the three password forms
    never reach the backend either: [requestPasswordReset],
    [confirmPasswordReset] and [changePassword] are not members of the
    context, so every submit of [ForgotPasswordForm], [ResetPasswordForm]
    and [ChangePasswordForm] raises a TypeError inside the [try] block. The
    handler returns normally, sends nothing, stores the message of that
    TypeError, shows its destructive failure toast and clears the loading
    flag; [isSubmitted] and [isSuccess] are never set. *)
Theorem password_forms_never_reach_the_backend
    (utils : Utils) (missing : AuthProvider.MissingEndpoints)
    (props : Props.t) (data : Json) (app : App) :
  let auth := AuthProvider.value missing (user (world app)) in
  let fails (c : Form.Component) (title : string) :=
    let run := Form.onSubmit c utils auth props data in
    let after := Eff.exec run app in
    Eff.outcome run app = Returned tt
    /\ world after
       = Eff.exec
           (Browser.toast
              {| title := title;
                 description := getErrorMessage utils TypeError;
                 variant := destructive |})
           (world app)
    /\ requests (world after) = requests (world app)
    /\ error (form after) = Some (getErrorMessage utils TypeError)
    /\ isLoading (form after) = false
    /\ cells (form after) = cells (form app) in
  fails Form.ForgotPasswordForm "Request failed"
  /\ fails Form.ResetPasswordForm "Reset failed"
  /\ fails Form.ChangePasswordForm "Password change failed".
Proof.
  cbv zeta. unfold Eff.outcome, Eff.exec.
  unfold Form.onSubmit, Form.ForgotPasswordForm_onSubmit,
    Form.ResetPasswordForm_onSubmit, Form.ChangePasswordForm_onSubmit,
    Eff.try_catch_finally, Eff.try_finally, Eff.try_catch, Eff.bind,
    Form.liftW, Form.prop, Eff.of_option.
  cbn.
  destruct (JsonOps.prop "email" data); cbn; repeat split.
Qed.

(** X12. The strength meter counts exactly the schema checks a password
    passes: the strength and the number of password issues the schema
    reports always add up to 5. In particular the meter shows 5 exactly
    for the passwords the schema accepts. *)
Theorem strength_counts_passed_checks (p : Js.str) :
  Signup.getPasswordStrength p + length (Signup.passwordIssues p) = 5 /\
  (Signup.getPasswordStrength p = 5 <-> Signup.passwordIssues p = []).
Proof.
  assert (Hsum : Signup.getPasswordStrength p
                 + length (Signup.passwordIssues p) = 5).
  { unfold Signup.getPasswordStrength, Signup.passwordIssues, Signup.check,
      Signup.incr.
    destruct (8 <=? length p), (Js.test Js.upper p), (Js.test Js.lower p),
      (Js.test Js.digit p), (Js.test Js.special p); reflexivity. }
  split; [exact Hsum |]. split.
  - intros Hfive. rewrite Hfive in Hsum.
    destruct (Signup.passwordIssues p); [reflexivity | cbn in Hsum; lia].
  - intros Hnil. rewrite Hnil in Hsum. cbn in Hsum. lia.
Qed.

Section StrengthFacts.

Lemma test_app class (p q : Js.str) :
  Js.test class (p ++ q) = Js.test class p || Js.test class q.
Proof. apply existsb_app. Qed.

Lemma incr_mono (b b' : bool) n n' :
  (b = true -> b' = true) -> n <= n' -> Signup.incr b n <= Signup.incr b' n'.
Proof.
  intros Himp Hle. destruct b, b'; cbn; try lia;
    discriminate (Himp eq_refl).
Qed.

End StrengthFacts.

(** X13. Typing more never lowers the meter: the strength of a password
    is at most the strength of any text that has it as a beginning or as an
    end. *)
Theorem strength_grows_with_the_text (p q : Js.str) :
  Signup.getPasswordStrength p <= Signup.getPasswordStrength (p ++ q) /\
  Signup.getPasswordStrength q <= Signup.getPasswordStrength (p ++ q).
Proof.
  unfold Signup.getPasswordStrength. rewrite !test_app, length_app.
  split; repeat apply incr_mono; try lia;
    try (intros H; rewrite H; cbn; rewrite ?orb_true_r; reflexivity);
    intros H; apply Nat.leb_le in H; apply Nat.leb_le; lia.
Qed.

(** * Permissions *)

Section SomeFacts.

Lemma some_true_elem f xs :
  Arr.some f xs = Some true -> exists x, x ∈ xs /\ f x = Some true.
Proof.
  induction xs as [|x xs IH]; cbn; [discriminate|].
  destruct (f x) as [[|]|] eqn:Hx; [|intros H|discriminate].
  - intros _. exists x. split; [left | exact Hx].
  - destruct (IH H) as (y & Hy & Hf). exists y. split; [by right | exact Hf].
Qed.

Lemma some_true_app f xs ys :
  Arr.some f xs = Some true -> Arr.some f (xs ++ ys) = Some true.
Proof.
  induction xs as [|x xs IH]; cbn; [discriminate|].
  destruct (f x) as [[|]|]; [reflexivity | exact IH | discriminate].
Qed.

Lemma some_of_true v f :
  Arr.some_of v f = Some true ->
  exists items, v = JArr items /\ Arr.some f items = Some true.
Proof. destruct v; cbn; try discriminate. intros H. eauto. Qed.

Lemma bind_Some_inv {A B} (m : option A) (k : A -> option B) b :
  m ≫= k = Some b -> exists a, m = Some a /\ k a = Some b.
Proof. destruct m; cbn; [eauto | discriminate]. Qed.

End SomeFacts.

(** X14. A permission that [hasPermission] grants always comes from a
    role of the user: the user carries an array of roles, one of them
    carries an array of permissions, and one of these has the asked
    codename. *)
Theorem granted_permission_comes_from_a_role (user : Json) (permission : string) :
  Permissions.hasPermission user permission = Some true ->
  exists roles role perms perm,
    JsonOps.truthy user = true
    /\ JsonOps.opt_prop "roles" user = JArr roles
    /\ role ∈ roles
    /\ JsonOps.opt_prop "role_permissions" role = JArr perms
    /\ perm ∈ perms
    /\ JsonOps.opt_prop "codename" perm = JStr permission.
Proof.
  unfold Permissions.hasPermission.
  destruct (JsonOps.truthy user) eqn:Htruthy; cbn [negb]; [|discriminate].
  intros H.
  apply bind_Some_inv in H as (rs & Hrs & H).
  apply some_of_true in H as (roles & -> & H).
  apply some_true_elem in H as (role & Hrole & H).
  apply bind_Some_inv in H as (ps & Hps & H).
  apply some_of_true in H as (perms & -> & H).
  apply some_true_elem in H as (perm & Hperm & H).
  apply bind_Some_inv in H as (c & Hc & H).
  exists roles, role, perms, perm.
  assert (Hprop : forall k o v, JsonOps.prop k o = Some v -> JsonOps.opt_prop k o = v).
  { intros k o v. unfold JsonOps.prop. destruct o; congruence. }
  repeat split; auto.
  rewrite (Hprop _ _ _ Hc).
  destruct c; cbn in H; try discriminate.
  injection H as H. apply String.eqb_eq in H. by subst.
Qed.

Lemma granted_permission_comes_from_a_role_witness :
  exists roles role perms perm,
    JsonOps.truthy Fixture.editor = true
    /\ JsonOps.opt_prop "roles" Fixture.editor = JArr roles
    /\ role ∈ roles
    /\ JsonOps.opt_prop "role_permissions" role = JArr perms
    /\ perm ∈ perms
    /\ JsonOps.opt_prop "codename" perm = JStr "can_edit".
Proof.
  apply (granted_permission_comes_from_a_role Fixture.editor "can_edit").
  reflexivity.
Defined.

(** X15. Roles appended to a user never take a granted permission or a
    held role away, whatever the appended entries are: the scan of the
    roles stops at the first role that grants. *)
Theorem appended_roles_keep_grants
    (fields fields' : list (string * Json)) (roles more : list Json)
    (name : string) :
  JsonOps.lookup_field "roles" fields = JArr roles ->
  JsonOps.lookup_field "roles" fields' = JArr (roles ++ more) ->
  (Permissions.hasPermission (JObj fields) name = Some true ->
   Permissions.hasPermission (JObj fields') name = Some true)
  /\ (Permissions.hasRole (JObj fields) name = Some true ->
      Permissions.hasRole (JObj fields') name = Some true).
Proof.
  intros Hroles Hroles'.
  unfold Permissions.hasPermission, Permissions.hasRole. cbn.
  rewrite Hroles, Hroles'. cbn.
  split; apply some_true_app.
Qed.

Lemma appended_roles_keep_grants_witness :
  Permissions.hasPermission Fixture.editor_with_broken_role "can_edit"
  = Some true.
Proof.
  refine (proj1 (appended_roles_keep_grants
                   [("email", JStr "grace@example.com");
                    ("roles", JArr [Fixture.editor_role])]
                   [("email", JStr "grace@example.com");
                    ("roles", JArr [Fixture.editor_role; JNull])]
                   [Fixture.editor_role] [JNull] "can_edit" _ _) _);
    reflexivity.
Defined.

(** X16. When [isAdmin] returns, its result is truthy exactly when the
    user holds the role named admin or has a truthy [is_staff]; without
    a user every check of the hook answers no and the list of roles is
    empty. *)
Theorem isAdmin_is_role_or_staff (user : Json) :
  (forall r, Permissions.isAdmin user = Some r ->
     exists admin,
       Permissions.hasRole user "admin" = Some admin
       /\ JsonOps.truthy r
          = admin || JsonOps.truthy (JsonOps.opt_prop "is_staff" user))
  /\ (JsonOps.truthy user = false ->
      forall name,
        Permissions.hasPermission user name = Some false
        /\ Permissions.hasRole user name = Some false
        /\ Permissions.isAdmin user = Some (JBool false)
        /\ Permissions.isOrganizer user = JBool false
        /\ Permissions.userRoles user = JArr []).
Proof.
  split.
  - intros r. unfold Permissions.isAdmin.
    intros H. apply bind_Some_inv in H as (admin & Hadmin & H).
    exists admin. split; [exact Hadmin|].
    injection H as <-. unfold Permissions.or_else.
    destruct admin; cbn; [reflexivity|].
    by destruct (JsonOps.truthy (JsonOps.opt_prop "is_staff" user)) eqn:E.
  - intros Hfalsy name.
    unfold Permissions.hasPermission, Permissions.hasRole, Permissions.isAdmin,
      Permissions.hasRole, Permissions.isOrganizer, Permissions.userRoles.
    rewrite Hfalsy. cbn.
    by destruct user.
Qed.

Lemma isAdmin_is_role_or_staff_witness :
  Permissions.isAdmin JNull = Some (JBool false)
  /\ Permissions.userRoles JNull = JArr [].
Proof.
  destruct (proj2 (isAdmin_is_role_or_staff JNull) eq_refl "admin")
    as (_ & _ & Hadmin & _ & Hroles).
  split; [exact Hadmin | exact Hroles].
Defined.

(** * Lists shown by the tables *)

Section UniqueFacts.

Lemma unique_from_spec (xs seen : list string) :
  NoDup seen ->
  NoDup (foldl Arr.add seen xs)
  /\ (forall x, x ∈ foldl Arr.add seen xs <-> x ∈ seen \/ x ∈ xs)
  /\ exists kept, foldl Arr.add seen xs = seen ++ kept /\ kept `sublist_of` xs.
Proof.
  revert seen. induction xs as [|x xs IH]; intros seen Hseen; cbn [foldl].
  - split; [exact Hseen|]. split.
    + intros y. rewrite elem_of_nil. tauto.
    + exists []. by rewrite app_nil_r.
  - remember (Arr.add seen x) as seen' eqn:Es. unfold Arr.add in Es.
    case_bool_decide as Hx; subst seen'.
    + destruct (IH seen Hseen) as (Hnd & Hel & kept & Heq & Hsub).
      split; [exact Hnd|]. split.
      * intros y. rewrite Hel, elem_of_cons.
        split; [tauto|]. intros [H|[->|H]]; auto.
      * exists kept. split; [exact Heq | by apply sublist_cons].
    + assert (Hseen' : NoDup (seen ++ [x])).
      { apply NoDup_app. split; [exact Hseen|]. split.
        - intros y Hy Hy'. apply list_elem_of_singleton in Hy'. by subst.
        - apply NoDup_singleton. }
      destruct (IH _ Hseen') as (Hnd & Hel & kept & Heq & Hsub).
      split; [exact Hnd|]. split.
      * intros y. rewrite Hel, elem_of_app, list_elem_of_singleton, elem_of_cons.
        tauto.
      * exists (x :: kept). split; [by rewrite Heq, <- app_assoc|].
        by apply sublist_skip.
Qed.

Lemma unique_spec (xs : list string) :
  NoDup (Arr.unique xs)
  /\ (forall x, x ∈ Arr.unique xs <-> x ∈ xs)
  /\ Arr.unique xs `sublist_of` xs.
Proof.
  destruct (unique_from_spec xs [] (NoDup_nil_2)) as (Hnd & Hel & kept & Heq & Hsub).
  split; [exact Hnd|]. split.
  - intros x. unfold Arr.unique. rewrite Hel, elem_of_nil. tauto.
  - unfold Arr.unique. by rewrite Heq.
Qed.

Lemma unique_from_NoDup (xs seen : list string) :
  NoDup (seen ++ xs) -> foldl Arr.add seen xs = seen ++ xs.
Proof.
  revert seen. induction xs as [|x xs IH]; intros seen Hnd; cbn [foldl].
  - by rewrite app_nil_r.
  - remember (Arr.add seen x) as seen' eqn:Es. unfold Arr.add in Es.
    case_bool_decide as Hx; subst seen'.
    + apply NoDup_app in Hnd as (_ & Hdis & _).
      exfalso. apply (Hdis x Hx). left.
    + rewrite IH; [by rewrite <- app_assoc|]. by rewrite <- app_assoc.
Qed.

Lemma filter_filter {A} (f g : A -> bool) (xs : list A) :
  List.filter f (List.filter g xs) = List.filter (λ x, f x && g x) xs.
Proof.
  induction xs as [| x xs IH]; cbn; [reflexivity |].
  destruct (g x); cbn; [destruct (f x) |]; rewrite ?IH; try reflexivity.
  by rewrite andb_false_r.
Qed.

Lemma filter_ext_in {A} (f g : A -> bool) (xs : list A) :
  (forall x, x ∈ xs -> f x = g x) -> List.filter f xs = List.filter g xs.
Proof.
  intros H. induction xs as [| x xs IH]; cbn; [reflexivity |].
  rewrite (H x) by left. rewrite IH; [reflexivity |].
  intros y Hy. apply H. by right.
Qed.

Lemma add_nil (x : string) : Arr.add [] x = [x].
Proof.
  unfold Arr.add. case_bool_decide as H; [| reflexivity].
  by apply elem_of_nil in H.
Qed.

Lemma add_seen (seen : list string) (x : string) :
  x ∈ seen -> Arr.add seen x = seen.
Proof. intros H. unfold Arr.add. by rewrite (bool_decide_eq_true_2 _ H). Qed.

Lemma add_new (seen : list string) (x : string) :
  x ∉ seen -> Arr.add seen x = seen ++ [x].
Proof. intros H. unfold Arr.add. by rewrite (bool_decide_eq_false_2 _ H). Qed.

(** What a scan adds to the elements seen so far: the distinct elements
    of the rest that are not among them, in the order the scan of the
    rest alone gives them. *)
Lemma unique_from_filter (xs : list string) :
  forall seen,
    foldl Arr.add seen xs
    = seen ++ List.filter (λ y, negb (bool_decide (y ∈ seen)))
                (foldl Arr.add [] xs).
Proof.
  induction xs as [| x xs IH]; intros seen; cbn [foldl].
  - cbn. by rewrite app_nil_r.
  - rewrite add_nil, (IH (Arr.add seen x)), (IH [x]).
    cbn [app List.filter].
    destruct (decide (x ∈ seen)) as [Hx | Hx].
    + rewrite (add_seen _ _ Hx), (bool_decide_eq_true_2 _ Hx). cbn [negb].
      rewrite filter_filter. f_equal. apply filter_ext_in. intros y _.
      destruct (decide (y ∈ seen)) as [Hy | Hy].
      * by rewrite (bool_decide_eq_true_2 _ Hy).
      * rewrite (bool_decide_eq_false_2 _ Hy). cbn.
        rewrite bool_decide_eq_false_2; [reflexivity |].
        intros Hin. apply list_elem_of_singleton in Hin. by subst.
    + rewrite (add_new _ _ Hx), (bool_decide_eq_false_2 _ Hx). cbn [negb].
      rewrite <- app_assoc. cbn [app]. do 2 f_equal.
      rewrite filter_filter. apply filter_ext_in. intros y _.
      destruct (decide (y ∈ seen)) as [Hy | Hy].
      * rewrite (bool_decide_eq_true_2 (y ∈ seen) Hy).
        rewrite bool_decide_eq_true_2; [reflexivity |].
        apply elem_of_app. by left.
      * rewrite (bool_decide_eq_false_2 (y ∈ seen) Hy). cbn.
        destruct (decide (y ∈ [x])) as [Hyx | Hyx].
        -- rewrite (bool_decide_eq_true_2 (y ∈ [x]) Hyx).
           rewrite bool_decide_eq_true_2; [reflexivity |].
           apply elem_of_app. by right.
        -- rewrite (bool_decide_eq_false_2 (y ∈ [x]) Hyx).
           rewrite bool_decide_eq_false_2; [reflexivity |].
           rewrite elem_of_app. tauto.
Qed.

(** The scan keeps the first element and, of the distinct elements of the
    rest, those that differ from it. *)
Lemma unique_cons (x : string) (xs : list string) :
  Arr.unique (x :: xs)
  = x :: List.filter (λ y, negb (String.eqb y x)) (Arr.unique xs).
Proof.
  unfold Arr.unique. cbn [foldl].
  rewrite add_nil, (unique_from_filter xs [x]).
  cbn [app]. f_equal. apply filter_ext_in. intros y _. f_equal.
  destruct (String.eqb y x) eqn:Heq.
  - apply String.eqb_eq in Heq. subst.
    apply bool_decide_eq_true_2. left.
  - apply String.eqb_neq in Heq. apply bool_decide_eq_false_2.
    intros Hin. by apply list_elem_of_singleton in Hin.
Qed.

(** An element stands right after the distinct elements of what comes
    before its first occurrence. *)
Lemma unique_first_occurrence (before after : list string) (x : string) :
  x ∉ before ->
  exists rest, Arr.unique (before ++ x :: after) = Arr.unique before ++ x :: rest.
Proof.
  intros Hfresh. unfold Arr.unique. rewrite foldl_app. cbn [foldl].
  assert (Hnew : x ∉ foldl Arr.add [] before).
  { intros Hin. apply Hfresh.
    destruct (unique_spec before) as (_ & Hel & _). by apply Hel. }
  rewrite (add_new _ _ Hnew), (unique_from_filter after).
  rewrite <- app_assoc. cbn [app]. eexists. reflexivity.
Qed.

Lemma unique_NoDup (xs : list string) : NoDup xs -> Arr.unique xs = xs.
Proof. intros H. apply (unique_from_NoDup xs []). exact H. Qed.

End UniqueFacts.

Lemma filter_elem {A} (f : A -> bool) (xs : list A) (x : A) :
  x ∈ List.filter f xs <-> x ∈ xs /\ f x = true.
Proof. rewrite !list_elem_of_In. apply filter_In. Qed.

Lemma filter_sublist {A} (f : A -> bool) (xs : list A) :
  List.filter f xs `sublist_of` xs.
Proof.
  induction xs as [|x xs IH]; cbn; [constructor|].
  destruct (f x); [by apply sublist_skip | by apply sublist_cons].
Qed.

Lemma filter_all {A} (f : A -> bool) (xs : list A) :
  (forall x, x ∈ xs -> f x = true) -> List.filter f xs = xs.
Proof.
  induction xs as [|x xs IH]; cbn; [reflexivity|]. intros H.
  rewrite (H x) by left. f_equal. apply IH. intros y Hy. apply H. by right.
Qed.

Lemma filter_sublist_mono {A} (f g : A -> bool) (xs : list A) :
  (forall x, f x = true -> g x = true) ->
  List.filter f xs `sublist_of` List.filter g xs.
Proof.
  intros Hfg. induction xs as [|x xs IH]; cbn; [constructor|].
  destruct (f x) eqn:Hf.
  - rewrite (Hfg x Hf). by apply sublist_skip.
  - destruct (g x); [by apply sublist_cons | exact IH].
Qed.

(** X17. The action filter of the audit log lists every action that
    occurs in the log exactly once, in the order of first occurrence: the
    action of the first entry comes first, followed by the distinct
    actions of the other entries without it; so an action stands right
    after the distinct actions of the entries before its first
    occurrence. Taking the distinct actions again changes nothing. *)
Theorem action_filter_lists_each_action_once
    (auditLogs : list AuditLogTable.AuditLog) :
  let actions := AuditLogTable.uniqueActions auditLogs in
  NoDup actions
  /\ (forall a, a ∈ actions <->
        exists log, log ∈ auditLogs /\ AuditLogTable.action log = a)
  /\ actions `sublist_of` map AuditLogTable.action auditLogs
  /\ AuditLogTable.uniqueActions [] = []
  /\ (forall log logs,
        AuditLogTable.uniqueActions (log :: logs)
        = AuditLogTable.action log
          :: List.filter
               (λ a, negb (String.eqb a (AuditLogTable.action log)))
               (AuditLogTable.uniqueActions logs))
  /\ (forall before log after,
        auditLogs = before ++ log :: after ->
        AuditLogTable.action log ∉ map AuditLogTable.action before ->
        exists rest,
          actions
          = AuditLogTable.uniqueActions before
            ++ AuditLogTable.action log :: rest)
  /\ Arr.unique actions = actions.
Proof.
  cbv zeta. unfold AuditLogTable.uniqueActions.
  destruct (unique_spec (map AuditLogTable.action auditLogs))
    as (Hnd & Hel & Hsub).
  split; [exact Hnd|].
  split; [|split; [exact Hsub | split; [reflexivity | split; [| split]]]].
  - intros a. rewrite Hel, list_elem_of_fmap.
    split; intros (log & H1 & H2); exists log; auto.
  - intros log logs. cbn [map]. apply unique_cons.
  - intros before log after -> Hfresh. rewrite map_app. cbn [map].
    by apply unique_first_occurrence.
  - by apply unique_NoDup.
Qed.

(** X18. The audit log table shows a part of the log in the log's order,
    whatever the filters are; with the action filter on "all" and an
    empty search it shows the whole log, and a search term only removes
    rows from what the action filter alone shows. *)
Theorem audit_table_shows_part_of_the_log
    (toLowerCase : string -> string) (filterAction searchTerm : string)
    (auditLogs : list AuditLogTable.AuditLog) :
  AuditLogTable.filteredLogs toLowerCase filterAction searchTerm auditLogs
    `sublist_of` auditLogs
  /\ AuditLogTable.filteredLogs toLowerCase "all" EmptyString auditLogs
     = auditLogs
  /\ AuditLogTable.filteredLogs toLowerCase filterAction searchTerm auditLogs
     `sublist_of`
     AuditLogTable.filteredLogs toLowerCase filterAction EmptyString auditLogs.
Proof.
  unfold AuditLogTable.filteredLogs. split; [apply filter_sublist|].
  split; [by apply filter_all|].
  apply filter_sublist_mono. intros log.
  unfold AuditLogTable.matches. cbn.
  rewrite !andb_true_iff. tauto.
Qed.

(** X19. Every action offered by the action filter has rows: with an
    empty search, choosing it shows at least one entry, and (the value
    "all" apart) only entries of that action. *)
Theorem offered_action_has_rows
    (toLowerCase : string -> string) (a : string)
    (auditLogs : list AuditLogTable.AuditLog) :
  a ∈ AuditLogTable.uniqueActions auditLogs ->
  let shown := AuditLogTable.filteredLogs toLowerCase a EmptyString auditLogs in
  shown <> []
  /\ (a <> "all" -> forall log, log ∈ shown -> AuditLogTable.action log = a).
Proof.
  intros Ha. cbn. unfold AuditLogTable.uniqueActions in Ha.
  destruct (unique_spec (map AuditLogTable.action auditLogs)) as (_ & Hel & _).
  apply (proj1 (Hel a)) in Ha. clear Hel.
  apply list_elem_of_fmap in Ha as (log & -> & Hlog).
  unfold AuditLogTable.filteredLogs. split.
  - intros Hnil.
    assert (H : log ∈ List.filter
                  (AuditLogTable.matches toLowerCase (AuditLogTable.action log)
                     EmptyString) auditLogs).
    { apply filter_elem. split; [exact Hlog|].
      unfold AuditLogTable.matches. cbn.
      rewrite String.eqb_refl. by rewrite orb_true_r. }
    rewrite Hnil in H. by apply elem_of_nil in H.
  - intros Hall log' Hlog'. apply filter_elem in Hlog' as (_ & Hm).
    unfold AuditLogTable.matches in Hm. cbn in Hm.
    rewrite andb_true_r in Hm. apply orb_true_iff in Hm as [Hm|Hm].
    + apply String.eqb_eq in Hm. contradiction.
    + by apply String.eqb_eq in Hm.
Qed.

Lemma offered_action_has_rows_witness :
  AuditLogTable.filteredLogs id "logout" EmptyString
    [Fixture.login_entry; Fixture.logout_entry; Fixture.login_entry]
  <> [].
Proof.
  refine (proj1 (offered_action_has_rows id "logout"
                   [Fixture.login_entry; Fixture.logout_entry;
                    Fixture.login_entry] _)).
  vm_compute. apply list_elem_of_further, list_elem_of_here.
Defined.

(** * Sessions *)

Lemma filter_length_split {A} (f : A -> bool) (xs : list A) :
  length xs = length (List.filter f xs) + length (List.filter (λ x, negb (f x)) xs).
Proof.
  induction xs as [|x xs IH]; cbn; [reflexivity|].
  destruct (f x); cbn; lia.
Qed.

(** X20. The sessions counted as others are the listed rows that carry a
    revoke menu: the "Revoke All Others" button is shown exactly when
    some listed row has the menu, the current session is never among the
    others, and the rows split into the current ones and the others. *)
Theorem revoke_all_matches_row_menus (sessions : list SessionList.UserSession) :
  let rows := SessionList.activeSessions sessions in
  let others := SessionList.otherSessions sessions in
  others = List.filter SessionList.hasRevokeMenu rows
  /\ (SessionList.showsRevokeAllOthers sessions = true <->
      exists row, row ∈ rows /\ SessionList.hasRevokeMenu row = true)
  /\ (forall s, s ∈ others ->
        s ∈ sessions /\ SessionList.is_active s = true
        /\ SessionList.is_expired s = false
        /\ SessionList.is_current s = false)
  /\ length rows
     = length others + length (List.filter SessionList.is_current rows).
Proof.
  cbv zeta. split; [reflexivity|]. split; [|split].
  - unfold SessionList.showsRevokeAllOthers, SessionList.otherSessions.
    rewrite Nat.ltb_lt. split.
    + destruct (List.filter _ (SessionList.activeSessions sessions))
        as [|row rest] eqn:E; cbn; [lia|]. intros _.
      assert (H : row ∈ row :: rest) by left.
      rewrite <- E in H. apply filter_elem in H as (H1 & H2).
      exists row. split; [exact H1 | exact H2].
    + intros (row & Hrow & Hmenu).
      assert (H : row ∈ List.filter (λ s, negb (SessionList.is_current s))
                    (SessionList.activeSessions sessions)).
      { apply filter_elem. split; [exact Hrow | exact Hmenu]. }
      destruct (List.filter _ _); [by apply elem_of_nil in H | cbn; lia].
  - intros s Hs. unfold SessionList.otherSessions in Hs.
    apply filter_elem in Hs as (Hs & Hcur).
    apply filter_elem in Hs as (Hs & Hact).
    apply andb_true_iff in Hact as (Hact & Hexp).
    repeat split; auto.
    + by apply negb_true_iff in Hexp.
    + by apply negb_true_iff in Hcur.
  - unfold SessionList.otherSessions.
    rewrite (filter_length_split SessionList.is_current
               (SessionList.activeSessions sessions)).
    lia.
Qed.

Section JoinFacts.

Lemma append_nonempty (s t : string) : s <> EmptyString -> s +:+ t <> EmptyString.
Proof. destruct s; [congruence | discriminate]. Qed.

Lemma nonempty_true (s : string) : Js.nonempty s = true <-> s <> EmptyString.
Proof. destruct s; cbn; split; congruence. Qed.

Lemma join_nonempty sep x rest :
  x <> EmptyString -> SessionList.join sep (x :: rest) <> EmptyString.
Proof.
  intros Hx. destruct rest; cbn; [exact Hx | by apply append_nonempty].
Qed.

End JoinFacts.

(** X21. The description of a session's device is never empty: it reads
    "Unknown device" when neither a browser nor a system is given, is the
    given one when only one is, and joins both with " on " otherwise. An
    empty text counts as not given. *)
Theorem device_description_is_never_empty (session : SessionList.UserSession) :
  let given (x : option string) :=
    match x with Some text => Js.nonempty text | None => false end in
  SessionList.getDeviceDescription session <> EmptyString
  /\ (given (SessionList.browser session) = false ->
      given (SessionList.os session) = false ->
      SessionList.getDeviceDescription session = "Unknown device")
  /\ (forall b o,
        SessionList.browser session = Some b -> Js.nonempty b = true ->
        SessionList.os session = Some o -> Js.nonempty o = true ->
        SessionList.getDeviceDescription session = b +:+ " on " +:+ o)
  /\ (forall b,
        SessionList.browser session = Some b -> Js.nonempty b = true ->
        given (SessionList.os session) = false ->
        SessionList.getDeviceDescription session = b).
Proof.
  cbn. unfold SessionList.getDeviceDescription, SessionList.push_if.
  destruct session as [i a c e b o]; cbn.
  split; [|split; [|split]].
  - destruct b as [b|], o as [o|]; cbn;
      repeat match goal with
             | |- context [Js.nonempty ?x] =>
                 let E := fresh "E" in destruct (Js.nonempty x) eqn:E; cbn
             end;
      try discriminate;
      repeat match goal with
             | H : Js.nonempty _ = true |- _ => apply nonempty_true in H
             end;
      try assumption; by apply append_nonempty.
  - destruct b as [b|], o as [o|]; cbn; intros -> ->|| intros; cbn; try reflexivity;
      try discriminate.
    all: repeat match goal with
                | H : Js.nonempty _ = false |- _ => rewrite H
                end; reflexivity.
  - intros b' o' -> Hb -> Ho. by rewrite Hb, Ho.
  - intros b' -> Hb Ho. rewrite Hb. destruct o as [o|]; [rewrite Ho|]; reflexivity.
Qed.

Lemma device_description_is_never_empty_witness :
  SessionList.getDeviceDescription Fixture.phone_session = "Firefox".
Proof.
  apply (proj2 (proj2 (proj2
           (device_description_is_never_empty Fixture.phone_session))));
    reflexivity.
Defined.

(** * Roles *)

Lemma elem_of_toggle (x roleId : string) (expandedRoles : gset string) :
  x ∈ RolePermissionViewer.toggleRoleExpansion roleId expandedRoles
  <-> (x = roleId /\ roleId ∉ expandedRoles)
      \/ (x <> roleId /\ x ∈ expandedRoles).
Proof.
  unfold RolePermissionViewer.toggleRoleExpansion.
  case_bool_decide as H.
  - rewrite elem_of_difference, elem_of_singleton. intuition (subst; tauto || congruence).
  - rewrite elem_of_union, elem_of_singleton.
    destruct (decide (x = roleId)); intuition (subst; tauto || congruence).
Qed.

(** X22. A click on a role flips whether that role is expanded and
    nothing else: a second click restores the set, every other role keeps
    its state, and clicks on different roles commute. *)
Theorem toggling_a_role_flips_only_that_role
    (roleId other : string) (expandedRoles : gset string) :
  RolePermissionViewer.toggleRoleExpansion roleId
    (RolePermissionViewer.toggleRoleExpansion roleId expandedRoles)
  = expandedRoles
  /\ (roleId ∈ RolePermissionViewer.toggleRoleExpansion roleId expandedRoles
      <-> roleId ∉ expandedRoles)
  /\ (other <> roleId ->
      (other ∈ RolePermissionViewer.toggleRoleExpansion roleId expandedRoles
       <-> other ∈ expandedRoles))
  /\ RolePermissionViewer.toggleRoleExpansion roleId
       (RolePermissionViewer.toggleRoleExpansion other expandedRoles)
     = RolePermissionViewer.toggleRoleExpansion other
         (RolePermissionViewer.toggleRoleExpansion roleId expandedRoles).
Proof.
  split; [|split; [|split]].
  - apply set_eq. intros x. rewrite !elem_of_toggle.
    destruct (decide (x = roleId)) as [->|],
      (decide (roleId ∈ expandedRoles)); tauto.
  - rewrite elem_of_toggle. tauto.
  - intros Hne. rewrite elem_of_toggle. tauto.
  - apply set_eq. intros x. rewrite !elem_of_toggle.
    destruct (decide (roleId = other)) as [->|]; [tauto|].
    destruct (decide (x = roleId)) as [Hx|Hx], (decide (x = other)) as [Hy|Hy],
      (decide (roleId ∈ expandedRoles)), (decide (other ∈ expandedRoles));
      subst; try congruence; tauto.
Qed.

Lemma elem_of_concat {A} (x : A) (xss : list (list A)) :
  x ∈ concat xss <-> exists xs, x ∈ xs /\ xs ∈ xss.
Proof.
  rewrite list_elem_of_In, in_concat. split.
  - intros (xs & H1 & H2). exists xs. by rewrite !list_elem_of_In.
  - intros (xs & H1 & H2). exists xs. by rewrite <- !list_elem_of_In.
Qed.

(** X23. Every permission of a role can be reached through the category
    filter: its category is among the offered ones, each offered category
    belongs to some permission of some role, and under a category other
    than "all" a role lists exactly its permissions of that category. *)
Theorem category_filter_reaches_every_permission
    (roles : list RolePermissionViewer.Role) :
  let offered := RolePermissionViewer.permissionCategories roles in
  NoDup offered
  /\ (forall c, c ∈ offered <->
        exists role p, role ∈ roles
          /\ p ∈ RolePermissionViewer.role_permissions role
          /\ RolePermissionViewer.category p = c)
  /\ (forall role p,
        p ∈ RolePermissionViewer.role_permissions role ->
        p ∈ RolePermissionViewer.filteredPermissions
              (RolePermissionViewer.category p) role)
  /\ (forall role c p, c <> "all" ->
        (p ∈ RolePermissionViewer.filteredPermissions c role <->
         p ∈ RolePermissionViewer.role_permissions role
         /\ RolePermissionViewer.category p = c)).
Proof.
  cbn. unfold RolePermissionViewer.permissionCategories.
  match goal with |- context [Arr.unique ?xs] =>
    destruct (unique_spec xs) as (Hnd & Hel & _) end.
  split; [exact Hnd|]. split; [|split].
  - intros c. rewrite Hel, list_elem_of_fmap. split.
    + intros (p & -> & Hp). apply elem_of_concat in Hp as (ps & Hp & Hps).
      apply list_elem_of_fmap in Hps as (role & -> & Hrole).
      exists role, p. auto.
    + intros (role & p & Hrole & Hp & <-). exists p. split; [reflexivity|].
      apply elem_of_concat. exists (RolePermissionViewer.role_permissions role).
      split; [exact Hp|]. apply list_elem_of_fmap. exists role. auto.
  - intros role p Hp. unfold RolePermissionViewer.filteredPermissions.
    destruct (String.eqb _ "all"); [exact Hp|].
    apply filter_elem. split; [exact Hp | apply String.eqb_refl].
  - intros role c p Hc. unfold RolePermissionViewer.filteredPermissions.
    destruct (String.eqb c "all") eqn:E; [by apply String.eqb_eq in E|].
    rewrite filter_elem. by rewrite String.eqb_eq.
Qed.

(** * Row actions *)

(** X24. Each of the nine row handlers of the list components returns
    normally whatever its callback does and shows exactly one toast after
    the callback: its own success toast when the callback returned, and
    when the callback threw its own failure toast, destructive, whose
    title and text are fixed and never quote the error. The handler leaves
    its busy marker at the idle value; the loading flag, the error and the
    field errors of the component are not touched. *)
Theorem row_action_reports_once_and_resets
    (callback : option (Json -> M World unit)) (a : ListActions.Action)
    (app : App) :
  let attempt :=
    match callback with
    | Some f => f (ListActions.argument a) (world app)
    | None => (Returned tt, world app)
    end in
  let shown :=
    match attempt.1 with
    | Returned _ => ListActions.succeeded a
    | Threw _ => ListActions.failed a
    end in
  let final := Eff.exec (ListActions.handle callback a) app in
  Eff.outcome (ListActions.handle callback a) app = Returned tt
  /\ world final = Eff.exec (Browser.toast shown) attempt.2
  /\ toasts (world final) = toasts attempt.2 ++ [shown]
  /\ variant (ListActions.succeeded a) = success
  /\ variant (ListActions.failed a) = destructive
  /\ cells (form final)
     = <[ListActions.busy_cell a := ListActions.idle a]> (cells (form app))
  /\ isLoading (form final) = isLoading (form app)
  /\ error (form final) = error (form app)
  /\ fieldErrors (form final) = fieldErrors (form app).
Proof.
  destruct app as [f w].
  cbv zeta.
  destruct a, callback as [cb|];
    unfold ListActions.handle, ListActions.argument,
      ListActions.handleResendInvitation, ListActions.handleCancelInvitation,
      ListActions.handleRevokeSession, ListActions.handleRevokeAllOthers,
      ListActions.handleRevokeSsoSession, ListActions.handleRevokeAll,
      ListActions.handleRemoveDevice, ListActions.handleDeleteOidc,
      ListActions.handleDeleteSaml,
      Eff.outcome, Eff.exec, ListActions.guarded, Eff.try_catch_finally,
      Eff.try_finally, Eff.try_catch, Eff.bind, Form.setCell, Form.modify_form,
      Eff.modify, Form.opt_call, Form.liftW, Eff.ret; cbn;
    try (destruct (cb _ w) as [[[]|e] w1]; cbn);
    (split; [reflexivity|]);
    (split; [reflexivity|]);
    (split; [reflexivity|]);
    (split; [reflexivity|]);
    (split; [reflexivity|]);
    (split; [by rewrite insert_insert_eq|]);
    repeat split.
Qed.

(** * One-time codes *)

(** X25. The one-time code field of the two second-factor forms accepts
    exactly the texts of six decimal digits; a text of another length is
    told so first. *)
Theorem otp_code_is_six_digits (otp_code : Js.str) :
  (Otp.otpIssues otp_code = [] <->
   length otp_code = 6
   /\ Forall (λ unit, (48 <= unit <= 57)%N) otp_code)
  /\ (length otp_code <> 6 ->
      head (Otp.otpIssues otp_code)
      = Some ("otp_code", "Code must be 6 digits")).
Proof.
  unfold Otp.otpIssues, Otp.digits_only, Signup.check. split.
  - destruct (length otp_code =? 6) eqn:Hlen; cbn.
    + apply Nat.eqb_eq in Hlen. rewrite Hlen. cbn.
      destruct (forallb Js.digit otp_code) eqn:Hd.
      * split; [intros _|reflexivity]. split; [reflexivity|].
        apply Forall_forall. intros u Hu.
        rewrite forallb_forall in Hd. specialize (Hd u).
        rewrite <- list_elem_of_In in Hd. specialize (Hd Hu).
        unfold Js.digit in Hd. apply andb_true_iff in Hd as [H1 H2].
        apply N.leb_le in H1, H2. lia.
      * split; [discriminate|]. intros [_ Hall]. exfalso.
        assert (forallb Js.digit otp_code = true); [|congruence].
        apply forallb_forall. intros u Hu. apply list_elem_of_In in Hu.
        rewrite Forall_forall in Hall. specialize (Hall u Hu).
        unfold Js.digit. apply andb_true_iff.
        split; apply N.leb_le; lia.
    + apply Nat.eqb_neq in Hlen. split; [discriminate | tauto].
  - intros Hlen. apply Nat.eqb_neq in Hlen. rewrite Hlen. reflexivity.
Qed.

Lemma otp_code_is_six_digits_witness :
  head (Otp.otpIssues (Js.of_string "1234"))
  = Some ("otp_code", "Code must be 6 digits").
Proof.
  apply (proj2 (otp_code_is_six_digits (Js.of_string "1234"))).
  vm_compute. lia.
Defined.

(** * The profile picture *)

(** X26. Whatever the user does with the picture input, the file the
    profile form holds never exceeds 5 MiB, a held file always has a
    preview, and every toast shown is the "File too large" refusal; a
    refused file leaves the picture chosen before in place. *)
Theorem held_picture_is_within_the_limit
    (createObjectURL : nat -> ProfilePicture.File -> string)
    (profile_picture : option string) (events : list ProfilePicture.Event) :
  let final :=
    ProfilePicture.run createObjectURL events
      (ProfilePicture.initial profile_picture) in
  (forall file, ProfilePicture.profileImage final = Some file ->
     (ProfilePicture.size file <= 5242880)%N
     /\ ProfilePicture.Choose (Some file) ∈ events
     /\ ProfilePicture.previewUrl final <> None)
  /\ Forall (λ t, title t = "File too large" /\ variant t = destructive)
       (ProfilePicture.shown final)
  /\ (forall file, (5242880 < ProfilePicture.size file)%N ->
        ProfilePicture.profileImage
          (ProfilePicture.handleImageChange createObjectURL (Some file) final)
        = ProfilePicture.profileImage final
        /\ ProfilePicture.previewUrl
             (ProfilePicture.handleImageChange createObjectURL (Some file) final)
           = ProfilePicture.previewUrl final).
Proof.
  cbv zeta. unfold ProfilePicture.run.
  induction events as [|ev events IH] using rev_ind.
  - cbn. split; [discriminate|]. split; [constructor|].
    intros file Hbig. apply N.ltb_lt in Hbig.
    change (5 * 1024 * 1024)%N with 5242880%N. by rewrite Hbig.
  - rewrite foldl_app. cbn [foldl].
    destruct IH as (IH1 & IH2 & _).
    set (st := foldl (ProfilePicture.step createObjectURL)
                 (ProfilePicture.initial profile_picture) events) in *.
    assert (Hlast :
      forall file, (5242880 < ProfilePicture.size file)%N ->
        forall st',
        ProfilePicture.profileImage
          (ProfilePicture.handleImageChange createObjectURL (Some file) st')
        = ProfilePicture.profileImage st'
        /\ ProfilePicture.previewUrl
             (ProfilePicture.handleImageChange createObjectURL (Some file) st')
           = ProfilePicture.previewUrl st').
    { intros file Hbig st'. apply N.ltb_lt in Hbig.
      unfold ProfilePicture.handleImageChange.
      change (5 * 1024 * 1024)%N with 5242880%N. by rewrite Hbig. }
    split; [|split; [|intros file Hbig; by apply Hlast]].
    + intros file. destruct ev as [[chosen|]|]; cbn.
      * change (5 * 1024 * 1024)%N with 5242880%N.
        destruct (5242880 <? ProfilePicture.size chosen)%N eqn:Hbig; cbn.
        -- intros H. destruct (IH1 file H) as (Hs & Hin & Hp).
           split; [exact Hs|]. split; [|exact Hp].
           apply elem_of_app. by left.
        -- intros [= ->]. apply N.ltb_ge in Hbig.
           split; [exact Hbig|]. split; [|discriminate].
           apply elem_of_app. right. left.
      * intros H. destruct (IH1 file H) as (Hs & Hin & Hp).
        split; [exact Hs|]. split; [|exact Hp].
        apply elem_of_app. by left.
      * discriminate.
    + destruct ev as [[chosen|]|]; cbn; try exact IH2.
      destruct (5 * 1024 * 1024 <? ProfilePicture.size chosen)%N; cbn;
        [|exact IH2].
      apply Forall_app. split; [exact IH2|]. by repeat constructor.
Qed.

(** * Start-up of the provider *)

Section StartupFacts.

(** A refresh the backend refuses with a status other than 401, or does
    not answer at all. *)
Lemma refreshUser_refused_run w :
  (forall resp, Axios.answer Sample.getProfile w = Responded resp ->
     Axios.validateStatus (Http.status resp) = false
     /\ Http.status resp <> 401%Z) ->
  exists e w1 pre,
    AuthProvider.refreshUser w = (Threw (AxiosError e), w1)
    /\ user w1 = user w
    /\ routerLog w1 = routerLog w
    /\ toasts w1 = toasts w
    /\ requests w1 = requests w ++ [Axios.authorize Sample.getProfile w]
    /\ window w1 = window w
    /\ console w1 = pre ++ ["Error refreshing user data:"].
Proof.
  intros Hbad.
  unfold AuthProvider.refreshUser, Eff.try_catch, Eff.bind, ApiClient.invoke,
    Axios.get.
  change (Axios.request _) with (Axios.request Sample.getProfile). rewrite request_unfold.
  destruct (Axios.answer Sample.getProfile w) as [resp|] eqn:Ha.
  - destruct (Hbad resp eq_refl) as [Hv Hs]. rewrite Hv.
    assert (H401 : Axios.has_status 401 (AxiosError (Some resp)) = false).
    { cbn. by apply Z.eqb_neq. }
    destruct (onRejected_run (AxiosError (Some resp))
                (Axios.after_send Sample.getProfile w))
      as (w1 & -> & Hr & Ht & Hu & Hq & _ & _ & Hwin).
    specialize (Hwin H401).
    cbn. unfold Eff.when, JsonOps.is_num.
    apply Z.eqb_neq in Hs. rewrite Hs. cbn.
    exists (Some resp). eexists. exists (console w1).
    split; [reflexivity|]. cbn. repeat split; assumption.
  - destruct (onRejected_run (AxiosError None)
                (Axios.after_send Sample.getProfile w))
      as (w1 & -> & Hr & Ht & Hu & Hq & _ & _ & Hwin).
    specialize (Hwin eq_refl).
    cbn. exists None. eexists. exists (console w1).
    split; [reflexivity|]. cbn. repeat split; assumption.
Qed.

(** The guarded part of the start-up never throws. *)
Lemma startup_guard_returns (body : M Provider.State unit) st :
  exists st',
    Eff.try_catch body
      (λ _, Provider.lift (Browser.console_error "Error parsing stored user data:") ;;;
            Provider.lift (StorageUtils.removeStorageItem STORAGE_KEYS.AUTH_TOKEN) ;;;
            Provider.lift (StorageUtils.removeStorageItem STORAGE_KEYS.USER_DATA))
      st
    = (Returned tt, st').
Proof.
  unfold Eff.try_catch. destruct (body st) as [[[]|e] s1]; eexists; reflexivity.
Qed.

(** The first two reads and the last write of the start-up. *)
Lemma initAuth_unfold JSON_parse st :
  Provider.initAuth JSON_parse st
  = let userData := Browser.stored STORAGE_KEYS.USER_DATA (Provider.env st) in
    if Provider.found (Browser.stored STORAGE_KEYS.AUTH_TOKEN (Provider.env st))
       && Provider.found userData
    then
      match
        Eff.try_catch
          (let* parsedUser := Provider.parse JSON_parse userData in
           Provider.lift (Browser.setUser parsedUser) ;;;
           Provider.lift AuthProvider.refreshUser)
          (λ _, Provider.lift
                  (Browser.console_error "Error parsing stored user data:") ;;;
                Provider.lift
                  (StorageUtils.removeStorageItem STORAGE_KEYS.AUTH_TOKEN) ;;;
                Provider.lift
                  (StorageUtils.removeStorageItem STORAGE_KEYS.USER_DATA))
          st
      with
      | (Returned _, s) =>
          (Returned tt, {| Provider.loading := false; Provider.env := Provider.env s |})
      | (Threw e, s) => (Threw e, s)
      end
    else (Returned tt,
          {| Provider.loading := false; Provider.env := Provider.env st |}).
Proof.
  destruct st as [l w].
  unfold Provider.initAuth, Eff.bind, Provider.lift,
    StorageUtils.getStorageItem, Provider.setIsLoading, Eff.modify, Eff.when.
  cbn.
  destruct (Provider.found _ && Provider.found _); reflexivity.
Qed.

End StartupFacts.

(** X27. The start-up of the provider always finishes: it never throws
    and leaves the loading flag off, whatever is stored and whatever the
    backend answers; unless both a token and user data are stored it
    sends nothing and changes nothing else. *)
Theorem startup_always_finishes
    (JSON_parse : Stored -> option Json) (st : Provider.State) :
  let final := Eff.exec (Provider.initAuth JSON_parse) st in
  Eff.outcome (Provider.initAuth JSON_parse) st = Returned tt
  /\ Provider.loading final = false
  /\ (Provider.found (Browser.stored STORAGE_KEYS.AUTH_TOKEN (Provider.env st))
      && Provider.found
           (Browser.stored STORAGE_KEYS.USER_DATA (Provider.env st))
      = false ->
      Provider.env final = Provider.env st).
Proof.
  cbv zeta. unfold Eff.outcome, Eff.exec. rewrite initAuth_unfold. cbv zeta.
  destruct (Provider.found _ && Provider.found _) eqn:E.
  - match goal with
    | |- context [Eff.try_catch ?body ?h st] =>
        destruct (startup_guard_returns body st) as [st' ->]
    end.
    repeat split. discriminate.
  - repeat split.
Qed.

Lemma startup_always_finishes_witness :
  Provider.env (Eff.exec (Provider.initAuth (λ _, None)) Fixture.first_visit)
  = Provider.env Fixture.first_visit.
Proof.
  apply (proj2 (proj2 (startup_always_finishes (λ _, None)
                         Fixture.first_visit))).
  reflexivity.
Defined.

Section StartupRuns.

Lemma stored_after_removals w :
  let w' :=
    Eff.exec (StorageUtils.removeStorageItem STORAGE_KEYS.AUTH_TOKEN ;;;
              StorageUtils.removeStorageItem STORAGE_KEYS.USER_DATA) w in
  Browser.stored STORAGE_KEYS.AUTH_TOKEN w' = None
  /\ Browser.stored STORAGE_KEYS.USER_DATA w' = None
  /\ user w' = user w /\ routerLog w' = routerLog w
  /\ requests w' = requests w /\ console w' = console w
  /\ toasts w' = toasts w.
Proof.
  cbv zeta.
  unfold Eff.exec, Eff.bind, StorageUtils.removeStorageItem,
    Browser.localStorage_removeItem, Eff.modify, Browser.stored.
  cbn. destruct (window w) as [win|]; cbn; repeat split.
  - rewrite lookup_delete_ne by done. apply lookup_delete_eq.
  - apply lookup_delete_eq.
Qed.

End StartupRuns.

(** X28. When a token and user data are stored but the user data cannot
    be parsed, the start-up sends nothing, leaves the [user] state and the
    router alone, logs one console error and removes both stored items. *)
Theorem unreadable_user_data_clears_session
    (JSON_parse : Stored -> option Json) (st : Provider.State)
    (token text : Stored) :
  Browser.stored STORAGE_KEYS.AUTH_TOKEN (Provider.env st) = Some token ->
  Axios.token_truthy token = true ->
  Browser.stored STORAGE_KEYS.USER_DATA (Provider.env st) = Some text ->
  Axios.token_truthy text = true ->
  JSON_parse text = None ->
  let final := Provider.env (Eff.exec (Provider.initAuth JSON_parse) st) in
  Browser.stored STORAGE_KEYS.AUTH_TOKEN final = None
  /\ Browser.stored STORAGE_KEYS.USER_DATA final = None
  /\ requests final = requests (Provider.env st)
  /\ user final = user (Provider.env st)
  /\ routerLog final = routerLog (Provider.env st)
  /\ console final
     = console (Provider.env st) ++ ["Error parsing stored user data:"].
Proof.
  intros Htok Ht Hdata Hd Hparse. cbv zeta.
  unfold Eff.exec. rewrite initAuth_unfold. cbv zeta.
  rewrite Htok, Hdata. cbn [Provider.found]. rewrite Ht, Hd. cbn [andb].
  unfold Eff.try_catch, Eff.bind at 1, Provider.parse. rewrite Hparse.
  unfold Eff.throw. cbv iota beta.
  unfold Eff.bind, Provider.lift, Browser.console_error, Eff.modify. cbn.
  set (w1 := {| window := window (Provider.env st);
                routerLog := routerLog (Provider.env st);
                requests := requests (Provider.env st);
                server := server (Provider.env st);
                toasts := toasts (Provider.env st);
                console := console (Provider.env st)
                           ++ ["Error parsing stored user data:"];
                user := user (Provider.env st) |}).
  destruct (stored_after_removals w1) as (H1 & H2 & H3 & H4 & H5 & H6 & _).
  unfold Eff.exec, Eff.bind, StorageUtils.removeStorageItem,
    Browser.localStorage_removeItem, Eff.modify in H1, H2, H3, H4, H5, H6.
  cbn in H1, H2, H3, H4, H5, H6.
  repeat split; assumption.
Qed.

Lemma unreadable_user_data_clears_session_witness :
  Browser.stored STORAGE_KEYS.AUTH_TOKEN
    (Provider.env
       (Eff.exec (Provider.initAuth (λ _, None))
          (Fixture.returning_visit Sample.offline)))
  = None.
Proof.
  refine (proj1 (unreadable_user_data_clears_session (λ _, None)
                   (Fixture.returning_visit Sample.offline)
                   (Raw (JStr "t0k3n")) (Stringified Sample.ada)
                   _ _ _ _ _));
    reflexivity.
Defined.

(** X29. When the stored user data parses but the backend refuses the
    refresh with a status other than 401, or does not answer, the start-up
    removes both stored items and yet keeps the parsed user in the [user]
    state: the provider then reports an authenticated user (for a truthy
    parsed value) although no token is stored. One request was sent and
    the router was not used. *)
Theorem refused_refresh_keeps_parsed_user
    (JSON_parse : Stored -> option Json) (st : Provider.State)
    (token text : Stored) (parsedUser : Json) :
  Browser.stored STORAGE_KEYS.AUTH_TOKEN (Provider.env st) = Some token ->
  Axios.token_truthy token = true ->
  Browser.stored STORAGE_KEYS.USER_DATA (Provider.env st) = Some text ->
  Axios.token_truthy text = true ->
  JSON_parse text = Some parsedUser ->
  (forall resp,
     Axios.answer
       {| Axios.call_verb := GET; Axios.call_url := "/users/profile/";
          Axios.call_body := JUndefined; Axios.call_config := JUndefined |}
       (Provider.env st) = Responded resp ->
     Axios.validateStatus (Http.status resp) = false
     /\ Http.status resp <> 401%Z) ->
  let final := Eff.exec (Provider.initAuth JSON_parse) st in
  user (Provider.env final) = parsedUser
  /\ Provider.isAuthenticated final = JsonOps.truthy parsedUser
  /\ Browser.stored STORAGE_KEYS.AUTH_TOKEN (Provider.env final) = None
  /\ Browser.stored STORAGE_KEYS.USER_DATA (Provider.env final) = None
  /\ Provider.loading final = false
  /\ length (requests (Provider.env final))
     = length (requests (Provider.env st)) + 1
  /\ routerLog (Provider.env final) = routerLog (Provider.env st).
Proof.
  intros Htok Ht Hdata Hd Hparse Hbad. cbv zeta.
  unfold Provider.isAuthenticated, Eff.exec.
  destruct (Provider.initAuth JSON_parse st) as [o final] eqn:Hrun.
  cbn [snd]. rewrite initAuth_unfold in Hrun. cbv zeta in Hrun.
  rewrite Htok, Hdata in Hrun. cbn [Provider.found] in Hrun.
  rewrite Ht, Hd in Hrun. cbn [andb] in Hrun.
  unfold Eff.try_catch, Eff.bind at 1, Provider.parse in Hrun.
  rewrite Hparse in Hrun. unfold Eff.ret in Hrun. cbv iota beta in Hrun.
  unfold Eff.bind at 1, Provider.lift at 1, Browser.setUser, Eff.modify in Hrun.
  cbv iota beta in Hrun.
  unfold Provider.lift at 1 in Hrun.
  cbn [Provider.env Provider.loading] in Hrun.
  match type of Hrun with
  | context [AuthProvider.refreshUser ?w] =>
      destruct (refreshUser_refused_run w)
        as (e & w1 & pre & Hrefresh & Hu & Hr & _ & Hq & Hwin & _);
        [exact Hbad | rewrite Hrefresh in Hrun]
  end.
  cbn in Hu, Hr, Hq, Hwin.
  unfold Eff.bind, Provider.lift, Browser.console_error, Eff.modify in Hrun.
  cbn in Hrun.
  match type of Hrun with
  | context [Browser.set_window _ (Browser.set_window _ ?w)] =>
      destruct (stored_after_removals w) as (H1 & H2 & H3 & H4 & H5 & _)
  end.
  unfold Eff.exec, Eff.bind, StorageUtils.removeStorageItem,
    Browser.localStorage_removeItem, Eff.modify in H1, H2, H3, H4, H5.
  cbn in H1, H2, H3, H4, H5.
  injection Hrun as <- <-. unfold Browser.stored. cbn.
  rewrite Hu, Hr, Hq, length_app. cbn.
  repeat split; assumption.
Qed.

Lemma refused_refresh_keeps_parsed_user_witness :
  let final :=
    Eff.exec (Provider.initAuth Fixture.read_back)
      (Fixture.returning_visit (Sample.answering 500 JNull)) in
  user (Provider.env final) = Sample.ada
  /\ Browser.stored STORAGE_KEYS.AUTH_TOKEN (Provider.env final) = None.
Proof.
  destruct (refused_refresh_keeps_parsed_user Fixture.read_back
              (Fixture.returning_visit (Sample.answering 500 JNull))
              (Raw (JStr "t0k3n")) (Stringified Sample.ada) Sample.ada
              eq_refl eq_refl eq_refl eq_refl eq_refl)
    as (Huser & _ & Htoken & _).
  - intros resp [= <-]. split; [reflexivity | discriminate].
  - split; [exact Huser | exact Htoken].
Defined.

(** * The endpoint constants *)

Lemma serving_path e :
  exists c, ApiClient.invoke (API_ENDPOINTS.serving e) = Axios.request c
            /\ Axios.call_url c = API_ENDPOINTS.path e.
Proof. destruct e; eexists; split; reflexivity. Qed.

(** X30. The client, which spells its paths out instead of reading them
    from [API_ENDPOINTS], has not drifted from the table: for every entry,
    with any arguments, some client method sends its one request to
    exactly the path of that entry. *)
Theorem every_endpoint_constant_is_served (e : API_ENDPOINTS.Endpoint) :
  exists m, forall w,
    exists r,
      requests (Eff.exec (ApiClient.invoke m) w) = requests w ++ [r]
      /\ url r = API_ENDPOINTS.path e.
Proof.
  destruct (serving_path e) as (c & Hc & Hurl).
  eexists. intros w. rewrite Hc, request_requests.
  eexists. split; [reflexivity|]. exact Hurl.
Qed.
